(** * A to-do list backend: web routes, GraphQL resolvers and middleware

    The development follows the TypeScript sources:
    - [models/Todo.ts]                      the task schema,
    - [graphql/resolvers/todoResolvers.ts]  the task query and mutations,
    - [graphql/resolvers/userResolvers.ts]  registration and login of the API,
    - [middleware/auth.ts]                  the cookie/JWT middleware,
    - [routes/web.ts]                       the form-based web routes,
    - [index.ts]                            the middleware chain.

    The document store is a pair of collections kept in insertion order;
    every handler is a function from the store to a result and the next
    store.  What the libraries around the code do (the BSON driver, the
    JWT library, bcrypt, the validator, csurf, the router) is kept in
    small interfaces. *)

From Stdlib Require Import ZArith Ascii String Lia Permutation.
From stdpp Require Import base option list strings pretty gmap sorting.

Local Open Scope Z_scope.

(** ** JavaScript values that the handlers test *)

Module JS.

(** [!!s] for a string: only the empty string is falsy. *)
Definition truthy (s : string) : bool :=
  match s with
  | EmptyString => false
  | String _ _ => true
  end.

(** [!!x] for a value that is a string or [undefined]. *)
Definition truthy_opt (x : option string) : bool :=
  match x with
  | Some s => truthy s
  | None => false
  end.

(** [a || b] on strings. *)
Definition or_else (a b : string) : string :=
  if truthy a then a else b.

(** [a ?? b]. *)
Definition nullish {A : Type} (a : option A) (b : A) : A :=
  match a with
  | Some x => x
  | None => b
  end.

(** A string is a sequence of bytes that holds its text in UTF-8, as the
    string literals of this file do: a character of ASCII is one byte, any
    other character two to four.  The pattern [\s] takes the characters
    U+0009 to U+000D, U+0020, U+00A0, U+1680, U+2000 to U+200A, U+2028,
    U+2029, U+202F, U+205F, U+3000 and U+FEFF. *)

(** White space in one byte: U+0009 to U+000D and U+0020. *)
Definition isWhitespace (c : ascii) : bool :=
  let n := nat_of_ascii c in
  (Nat.eqb n 32 || (Nat.leb 9 n && Nat.leb n 13))%bool.

(** White space in two bytes: U+00A0. *)
Definition isWhitespace2 (a b : ascii) : bool :=
  Nat.eqb (nat_of_ascii a) 194 && Nat.eqb (nat_of_ascii b) 160.

(** White space in three bytes: U+1680; U+2000 to U+200A, U+2028, U+2029
    and U+202F; U+205F; U+3000; U+FEFF. *)
Definition isWhitespace3 (a b c : ascii) : bool :=
  let x := nat_of_ascii a in
  let y := nat_of_ascii b in
  let z := nat_of_ascii c in
  (Nat.eqb x 225 && Nat.eqb y 154 && Nat.eqb z 128)
  || (Nat.eqb x 226 && Nat.eqb y 128
      && ((Nat.leb 128 z && Nat.leb z 138) || Nat.eqb z 168 || Nat.eqb z 169
          || Nat.eqb z 175))
  || (Nat.eqb x 226 && Nat.eqb y 129 && Nat.eqb z 159)
  || (Nat.eqb x 227 && Nat.eqb y 128 && Nat.eqb z 128)
  || (Nat.eqb x 239 && Nat.eqb y 187 && Nat.eqb z 191).

(** The string without the white space it starts with.  With [back] the
    bytes are read in reverse, as they come when a string is read from its
    end. *)
Fixpoint dropWhitespace (back : bool) (s : string) : string :=
  match s with
  | EmptyString => EmptyString
  | String a r =>
      if isWhitespace a then dropWhitespace back r
      else
        match r with
        | EmptyString => s
        | String b r2 =>
            if (if back then isWhitespace2 b a else isWhitespace2 a b)
            then dropWhitespace back r2
            else
              match r2 with
              | EmptyString => s
              | String c r3 =>
                  if (if back then isWhitespace3 c b a else isWhitespace3 a b c)
                  then dropWhitespace back r3
                  else s
              end
        end
  end.

Fixpoint reverseOnto (s acc : string) : string :=
  match s with
  | EmptyString => acc
  | String c r => reverseOnto r (String c acc)
  end.

Definition reverse (s : string) : string := reverseOnto s EmptyString.

Definition trimStart (s : string) : string := dropWhitespace false s.

Definition trimEnd (s : string) : string :=
  reverse (dropWhitespace true (reverse s)).

(** [s.trim()]: the string without the white space at its two ends. *)
Definition trim (s : string) : string := trimEnd (trimStart s).

(** The number of characters of a string: the bytes that do not continue
    a character. *)
Fixpoint codePoints (s : string) : nat :=
  match s with
  | EmptyString => O
  | String c r =>
      let n := nat_of_ascii c in
      if Nat.leb 128 n && Nat.leb n 191 then codePoints r
      else S (codePoints r)
  end.

(** [s.startsWith(p)]. *)
Fixpoint startsWith (p s : string) : bool :=
  match p with
  | EmptyString => true
  | String a p' =>
      match s with
      | EmptyString => false
      | String b s' => if Ascii.eqb a b then startsWith p' s' else false
      end
  end.

End JS.

(** ** Errors and results *)

(** A thrown value: the handlers only ever read [message] and [code]. *)
Record JsError := mkError {
  message : string;
  code : option string
}.

#[global] Instance JsError_eq_dec : EqDecision JsError.
Proof. solve_decision. Defined.

(** [new Error(msg)], and [new GraphQLError(msg)], which the API formats to
    its message alone. *)
Definition Error (msg : string) : JsError := mkError msg None.

Inductive Result (A : Type) : Type :=
| Ok (a : A)
| Throw (e : JsError).
Arguments Ok {A} a.
Arguments Throw {A} e.

Definition isOk {A : Type} (r : Result A) : bool :=
  match r with
  | Ok _ => true
  | Throw _ => false
  end.

(** ** The database driver: object identifiers and the errors it raises *)

Class Driver := {
  ObjectId : Type;
  ObjectId_eq_dec :: EqDecision ObjectId;
  (** [new Types.ObjectId(s)], and the cast the models apply to a string in
      an [ObjectId] path; [None] when the driver throws. *)
  ObjectId_new : string -> option ObjectId;
  (** [oid.toString()]. *)
  ObjectId_toString : ObjectId -> string;
  (** The error the driver throws for a string that is no identifier. *)
  BSONError : JsError;
  (** The server's error for a negative [skip]. *)
  negativeSkipError : JsError;
  (** The server's error for an insert whose [_id] is taken (E11000). *)
  duplicateKeyError : JsError;
  (** The error of a [save()] whose document is no longer stored. *)
  documentNotFoundError : JsError;
  (** The model's error for a string it cannot cast to an identifier. *)
  castError : JsError
}.

(** [date.toISOString()] on a time stamp in milliseconds. *)
Class JsDate := {
  toISOString : Z -> string
}.

(** ** The task model ([models/Todo.ts]) *)

Module Todo.
Section Model.
Context `{Driver}.

(** [ITodo]: the schema's four paths and the identifier the store keeps. *)
Record ITodo := mkTodo {
  _id : ObjectId;
  text : string;
  completed : bool;
  createdAt : Z;
  userId : ObjectId
}.

#[global] Instance ITodo_eq_dec : EqDecision ITodo.
Proof. solve_decision. Defined.

(** The message of the validation error for a path that is [required]. *)
Definition requiredMessage (path : string) : string :=
  "Todo validation failed: " +:+ path +:+ ": Path `" +:+ path +:+ "` is required.".

(** [text: { type: String, required: true }]: for a string path the
    required validator accepts exactly the strings of non-zero length. *)
Definition validate (d : ITodo) : Result unit :=
  if JS.truthy (text d) then Ok tt
  else Throw (Error (requiredMessage "text")).

(** [new Todo({ text, userId })]: [completed] and [createdAt] take the
    schema's defaults, the identifier is generated by the driver. *)
Definition create (freshId : ObjectId) (now : Z) (txt : string) (uid : ObjectId)
  : ITodo :=
  {| _id := freshId; text := txt; completed := false; createdAt := now;
     userId := uid |}.

(** The filter [{ userId }]. *)
Definition ownedBy (uid : ObjectId) (d : ITodo) : bool :=
  bool_decide (userId d = uid).

(** The filter [{ _id, userId }]. *)
Definition matches (oid uid : ObjectId) (d : ITodo) : bool :=
  bool_decide (_id d = oid) && ownedBy uid d.

(** [Todo.findOne(filter)]: the first matching document. *)
Definition findOne (f : ITodo -> bool) (docs : list ITodo) : option ITodo :=
  List.find f docs.

(** [Todo.deleteOne(filter)]: the collection without its first matching
    document, and [deletedCount]. *)
Fixpoint deleteOne (f : ITodo -> bool) (docs : list ITodo) : list ITodo * nat :=
  match docs with
  | [] => ([], 0%nat)
  | d :: rest =>
      if f d then (rest, 1%nat)
      else let '(rest', n) := deleteOne f rest in (d :: rest', n)
  end.

(** The update a loaded document's [save()] sends after [completed] was
    assigned: [updateOne({ _id }, { $set: { completed } })].  The second
    component tells whether a document matched. *)
Fixpoint setCompleted (oid : ObjectId) (b : bool) (docs : list ITodo)
  : list ITodo * bool :=
  match docs with
  | [] => ([], false)
  | d :: rest =>
      if bool_decide (_id d = oid)
      then ({| _id := _id d; text := text d; completed := b;
               createdAt := createdAt d; userId := userId d |} :: rest, true)
      else let '(rest', hit) := setCompleted oid b rest in (d :: rest', hit)
  end.

(** [sort({ createdAt: -1 })]: newest first. *)
Definition newerFirst (a b : ITodo) : Prop := createdAt b <= createdAt a.

#[global] Instance newerFirst_dec a b : Decision (newerFirst a b).
Proof. unfold newerFirst. apply _. Defined.

Definition sortByCreatedAtDesc (docs : list ITodo) : list ITodo :=
  merge_sort newerFirst docs.

(** [skip(n)]: the server refuses a negative offset. *)
Definition skip (n : Z) (docs : list ITodo) : option (list ITodo) :=
  if n <? 0 then None else Some (drop (Z.to_nat n) docs).

(** [limit(n)]: zero means no limit, and the driver sends a negative limit
    as its absolute value. *)
Definition limit (n : Z) (docs : list ITodo) : list ITodo :=
  if n =? 0 then docs else take (Z.to_nat (Z.abs n)) docs.

End Model.
End Todo.

(** ** The user model *)

(** The password hashing library. *)
Class Bcrypt := {
  bcrypt_hash : string -> string;
  bcrypt_compare : string -> string -> bool
}.

Module User.
Section Model.
Context `{Driver} `{Bcrypt}.

Record IUser := mkUser {
  _id : ObjectId;
  username : string;
  password : string
}.

#[global] Instance IUser_eq_dec : EqDecision IUser.
Proof. solve_decision. Defined.

(** [new User({ username, password })]. *)
Definition create (freshId : ObjectId) (name pw : string) : IUser :=
  {| _id := freshId; username := name; password := pw |}.

(** Modelled from the spec: [models/User.ts] is not among the sources; the
    callers' comments say that a pre-save hook hashes the password, and the
    spec that registration derives a one-way password hash and persists a
    new user. *)
Definition preSave (u : IUser) : IUser :=
  {| _id := _id u; username := username u; password := bcrypt_hash (password u) |}.

(** Modelled from the spec: [models/User.ts] is not among the sources;
    authentication fails when the supplied password's hash does not match
    the stored hash. *)
Definition comparePassword (u : IUser) (candidate : string) : bool :=
  bcrypt_compare candidate (password u).

(** [User.findOne({ username })]. *)
Definition findOne (name : string) (docs : list IUser) : option IUser :=
  List.find (fun u => bool_decide (username u = name)) docs.

(** [User.findById(id)]. *)
Definition findById (oid : ObjectId) (docs : list IUser) : option IUser :=
  List.find (fun u => bool_decide (_id u = oid)) docs.

End Model.
End User.

(** ** The document store and the handlers' monad *)

Section Store.
Context `{Driver} `{Bcrypt}.

Record Store := mkStore {
  todos : list Todo.ITodo;
  users : list User.IUser
}.

(** What the environment supplies to a handler that creates a document: the
    identifier the driver generates and the clock's [Date.now()]. *)
Record Env := mkEnv {
  freshId : ObjectId;
  now : Z
}.

(** A handler: from the store to what it returns or throws, and the store
    it leaves.  A [throw] undoes no write. *)
Definition M (A : Type) : Type := Store -> Result A * Store.

Definition ret {A : Type} (a : A) : M A := fun st => (Ok a, st).

Definition throw {A : Type} (e : JsError) : M A := fun st => (Throw e, st).

Definition bind {A B : Type} (m : M A) (k : A -> M B) : M B :=
  fun st =>
    match m st with
    | (Ok a, st') => k a st'
    | (Throw e, st') => (Throw e, st')
    end.

(** [try { m } catch (err) { h err }]. *)
Definition try_catch {A : Type} (m : M A) (h : JsError -> M A) : M A :=
  fun st =>
    match m st with
    | (Ok a, st') => (Ok a, st')
    | (Throw e, st') => h e st'
    end.

(** A pure step that may throw. *)
Definition lift {A : Type} (r : Result A) : M A := fun st => (r, st).

Definition get_todos : M (list Todo.ITodo) := fun st => (Ok (todos st), st).

Definition put_todos (docs : list Todo.ITodo) : M unit :=
  fun st => (Ok tt, {| todos := docs; users := users st |}).

Definition get_users : M (list User.IUser) := fun st => (Ok (users st), st).

Definition put_users (docs : list User.IUser) : M unit :=
  fun st => (Ok tt, {| todos := todos st; users := docs |}).

(** [new Types.ObjectId(s)] where it may throw. *)
Definition newObjectId (s : string) : M ObjectId :=
  match ObjectId_new s with
  | Some oid => ret oid
  | None => throw BSONError
  end.

(** [doc.save()] of a task built by [new Todo(...)]: the schema's
    validation, then the insert. *)
Definition saveNewTodo (d : Todo.ITodo) : M Todo.ITodo :=
  bind (lift (Todo.validate d)) (fun _ =>
  bind get_todos (fun docs =>
  if existsb (fun x => bool_decide (Todo._id x = Todo._id d)) docs
  then throw duplicateKeyError
  else bind (put_todos (docs ++ [d])) (fun _ => ret d))).

(** [todo.save()] of a task loaded by [findOne] whose [completed] was
    assigned: only that path is written back. *)
Definition saveCompleted (d : Todo.ITodo) : M Todo.ITodo :=
  bind get_todos (fun docs =>
  let '(docs', hit) := Todo.setCompleted (Todo._id d) (Todo.completed d) docs in
  if hit then bind (put_todos docs') (fun _ => ret d)
  else throw documentNotFoundError).

(** [Todo.deleteOne(filter)], returning [deletedCount]. *)
Definition deleteOneTodo (f : Todo.ITodo -> bool) : M nat :=
  bind get_todos (fun docs =>
  let '(docs', n) := Todo.deleteOne f docs in
  bind (put_todos docs') (fun _ => ret n)).

(** Modelled from the spec: [models/User.ts] is not among the sources;
    [user.save()] of a user built by [new User(...)] hashes the password in
    the pre-save hook and persists the new user. *)
Definition saveNewUser (u : User.IUser) : M User.IUser :=
  let u' := User.preSave u in
  bind get_users (fun docs =>
  if existsb (fun x => bool_decide (User._id x = User._id u')) docs
  then throw duplicateKeyError
  else bind (put_users (docs ++ [u'])) (fun _ => ret u')).

End Store.

Declare Scope handler_scope.
Delimit Scope handler_scope with handler.
Notation "'let*' x ':=' m 'in' k" := (bind m (fun x => k))
  (at level 10, x pattern, m at level 100, k at level 200) : handler_scope.

(** ** Requests and responses *)

Module Express.
Section Types.
Context `{Driver}.

(** The parts of a request the code reads.  [cookies] is what the cookie
    parser leaves ([undefined] without it), [userId] the field the
    authentication middleware adds. *)
Record Request := mkRequest {
  method : string;
  originalUrl : string;
  path : string;
  cookies : option (gmap string string);
  body : gmap string string;
  query : gmap string string;
  headers : gmap string string;
  params : gmap string string;
  userId : option string
}.

(** An entry of the [errors] array the views list. *)
Record FieldError := mkFieldError {
  param : string;
  msg : string
}.

(** [res.render(view, locals)], by view. *)
Inductive View : Type :=
| RegisterView (errors : list FieldError) (username : string)
| LoginView (errors : list FieldError) (username : string)
| TodosView (docs : list Todo.ITodo) (user : option User.IUser)
    (errors : list FieldError)
| ErrorView (message : string) (withStack : bool).

Inductive Response : Type :=
| Redirect (url : string)
| Render (status : Z) (view : View)
| End_ (status : Z)
| Json (status : Z) (message : string)
| Send (status : Z) (text : string)
| SetCookie (name value : string) (r : Response)
| ClearCookie (name : string) (r : Response).

(** The status line of a response; [res.redirect] answers 302. *)
Fixpoint statusCode (r : Response) : Z :=
  match r with
  | Redirect _ => 302
  | Render s _ => s
  | End_ s => s
  | Json s _ => s
  | Send s _ => s
  | SetCookie _ _ r' => statusCode r'
  | ClearCookie _ r' => statusCode r'
  end.

(** How a middleware hands over: [next()], [next(err)], or a response of
    its own. *)
Inductive Flow (A : Type) : Type :=
| Next (a : A)
| NextErr (e : JsError)
| Sent (r : Response).

End Types.
Arguments Next {_ A} a.
Arguments NextErr {_ A} e.
Arguments Sent {_ A} r.

(** [req.userId = u]. *)
Definition setUserId (u : string) (req : Request) : Request :=
  {| method := method req; originalUrl := originalUrl req; path := path req;
     cookies := cookies req; body := body req; query := query req;
     headers := headers req; params := params req; userId := Some u |}.

End Express.

(** ** The authentication middleware ([middleware/auth.ts]) *)

(** The JWT library: [verify] is [None] when it throws (malformed, expired
    or mis-signed token). *)
Record JwtPayload := mkPayload {
  payload_userId : option string
}.

Class Jwt := {
  jwt_sign : JwtPayload -> string -> string -> string;
  jwt_verify : string -> string -> option JwtPayload
}.

(** The process environment the modules read when they load. *)
Record ProcessEnv := mkProcessEnv {
  JWT_SECRET : option string;
  NODE_ENV : option string
}.

Module auth.
Section Auth.
Context `{Driver} `{Bcrypt} `{Jwt}.
Variable env : ProcessEnv.

(** [process.env.JWT_SECRET ?? "your-secret-key"]. *)
Definition JWT_SECRET : string := JS.nullish (JWT_SECRET env) "your-secret-key".

(** The context the resolvers receive. *)
Record AuthContext := mkContext {
  userId : option string
}.

(** [req.cookies?.token]. *)
Definition tokenCookie (req : Express.Request) : option string :=
  match Express.cookies req with
  | Some jar => jar !! "token"
  | None => None
  end.

(** [jwtAuth]: a verification that throws is caught and logged; every path
    ends in [next()]. *)
Definition jwtAuth (req : Express.Request) : Express.Flow Express.Request :=
  match tokenCookie req with
  | Some token =>
      if JS.truthy token then
        match jwt_verify token JWT_SECRET with
        | Some payload =>
            match payload_userId payload with
            | Some u =>
                if JS.truthy u then Express.Next (Express.setUserId u req)
                else Express.Next req
            | None => Express.Next req
            end
        | None => Express.Next req
        end
      else Express.Next req
  | None => Express.Next req
  end.

(** [ensureAuth]. *)
Definition ensureAuth (req : Express.Request) : Express.Flow Express.Request :=
  if JS.truthy_opt (Express.userId req) then Express.Next req
  else Express.Sent (Express.Redirect "/login").

(** [authMiddleware]. *)
Definition authMiddleware (req : Express.Request) : AuthContext :=
  match tokenCookie req with
  | Some token =>
      if JS.truthy token then
        match jwt_verify token JWT_SECRET with
        | Some payload =>
            match payload_userId payload with
            | Some u =>
                if JS.truthy u then {| userId := Some u |}
                else {| userId := None |}
            | None => {| userId := None |}
            end
        | None => {| userId := None |}
        end
      else {| userId := None |}
  | None => {| userId := None |}
  end.

End Auth.
End auth.

(** ** The task resolvers ([graphql/resolvers/todoResolvers.ts]) *)

Module todoResolvers.
Section Resolvers.
Context `{Driver} `{Bcrypt} `{JsDate}.
Local Open Scope handler_scope.

Record TodosArgs := mkTodosArgs {
  args_skip : option Z;
  args_take : option Z
}.

Record TodoPayload := mkPayload {
  id : string;
  text : string;
  completed : bool;
  createdAt : string
}.

(** The payload built from a hydrated document [d]: [d.id] is the model's
    virtual getter, the identifier as a string. *)
Definition payloadOf (d : Todo.ITodo) : TodoPayload :=
  {| id := ObjectId_toString (Todo._id d);
     text := Todo.text d;
     completed := Todo.completed d;
     createdAt := toISOString (Todo.createdAt d) |}.

(** The values of a plain object. *)
Inductive Value : Type :=
| VString (s : string)
| VBoolean (b : bool)
| VDate (t : Z)
| VObjectId (o : ObjectId)
| VNumber (n : Z).

(** [.lean()]: the stored document as a plain object.  It has the stored
    fields (the schema's paths, [_id] and the version key) and none of the
    model's getters. *)
Definition lean (d : Todo.ITodo) : gmap string Value :=
  {[ "_id" := VObjectId (Todo._id d);
     "text" := VString (Todo.text d);
     "completed" := VBoolean (Todo.completed d);
     "createdAt" := VDate (Todo.createdAt d);
     "userId" := VObjectId (Todo.userId d);
     "__v" := VNumber 0 ]}.

(** Reading a property of [undefined]. *)
Definition TypeError_undefined (prop : string) : JsError :=
  Error ("Cannot read properties of undefined (reading '" +:+ prop +:+ "')").

Definition valueToString (v : Value) : string :=
  match v with
  | VString s => s
  | VBoolean true => "true"
  | VBoolean false => "false"
  | VDate t => toISOString t
  | VObjectId o => ObjectId_toString o
  | VNumber n => pretty n
  end.

(** The callback of [docs.map]: [d.id.toString()] is evaluated first and
    throws when [d] has no property [id].  The last case does not arise
    for objects made by [lean]. *)
Definition leanPayload (d : gmap string Value) : Result TodoPayload :=
  match d !! "id" with
  | None => Throw (TypeError_undefined "toString")
  | Some v =>
      match d !! "text", d !! "completed", d !! "createdAt" with
      | Some (VString t), Some (VBoolean c), Some (VDate z) =>
          Ok {| id := valueToString v; text := t; completed := c;
                createdAt := toISOString z |}
      | _, _, _ => Throw (TypeError_undefined "toISOString")
      end
  end.

(** [docs.map(f)] for an [f] that may throw: the first throw ends it. *)
Fixpoint mapResult {A B : Type} (f : A -> Result B) (l : list A)
  : Result (list B) :=
  match l with
  | [] => Ok []
  | x :: rest =>
      match f x with
      | Throw e => Throw e
      | Ok y =>
          match mapResult f rest with
          | Throw e => Throw e
          | Ok ys => Ok (y :: ys)
          end
      end
  end.

(** [Todo.find({ userId }).skip(skip).limit(take).sort({ createdAt: -1 })]:
    the calls set options of one query; the server filters, sorts, skips
    and limits in that order. *)
Definition findPage (uid : ObjectId) (skip take : Z) (docs : list Todo.ITodo)
  : Result (list Todo.ITodo) :=
  match Todo.skip skip
          (Todo.sortByCreatedAtDesc (List.filter (Todo.ownedBy uid) docs)) with
  | None => Throw negativeSkipError
  | Some rest => Ok (Todo.limit take rest)
  end.

Definition authenticationRequired {A : Type} : M A :=
  throw (Error "Authentication required").

(** [Query.todos]. *)
Definition todos (args : TodosArgs) (context : auth.AuthContext)
  : M (list TodoPayload) :=
  match auth.userId context with
  | None => authenticationRequired
  | Some userId =>
      if negb (JS.truthy userId) then authenticationRequired
      else
        let skip := JS.nullish (args_skip args) 0 in
        let take := JS.nullish (args_take args) 10 in
        try_catch
          (let* uid := newObjectId userId in
           let* all := get_todos in
           let* docs := lift (findPage uid skip take all) in
           lift (mapResult leanPayload (List.map lean docs)))
          (fun _ => throw (Error "Failed to fetch todos"))
  end.

(** [Mutation.addTodo]. *)
Definition addTodo (e : Env) (args_text : string) (context : auth.AuthContext)
  : M TodoPayload :=
  match auth.userId context with
  | None => authenticationRequired
  | Some userId =>
      if negb (JS.truthy userId) then authenticationRequired
      else
        try_catch
          (let* uid := newObjectId userId in
           let newTodo := Todo.create (freshId e) (now e) args_text uid in
           let* saved := saveNewTodo newTodo in
           ret (payloadOf saved))
          (fun err =>
             throw (Error (JS.or_else (message err) "Failed to add todo")))
  end.

(** [todo.completed = !todo.completed]. *)
Definition flip (d : Todo.ITodo) : Todo.ITodo :=
  {| Todo._id := Todo._id d; Todo.text := Todo.text d;
     Todo.completed := negb (Todo.completed d);
     Todo.createdAt := Todo.createdAt d; Todo.userId := Todo.userId d |}.

(** [Mutation.toggleTodo]. *)
Definition toggleTodo (args_id : string) (context : auth.AuthContext)
  : M TodoPayload :=
  match auth.userId context with
  | None => authenticationRequired
  | Some userId =>
      if negb (JS.truthy userId) then authenticationRequired
      else
        try_catch
          (let* oid := newObjectId args_id in
           let* uid := newObjectId userId in
           let* docs := get_todos in
           match Todo.findOne (Todo.matches oid uid) docs with
           | None => throw (Error "Todo not found")
           | Some todo =>
               let* updated := saveCompleted (flip todo) in
               ret (payloadOf updated)
           end)
          (fun err =>
             throw (Error (JS.or_else (message err) "Failed to toggle todo")))
  end.

(** [Mutation.deleteTodo]. *)
Definition deleteTodo (args_id : string) (context : auth.AuthContext)
  : M bool :=
  match auth.userId context with
  | None => authenticationRequired
  | Some userId =>
      if negb (JS.truthy userId) then authenticationRequired
      else
        try_catch
          (let* oid := newObjectId args_id in
           let* uid := newObjectId userId in
           let* n := deleteOneTodo (Todo.matches oid uid) in
           if Nat.eqb n 0 then throw (Error "Todo not found") else ret true)
          (fun err =>
             throw (Error (JS.or_else (message err) "Failed to delete todo")))
  end.

End Resolvers.
End todoResolvers.

(** ** The user resolvers ([graphql/resolvers/userResolvers.ts]) *)

Module userResolvers.
Section Resolvers.
Context `{Driver} `{Bcrypt} `{Jwt}.
Variable env : ProcessEnv.
Local Open Scope handler_scope.

(** [process.env.JWT_SECRET || "your-secret-key"]. *)
Definition JWT_SECRET : string :=
  match JWT_SECRET env with
  | Some s => JS.or_else s "your-secret-key"
  | None => "your-secret-key"
  end.

Record UserPayload := mkUserPayload {
  id : string;
  username : string
}.

(** [Mutation.register]: the resolver takes no context. *)
Definition register (e : Env) (username password : string) : M UserPayload :=
  let* docs := get_users in
  match User.findOne username docs with
  | Some _ => throw (Error "Username already exists")
  | None =>
      let user := User.create (freshId e) username password in
      let* user := saveNewUser user in
      ret {| id := ObjectId_toString (User._id user);
             username := User.username user |}
  end.

(** [Mutation.login]: the resolver takes no context. *)
Definition login (username password : string) : M string :=
  let* docs := get_users in
  match User.findOne username docs with
  | None => throw (Error "User not found")
  | Some user =>
      if negb (User.comparePassword user password)
      then throw (Error "Invalid password")
      else
        ret (jwt_sign
               {| payload_userId := Some (ObjectId_toString (User._id user)) |}
               JWT_SECRET "7d")
  end.

End Resolvers.
End userResolvers.

(** ** The web routes ([routes/web.ts]) *)

(** The validator library, as the chains of [express-validator] call it:
    the sanitizer [trim()] without a character set, the validator
    [isLength({ min })], and [isStrongPassword] with the options the
    register form passes (length 8, one lower case, one upper case, one
    digit, one symbol). *)
Class Validator := {
  trim : string -> string;
  isLength : Z -> string -> bool;
  isStrongPassword : string -> bool
}.

(** The router's path matching. *)
Inductive Route : Type :=
| RRoot
| RRegister
| RLogin
| RLogout
| RTodos
| RTodosAdd
| RTodosToggle (id : string)
| RTodosDelete (id : string).

Class Router := {
  matchPath : string -> option Route
}.

Module web.
Section Routes.
Context `{Driver} `{Bcrypt} `{Jwt} `{Validator} `{Router}.
Variable env : ProcessEnv.
Local Open Scope handler_scope.

(** [process.env.JWT_SECRET || "your-secret-key"]. *)
Definition JWT_SECRET : string :=
  match JWT_SECRET env with
  | Some s => JS.or_else s "your-secret-key"
  | None => "your-secret-key"
  end.

(** The value a validation chain reads for a field: a missing field counts
    as the empty string. *)
Definition field (name : string) (req : Express.Request) : string :=
  default "" (Express.body req !! name).

Definition fieldError (p m : string) : Express.FieldError :=
  {| Express.param := p; Express.msg := m |}.

(** One validator of a chain: its error when the check fails. *)
Definition check (ok : bool) (p m : string) : list Express.FieldError :=
  if ok then [] else [fieldError p m].

(** The model's cast of a string in an identifier path. *)
Definition castObjectId (s : string) : M ObjectId :=
  match ObjectId_new s with
  | Some oid => ret oid
  | None => throw castError
  end.

(** [Todo.find({ userId }).sort({ createdAt: -1 })]. *)
Definition findTodos (uid : ObjectId) : M (list Todo.ITodo) :=
  let* docs := get_todos in
  ret (Todo.sortByCreatedAtDesc (List.filter (Todo.ownedBy uid) docs)).

(** A route behind [ensureAuth]: the handler runs once [ensureAuth] has
    called [next()], and reads [req.userId].  The last case does not
    arise. *)
Definition guarded (handler : string -> M Express.Response)
    (req : Express.Request) : M Express.Response :=
  match auth.ensureAuth req with
  | Express.Sent r => ret r
  | Express.NextErr e => throw e
  | Express.Next req' =>
      match Express.userId req' with
      | Some userId => handler userId
      | None => ret (Express.Redirect "/login")
      end
  end.

(** [POST /register]. *)
Definition postRegister (e : Env) (req : Express.Request) : M Express.Response :=
  let username := trim (field "username" req) in
  let errors :=
    check (isLength 3 username) "username"
      "Username must be at least 3 characters"
    ++ check (isStrongPassword (field "password" req)) "password"
      "Password must be at least 8 chars, include uppercase, lowercase, number & symbol"
    ++ check (bool_decide (Express.body req !! "confirmPassword"
                           = Express.body req !! "password"))
      "confirmPassword" "Passwords do not match" in
  match errors with
  | _ :: _ => ret (Express.Render 400 (Express.RegisterView errors username))
  | [] =>
      let* docs := get_users in
      match User.findOne username docs with
      | Some _ =>
          ret (Express.Render 400
                 (Express.RegisterView
                    [fieldError "username" "Username already taken"] username))
      | None =>
          let* _ := saveNewUser
                      (User.create (freshId e) username (field "password" req)) in
          ret (Express.Redirect "/login")
      end
  end.

(** [POST /login]. *)
Definition postLogin (req : Express.Request) : M Express.Response :=
  let username := trim (field "username" req) in
  let errors :=
    check (JS.truthy username) "username" "Username is required"
    ++ check (JS.truthy (field "password" req)) "password"
      "Password cannot be blank" in
  match errors with
  | _ :: _ => ret (Express.Render 400 (Express.LoginView errors username))
  | [] =>
      let* docs := get_users in
      let user := User.findOne username docs in
      let valid :=
        match user with
        | Some u => User.comparePassword u (field "password" req)
        | None => false
        end in
      match user with
      | Some u =>
          if valid then
            let token :=
              jwt_sign
                {| payload_userId := Some (ObjectId_toString (User._id u)) |}
                JWT_SECRET "2h" in
            ret (Express.SetCookie "token" token (Express.Redirect "/todos"))
          else
            ret (Express.Render 400
                   (Express.LoginView
                      [fieldError "password" "Invalid username or password"]
                      username))
      | None =>
          ret (Express.Render 400
                 (Express.LoginView
                    [fieldError "password" "Invalid username or password"]
                    username))
      end
  end.

(** [POST /logout]. *)
Definition postLogout : Express.Request -> M Express.Response :=
  guarded (fun _ => ret (Express.ClearCookie "token" (Express.Redirect "/login"))).

(** The two reads the task page is rendered from. *)
Definition todosPage (userId : string) (status : Z)
    (errors : list Express.FieldError) : M Express.Response :=
  let* uid := castObjectId userId in
  let* docs := findTodos uid in
  let* accounts := get_users in
  ret (Express.Render status
         (Express.TodosView docs (User.findById uid accounts) errors)).

(** [GET /todos]. *)
Definition getTodos : Express.Request -> M Express.Response :=
  guarded (fun userId => todosPage userId 200 []).

(** [POST /todos/add]. *)
Definition postTodosAdd (e : Env) (req : Express.Request) : M Express.Response :=
  guarded (fun userId =>
    let text := trim (field "text" req) in
    let errors := check (JS.truthy text) "text" "Todo text cannot be empty" in
    match errors with
    | _ :: _ => todosPage userId 400 errors
    | [] =>
        let* uid := castObjectId userId in
        let* _ := saveNewTodo (Todo.create (freshId e) (now e) text uid) in
        ret (Express.Redirect "/todos")
    end) req.

(** [POST /todos/:id/toggle]. *)
Definition postTodosToggle (id : string) : Express.Request -> M Express.Response :=
  guarded (fun userId =>
    let* oid := castObjectId id in
    let* uid := castObjectId userId in
    let* docs := get_todos in
    match Todo.findOne (Todo.matches oid uid) docs with
    | Some todo =>
        let* _ := saveCompleted (todoResolvers.flip todo) in
        ret (Express.Redirect "/todos")
    | None => ret (Express.Redirect "/todos")
    end).

(** [POST /todos/:id/delete]. *)
Definition postTodosDelete (id : string) : Express.Request -> M Express.Response :=
  guarded (fun userId =>
    let* oid := castObjectId id in
    let* uid := castObjectId userId in
    let* _ := deleteOneTodo (Todo.matches oid uid) in
    ret (Express.Redirect "/todos")).

(** The router: [None] when no route takes the request and it passes on.
    A route registered with [get] also answers [HEAD].  The methods are
    the ones that reach the router: a preflight is answered before it, by
    the [cors] middleware of [index.ts]. *)
Definition router (e : Env) (req : Express.Request)
  : M (option Express.Response) :=
  let get := bool_decide (Express.method req = "GET")
             || bool_decide (Express.method req = "HEAD") in
  let post := bool_decide (Express.method req = "POST") in
  let run (h : M Express.Response) : M (option Express.Response) :=
    let* r := h in ret (Some r) in
  match matchPath (Express.path req) with
  | Some RRoot =>
      if get then ret (Some (Express.Redirect "/login")) else ret None
  | Some RRegister =>
      if get then ret (Some (Express.Render 200 (Express.RegisterView [] "")))
      else if post then run (postRegister e req) else ret None
  | Some RLogin =>
      if get then ret (Some (Express.Render 200 (Express.LoginView [] "")))
      else if post then run (postLogin req) else ret None
  | Some RLogout => if post then run (postLogout req) else ret None
  | Some RTodos => if get then run (getTodos req) else ret None
  | Some RTodosAdd => if post then run (postTodosAdd e req) else ret None
  | Some (RTodosToggle id) =>
      if post then run (postTodosToggle id req) else ret None
  | Some (RTodosDelete id) =>
      if post then run (postTodosDelete id req) else ret None
  | None => ret None
  end.

End Routes.
End web.

(** ** The middleware chain ([index.ts]) *)

(** The token arithmetic of the anti-forgery middleware. *)
Class Csrf := {
  tokens_verify : string -> string -> bool;
  tokens_create : string -> string
}.

(** The operations of the API's schema, as the server parses them from a
    request. *)
Inductive Operation : Type :=
| OpTodos (skip take : option Z)
| OpRegister (username password : string)
| OpLogin (username password : string)
| OpAddTodo (text : string)
| OpToggleTodo (id : string)
| OpDeleteTodo (id : string).

(** What the chain leaves to its libraries: the rate limiter's verdict,
    the static file server, the mount-path test of [app.use(path, ...)]
    and the API server's parser. *)
Class Platform := {
  rateLimited : Express.Request -> bool;
  staticFile : Express.Request -> option string;
  mounted : string -> string -> bool;
  parseOperation : Express.Request -> option Operation
}.

Module index.
Section App.
Context `{Driver} `{Bcrypt} `{Jwt} `{Validator} `{Router} `{JsDate}
        `{Csrf} `{Platform}.
Variable env : ProcessEnv.
Local Open Scope handler_scope.

(** [a || b] where [a] may be [undefined]. *)
Definition orElse (a b : option string) : option string :=
  if JS.truthy_opt a then a else b.

(** The anti-forgery middleware's default [value(req)]. *)
Definition csrfValue (req : Express.Request) : option string :=
  orElse (Express.body req !! "_csrf")
  (orElse (Express.query req !! "_csrf")
  (orElse (Express.headers req !! "csrf-token")
  (orElse (Express.headers req !! "xsrf-token")
  (orElse (Express.headers req !! "x-csrf-token")
          (Express.headers req !! "x-xsrf-token"))))).

(** The methods the anti-forgery middleware does not check. *)
Definition ignoreMethod (m : string) : bool :=
  bool_decide (m = "GET") || bool_decide (m = "HEAD")
  || bool_decide (m = "OPTIONS").

(** [tokens.verify(secret, token)]: a missing or empty token never
    verifies. *)
Definition verifyToken (secret : string) (token : option string) : bool :=
  match token with
  | Some t => JS.truthy secret && JS.truthy t && tokens_verify secret t
  | None => false
  end.

Definition EBADCSRFTOKEN : JsError :=
  {| message := "invalid csrf token"; code := Some "EBADCSRFTOKEN" |}.

(** The secret a request runs under: its [_csrf] cookie, or a fresh secret
    when it has none. *)
Definition secretInForce (freshSecret : string) (jar : gmap string string)
  : string :=
  match jar !! "_csrf" with
  | Some s => if JS.truthy s then s else freshSecret
  | None => freshSecret
  end.

(** [csrfProtection]: the middleware made by [csurf({ cookie: ... })]; the
    result of [next()] is the secret in force. *)
Definition csrfProtection (freshSecret : string) (req : Express.Request)
  : Express.Flow string :=
  match Express.cookies req with
  | None => Express.NextErr (Error "misconfigured csrf")
  | Some jar =>
      let secret := secretInForce freshSecret jar in
      if negb (ignoreMethod (Express.method req))
         && negb (verifyToken secret (csrfValue req))
      then Express.NextErr EBADCSRFTOKEN
      else Express.Next secret
  end.

(** The paths the dispatch lets through unchecked. *)
Definition csrfExempt (urlPath : string) : bool :=
  JS.startsWith "/graphql" urlPath
  || JS.startsWith "/public" urlPath
  || bool_decide (urlPath = "/favicon.ico").

(** [res.locals]. *)
Record Locals := mkLocals {
  csrfToken : option string
}.

(** The dispatch in front of [csrfProtection] (step 4 of [index.ts]). *)
Definition csrfDispatch (freshSecret : string) (req : Express.Request)
  : Express.Flow Locals :=
  let urlPath := JS.or_else (Express.originalUrl req) "" in
  if csrfExempt urlPath then Express.Next {| csrfToken := None |}
  else
    match csrfProtection freshSecret req with
    | Express.NextErr err => Express.NextErr err
    | Express.Sent r => Express.Sent r
    | Express.Next secret =>
        Express.Next {| csrfToken := Some (tokens_create secret) |}
    end.

(** [process.env.NODE_ENV === "development"]. *)
Definition development : bool :=
  bool_decide (NODE_ENV env = Some "development").

Definition tamperingMessage : string :=
  "Form tampering detected (invalid CSRF token). Please refresh and try again.".

(** The CSRF error handler (step 8). *)
Definition csrfErrorHandler (err : JsError) : Express.Flow unit :=
  if bool_decide (code err = Some "EBADCSRFTOKEN")
  then Express.Sent
         (Express.Render 403 (Express.ErrorView tamperingMessage development))
  else Express.NextErr err.

(** The global error handler (step 9); no response has been started when
    the chain reaches it. *)
Definition globalErrorHandler (err : JsError) (req : Express.Request)
  : Express.Response :=
  let urlPath := JS.or_else (Express.originalUrl req) "" in
  if JS.startsWith "/graphql" urlPath
  then Express.Json 500 (JS.or_else (message err) "Internal server error")
  else Express.Render 500
         (Express.ErrorView (JS.or_else (message err) "Something went wrong")
            development).

(** [next(err)]: the error handlers in the order they are registered. *)
Definition errorHandlers (err : JsError) (req : Express.Request)
  : Express.Response :=
  match csrfErrorHandler err with
  | Express.Sent r => r
  | Express.NextErr err' => globalErrorHandler err' req
  | Express.Next _ => globalErrorHandler err req
  end.

(** What the API answers: the operation's data or the formatted error,
    which keeps the message alone. *)
Inductive Data : Type :=
| DTodos (l : list todoResolvers.TodoPayload)
| DTodo (t : todoResolvers.TodoPayload)
| DUser (u : userResolvers.UserPayload)
| DToken (t : string)
| DBoolean (b : bool).

Definition mapM {A B : Type} (f : A -> B) (m : M A) : M B :=
  let* a := m in ret (f a).

(** The resolver map ([graphql/resolvers/index.ts]) applied to an
    operation, with the context [{ userId: req.userId }]. *)
Definition execute (e : Env) (op : Operation) (req : Express.Request)
  : M Data :=
  let context := {| auth.userId := Express.userId req |} in
  match op with
  | OpTodos skip take =>
      mapM DTodos
        (todoResolvers.todos
           {| todoResolvers.args_skip := skip; todoResolvers.args_take := take |}
           context)
  | OpRegister username password =>
      mapM DUser (userResolvers.register e username password)
  | OpLogin username password =>
      mapM DToken (userResolvers.login env username password)
  | OpAddTodo text => mapM DTodo (todoResolvers.addTodo e text context)
  | OpToggleTodo id => mapM DTodo (todoResolvers.toggleTodo id context)
  | OpDeleteTodo id => mapM DBoolean (todoResolvers.deleteTodo id context)
  end.

(** The answer of the whole application. *)
Inductive Answer : Type :=
| Http (r : Express.Response)
| GraphQL (r : Result Data)
| BadRequest
| NotFound.

(** [cors({ origin, credentials })] (step 2): the middleware answers a
    preflight itself, with status 204, and passes every other request on.
    The server's parser delivers the method in upper case. *)
Definition preflight (req : Express.Request) : bool :=
  bool_decide (Express.method req = "OPTIONS").

(** The chain for one request, in the order [index.ts] registers it; the
    API is mounted by [start()], after everything else.  A handler whose
    promise rejects leaves the request unanswered: that is [Throw]. *)
Definition app (e : Env) (freshSecret : string) (req : Express.Request)
  : M Answer :=
  if preflight req then ret (Http (Express.End_ 204))
  else
    match auth.jwtAuth env req with
    | Express.Sent r => ret (Http r)
    | Express.NextErr err => ret (Http (errorHandlers err req))
    | Express.Next req =>
        if (bool_decide (Express.method req = "GET")
            || bool_decide (Express.method req = "HEAD"))
           && bool_decide (Express.path req = "/favicon.ico")
        then ret (Http (Express.End_ 204))
        else
          match csrfDispatch freshSecret req with
          | Express.Sent r => ret (Http r)
          | Express.NextErr err => ret (Http (errorHandlers err req))
          | Express.Next locals =>
              if rateLimited req
              then ret (Http (Express.Send 429
                                "Too many requests, please try again later."))
              else
                match staticFile req with
                | Some file => ret (Http (Express.Send 200 file))
                | None =>
                    let* routed := web.router env e req in
                    match routed with
                    | Some r => ret (Http r)
                    | None =>
                        if mounted "/graphql" (Express.path req) then
                          match parseOperation req with
                          | Some op =>
                              fun st =>
                                let '(r, st') := execute e op req st in
                                (Ok (GraphQL r), st')
                          | None => ret BadRequest
                          end
                        else ret NotFound
                    end
                end
          end
    end.

End App.
End index.

(** ** Store invariant and observations used in the statements *)

Section Observations.
Context `{Driver} `{Bcrypt}.

(** The store keeps one document per identifier. *)
Definition uniqueIds (st : Store) : Prop :=
  NoDup (List.map Todo._id (todos st)).

(** A handler keeps the invariant. *)
Definition keepsUniqueIds {A : Type} (m : M A) : Prop :=
  forall st, uniqueIds st -> uniqueIds (m st).2.

(** The tasks that do not belong to [uid], in stored order. *)
Definition othersOf (uid : ObjectId) (docs : list Todo.ITodo) : list Todo.ITodo :=
  List.filter (fun d => negb (Todo.ownedBy uid d)) docs.

(** [todo.completed = b] on a stored task. *)
Definition withCompleted (b : bool) (d : Todo.ITodo) : Todo.ITodo :=
  {| Todo._id := Todo._id d; Todo.text := Todo.text d; Todo.completed := b;
     Todo.createdAt := Todo.createdAt d; Todo.userId := Todo.userId d |}.

(** The tasks of [uid], newest first: what the paged query pages through. *)
Definition newestFirstOf (uid : ObjectId) (docs : list Todo.ITodo)
  : list Todo.ITodo :=
  Todo.sortByCreatedAtDesc (List.filter (Todo.ownedBy uid) docs).

(** A listing that is newest first with no two tasks created at the same
    time: then the order [sort({ createdAt: -1 })] asks for is one
    order. *)
Definition strictlyNewerFirst (a b : Todo.ITodo) : Prop :=
  Todo.createdAt b < Todo.createdAt a.

(** Between two stores, the tasks of everybody but [uid] are the same, and
    so are the users. *)
Definition sameForOthers (uid : ObjectId) (st st' : Store) : Prop :=
  othersOf uid (todos st') = othersOf uid (todos st)
  /\ users st' = users st.

(** A web answer that reports a failure: a rejected handler, or a status
    of 400 and above. *)
Definition reportsFailure (r : Result Express.Response) : bool :=
  match r with
  | Throw _ => true
  | Ok resp => 400 <=? Express.statusCode resp
  end.

(** The routes registered behind [ensureAuth]. *)
Definition protectedRoute (r : Route) : bool :=
  match r with
  | RLogout | RTodos | RTodosAdd | RTodosToggle _ | RTodosDelete _ => true
  | RRoot | RRegister | RLogin => false
  end.

(** The methods a route is registered for: [router.get] also answers
    [HEAD], and the two forms are registered for [get] and [post]. *)
Definition routeTakes (r : Route) (m : string) : bool :=
  match r with
  | RRoot | RTodos => bool_decide (m = "GET") || bool_decide (m = "HEAD")
  | RRegister | RLogin =>
      bool_decide (m = "GET") || bool_decide (m = "HEAD")
      || bool_decide (m = "POST")
  | RLogout | RTodosAdd | RTodosToggle _ | RTodosDelete _ =>
      bool_decide (m = "POST")
  end.

(** The operations of the API that read the context. *)
Definition readsContext (op : Operation) : bool :=
  match op with
  | OpRegister _ _ | OpLogin _ _ => false
  | OpTodos _ _ | OpAddTodo _ | OpToggleTodo _ | OpDeleteTodo _ => true
  end.

End Observations.

Section FurtherObservations.
Context `{Driver} `{Bcrypt}.

(** A handler keeps a property of the store. *)
Definition preserves {A : Type} (P : Store -> Prop) (m : M A) : Prop :=
  forall st, P st -> P (m st).2.

(** No two stored users share a user name. *)
Definition uniqueNames (st : Store) : Prop :=
  NoDup (List.map User.username (users st)).

(** The messages a result may carry when it is a throw. *)
Definition throwsOnly {A : Type} (msgs : list string) (r : Result A) : Prop :=
  match r with
  | Ok _ => True
  | Throw err => In (message err) msgs /\ code err = None
  end.

End FurtherObservations.

(** ** A concrete platform, for running the handlers on examples *)

Module Fixture.

Definition between (lo hi : nat) (c : ascii) : bool :=
  (Nat.leb lo (nat_of_ascii c) && Nat.leb (nat_of_ascii c) hi)%bool.

Definition isHexDigit (c : ascii) : bool :=
  between 48 57 c || between 97 102 c || between 65 70 c.

Definition lowerHex (c : ascii) : ascii :=
  if between 65 70 c then ascii_of_nat (nat_of_ascii c + 32) else c.

Fixpoint allChars (p : ascii -> bool) (s : string) : bool :=
  match s with
  | EmptyString => true
  | String c r => p c && allChars p r
  end.

Fixpoint mapChars (f : ascii -> ascii) (s : string) : string :=
  match s with
  | EmptyString => EmptyString
  | String c r => String (f c) (mapChars f r)
  end.

(** Identifiers are 24 hexadecimal digits, kept in lower case. *)
Definition objectIdOf (s : string) : option string :=
  if Nat.eqb (String.length s) 24 && allChars isHexDigit s
  then Some (mapChars lowerHex s)
  else None.

Definition driver : Driver :=
  {| ObjectId := string;
     ObjectId_new := objectIdOf;
     ObjectId_toString := fun s => s;
     BSONError :=
       Error "input must be a 24 character hex string, 12 byte Uint8Array, or an integer";
     negativeSkipError := Error "BSON field 'skip' value must be >= 0";
     duplicateKeyError :=
       {| message := "E11000 duplicate key error collection";
          code := Some "11000" |};
     documentNotFoundError := Error "No document found for query";
     castError := Error "Cast to ObjectId failed" |}.

(** A stand-in for the hash: enough to tell passwords apart. *)
Definition bcrypt : Bcrypt :=
  {| bcrypt_hash := fun pw => "$2a$10$" +:+ pw;
     bcrypt_compare := fun candidate stored =>
       bool_decide ("$2a$10$" +:+ candidate = stored) |}.

Fixpoint dropChars (n : nat) (s : string) : string :=
  match n, s with
  | O, _ => s
  | S n', String _ r => dropChars n' r
  | S _, EmptyString => EmptyString
  end.

(** A stand-in for the signature: the secret in front of the identifier. *)
Definition jwt : Jwt :=
  {| jwt_sign := fun payload secret _ =>
       secret +:+ "." +:+ default "" (payload_userId payload);
     jwt_verify := fun token secret =>
       if JS.startsWith (secret +:+ ".") token
       then Some {| payload_userId :=
                      Some (dropChars (S (String.length secret)) token) |}
       else None |}.

Definition jsDate : JsDate :=
  {| toISOString := fun t => pretty t |}.

Definition countChars (p : ascii -> bool) (s : string) : nat :=
  List.length (List.filter p (list_ascii_of_string s)).

(** A symbol, for this fixture: a printable character that is neither a
    letter nor a digit. *)
Definition isSymbol (c : ascii) : bool :=
  between 32 126 c
  && negb (between 48 57 c || between 65 90 c || between 97 122 c).

(** The validator of the fixture: [trim] strips the white space of [\s],
    [isLength] counts characters. *)
Definition validator : Validator :=
  {| trim := JS.trim;
     isLength := fun min s => min <=? Z.of_nat (JS.codePoints s);
     isStrongPassword := fun pw =>
       Nat.leb 8 (String.length pw)
       && Nat.leb 1 (countChars (between 97 122) pw)
       && Nat.leb 1 (countChars (between 65 90) pw)
       && Nat.leb 1 (countChars (between 48 57) pw)
       && Nat.leb 1 (countChars isSymbol pw) |}.

(** The text up to the first slash, and the rest from that slash on. *)
Fixpoint splitSlash (s : string) : string * string :=
  match s with
  | EmptyString => (EmptyString, EmptyString)
  | String c r =>
      if Ascii.eqb c "/" then (EmptyString, s)
      else let '(a, b) := splitSlash r in (String c a, b)
  end.

Definition matchPathOf (p : string) : option Route :=
  if bool_decide (p = "/") then Some RRoot
  else if bool_decide (p = "/register") then Some RRegister
  else if bool_decide (p = "/login") then Some RLogin
  else if bool_decide (p = "/logout") then Some RLogout
  else if bool_decide (p = "/todos") then Some RTodos
  else if bool_decide (p = "/todos/add") then Some RTodosAdd
  else if JS.startsWith "/todos/" p then
    let '(id, rest) := splitSlash (dropChars 7 p) in
    if negb (JS.truthy id) then None
    else if bool_decide (rest = "/toggle") then Some (RTodosToggle id)
    else if bool_decide (rest = "/delete") then Some (RTodosDelete id)
    else None
  else None.

Definition router : Router := {| matchPath := matchPathOf |}.

Definition csrf : Csrf :=
  {| tokens_create := fun secret => "csrf-" +:+ secret;
     tokens_verify := fun secret token =>
       bool_decide (token = "csrf-" +:+ secret) |}.

(** Operations are read from three form fields. *)
Definition parseOperationOf (req : Express.Request) : option Operation :=
  let arg k := default "" (Express.body req !! k) in
  match Express.body req !! "operation" with
  | Some "todos" => Some (OpTodos None None)
  | Some "register" => Some (OpRegister (arg "username") (arg "password"))
  | Some "login" => Some (OpLogin (arg "username") (arg "password"))
  | Some "addTodo" => Some (OpAddTodo (arg "text"))
  | Some "toggleTodo" => Some (OpToggleTodo (arg "id"))
  | Some "deleteTodo" => Some (OpDeleteTodo (arg "id"))
  | _ => None
  end.

Definition platform : Platform :=
  {| rateLimited := fun _ => false;
     staticFile := fun _ => None;
     mounted := fun mount p =>
       bool_decide (p = mount) || JS.startsWith (mount +:+ "/") p;
     parseOperation := parseOperationOf |}.

Definition processEnv : ProcessEnv :=
  {| JWT_SECRET := Some "s3cret"; NODE_ENV := Some "production" |}.

(** Two users, a task of the first, and a store that holds them. *)
Definition aliceId : string := "64b7f0c2a1b2c3d4e5f60001".
Definition bobId : string := "64b7f0c2a1b2c3d4e5f60002".
Definition taskId : string := "64b7f0c2a1b2c3d4e5f6a001".
Definition newId : string := "64b7f0c2a1b2c3d4e5f6a002".

Definition alice : @User.IUser driver :=
  @User.mkUser driver aliceId "alice" "$2a$10$Abcd1234!".

Definition bob : @User.IUser driver :=
  @User.mkUser driver bobId "bob" "$2a$10$Xyz98765?".

Definition aliceTask : @Todo.ITodo driver :=
  @Todo.mkTodo driver taskId "buy milk" false 1000 aliceId.

Definition store0 : @Store driver :=
  @mkStore driver [aliceTask] [alice; bob].

Definition emptyStore : @Store driver := @mkStore driver [] [].

(** Three tasks of the first user and one of the second, oldest first. *)
Definition fourTasks : list (@Todo.ITodo driver) :=
  [ @Todo.mkTodo driver "64b7f0c2a1b2c3d4e5f6b001" "one" false 1 aliceId;
    @Todo.mkTodo driver "64b7f0c2a1b2c3d4e5f6b002" "two" true 2 aliceId;
    @Todo.mkTodo driver "64b7f0c2a1b2c3d4e5f6b003" "theirs" false 3 bobId;
    @Todo.mkTodo driver "64b7f0c2a1b2c3d4e5f6b004" "three" false 4 aliceId ].

(** The tasks of the first user among them, newest first. *)
Definition aliceListing : list (@Todo.ITodo driver) :=
  [ @Todo.mkTodo driver "64b7f0c2a1b2c3d4e5f6b004" "three" false 4 aliceId;
    @Todo.mkTodo driver "64b7f0c2a1b2c3d4e5f6b002" "two" true 2 aliceId;
    @Todo.mkTodo driver "64b7f0c2a1b2c3d4e5f6b001" "one" false 1 aliceId ].

Definition env0 : @Env driver := @mkEnv driver newId 2000.

(** A request with a parsed cookie jar and the given form fields. *)
Definition request (method url : string) (jar body : gmap string string)
    (user : option string) : Express.Request :=
  {| Express.method := method; Express.originalUrl := url; Express.path := url;
     Express.cookies := Some jar; Express.body := body; Express.query := ∅;
     Express.headers := ∅; Express.params := ∅; Express.userId := user |}.

(** Two register forms: a new name with blanks around it, and a name that
    is taken. *)
Definition carolForm : Express.Request :=
  request "POST" "/register" ∅
    {[ "username" := " carol "; "password" := "Abcd1234!";
       "confirmPassword" := "Abcd1234!" ]} None.

Definition aliceForm : Express.Request :=
  request "POST" "/register" ∅
    {[ "username" := "alice"; "password" := "Abcd1234!";
       "confirmPassword" := "Abcd1234!" ]} None.

Definition asAlice : auth.AuthContext := {| auth.userId := Some aliceId |}.
Definition asBob : auth.AuthContext := {| auth.userId := Some bobId |}.
Definition anonymous : auth.AuthContext := {| auth.userId := None |}.

End Fixture.

(** * Properties *)

(** ** The string functions on examples *)

Example trim_inner_blanks_stay : JS.trim "  call  home " = "call  home".
Proof. reflexivity. Qed.

Example trim_blank_is_empty : JS.trim (String "009" (String "010" "  ")) = "".
Proof. reflexivity. Qed.

(** White space outside ASCII goes as well: U+00A0 and U+FEFF in front,
    U+3000 and U+2028 behind. *)
Example trim_wide_white_space :
  JS.trim
    (String "194" (String "160"
       (String "239" (String "187" (String "191"
          ("call home"
           +:+ String "227" (String "128" (String "128"
                 (String "226" (String "128" (String "168" "")))))))))))
  = "call home".
Proof. reflexivity. Qed.

(** Other characters stay: U+00E9 at both ends, U+200B and U+0085. *)
Example trim_keeps_letters :
  JS.trim (String "195" (String "169" ("t" +:+ String "195" (String "169" ""))))
  = String "195" (String "169" ("t" +:+ String "195" (String "169" "")))
  /\ JS.trim (String "226" (String "128" (String "139" "")))
     = String "226" (String "128" (String "139" ""))
  /\ JS.trim ("a" +:+ String "194" (String "133" ""))
     = "a" +:+ String "194" (String "133" "").
Proof. by split_and!. Qed.

Example codePoints_counts_characters :
  JS.codePoints "carol" = 5%nat
  /\ JS.codePoints (String "195" (String "169" "t")) = 2%nat.
Proof. by split. Qed.

Example startsWith_prefix :
  JS.startsWith "/graphql" "/graphql?query=x" = true
  /\ JS.startsWith "/graphql" "/todos" = false
  /\ JS.startsWith "/public" "/pub" = false.
Proof. by split_and!. Qed.

Example or_else_default :
  JS.or_else "" "Failed to add todo" = "Failed to add todo"
  /\ JS.or_else "Todo not found" "Failed to toggle todo" = "Todo not found".
Proof. by split. Qed.

Example fixture_objectId :
  Fixture.objectIdOf "64B7F0C2A1B2C3D4E5F6A001" = Some Fixture.taskId
  /\ Fixture.objectIdOf "64b7f0c2" = None
  /\ Fixture.objectIdOf "64b7f0c2a1b2c3d4e5f6a00z" = None.
Proof. by split_and!. Qed.

Example fixture_routes :
  Fixture.matchPathOf "/todos/64b7f0c2a1b2c3d4e5f6a001/toggle"
  = Some (RTodosToggle "64b7f0c2a1b2c3d4e5f6a001")
  /\ Fixture.matchPathOf "/todos/add" = Some RTodosAdd
  /\ Fixture.matchPathOf "/todos//delete" = None
  /\ Fixture.matchPathOf "/graphql" = None.
Proof. by split_and!. Qed.

(** ** Facts about the collection operations *)

Section CollectionFacts.
Context {DRV : Driver}.
Implicit Types (d t : Todo.ITodo) (docs : list Todo.ITodo).

Lemma withCompleted_same d : withCompleted (Todo.completed d) d = d.
Proof. by destruct d. Qed.

Lemma withCompleted_twice a b d :
  withCompleted a (withCompleted b d) = withCompleted a d.
Proof. reflexivity. Qed.

Lemma flip_withCompleted d :
  todoResolvers.flip d = withCompleted (negb (Todo.completed d)) d.
Proof. reflexivity. Qed.

Lemma findOne_none f docs :
  (forall d, In d docs -> f d = false) -> Todo.findOne f docs = None.
Proof.
  unfold Todo.findOne.
  induction docs as [|d rest IH]; intros Hall; simpl; [done|].
  rewrite (Hall d) by (by left).
  apply IH. intros d' Hd'. apply Hall. by right.
Qed.

Lemma findOne_at f l1 t l2 :
  (forall d, In d l1 -> f d = false) -> f t = true ->
  Todo.findOne f (l1 ++ t :: l2) = Some t.
Proof.
  unfold Todo.findOne.
  induction l1 as [|d rest IH]; intros Hall Ht; simpl.
  - by rewrite Ht.
  - rewrite (Hall d) by (by left).
    apply IH; [|done]. intros d' Hd'. apply Hall. by right.
Qed.

Lemma setCompleted_at b l1 t l2 :
  ~ In (Todo._id t) (List.map Todo._id l1) ->
  Todo.setCompleted (Todo._id t) b (l1 ++ t :: l2)
  = (l1 ++ withCompleted b t :: l2, true).
Proof.
  induction l1 as [|d rest IH]; intros Hfresh; simpl.
  - by rewrite bool_decide_eq_true_2.
  - rewrite bool_decide_eq_false_2.
    + rewrite IH; [done|]. intros Hin. apply Hfresh. by right.
    + intros Heq. apply Hfresh. by left.
Qed.

Lemma setCompleted_absent oid b docs :
  ~ In oid (List.map Todo._id docs) ->
  Todo.setCompleted oid b docs = (docs, false).
Proof.
  induction docs as [|d rest IH]; intros Hfresh; simpl; [done|].
  rewrite bool_decide_eq_false_2.
  - rewrite IH; [done|]. intros Hin. apply Hfresh. by right.
  - intros Heq. apply Hfresh. by left.
Qed.

Lemma deleteOne_none f docs :
  (forall d, In d docs -> f d = false) -> Todo.deleteOne f docs = (docs, 0%nat).
Proof.
  induction docs as [|d rest IH]; intros Hall; simpl; [done|].
  rewrite (Hall d) by (by left).
  rewrite IH; [done|]. intros d' Hd'. apply Hall. by right.
Qed.

Lemma deleteOne_at f l1 t l2 :
  (forall d, In d l1 -> f d = false) -> f t = true ->
  Todo.deleteOne f (l1 ++ t :: l2) = (l1 ++ l2, 1%nat).
Proof.
  induction l1 as [|d rest IH]; intros Hall Ht; simpl.
  - by rewrite Ht.
  - rewrite (Hall d) by (by left).
    rewrite IH; [done| |done]. intros d' Hd'. apply Hall. by right.
Qed.

(** A stored task is found at one place, and its identifier nowhere else. *)
Lemma unique_split docs t :
  NoDup (List.map Todo._id docs) -> In t docs ->
  exists l1 l2,
    docs = l1 ++ t :: l2
    /\ ~ In (Todo._id t) (List.map Todo._id l1)
    /\ ~ In (Todo._id t) (List.map Todo._id l2).
Proof.
  intros Hnd Hin.
  destruct (in_split _ _ Hin) as (l1 & l2 & ->).
  exists l1, l2. split; [done|].
  rewrite List.map_app in Hnd. simpl in Hnd.
  apply NoDup_app in Hnd as (_ & Hdisj & Hn2).
  apply NoDup_cons in Hn2 as [Hnot2 _].
  split.
  - intros Hin'. apply (Hdisj (Todo._id t)); [by apply list_elem_of_In|left].
  - by rewrite <- list_elem_of_In.
Qed.

Lemma not_in_ids_matches oid uid l :
  ~ In oid (List.map Todo._id l) ->
  forall d, In d l -> Todo.matches oid uid d = false.
Proof.
  intros Hfresh d Hd. unfold Todo.matches.
  rewrite bool_decide_eq_false_2; [done|].
  intros Heq. apply Hfresh. rewrite <- Heq. by apply in_map.
Qed.

(** With unique identifiers, the filter [{ _id, userId }] of another user
    matches nothing when the identifier is a stored task's. *)
Lemma matches_foreign docs t uid :
  NoDup (List.map Todo._id docs) -> In t docs -> Todo.userId t <> uid ->
  forall d, In d docs -> Todo.matches (Todo._id t) uid d = false.
Proof.
  intros Hnd Hin Hne d Hd.
  destruct (unique_split docs t Hnd Hin) as (l1 & l2 & -> & H1 & H2).
  apply in_app_or in Hd as [Hd|[<-|Hd]].
  - by apply (not_in_ids_matches _ _ l1).
  - unfold Todo.matches, Todo.ownedBy.
    rewrite (bool_decide_eq_false_2 (Todo.userId t = uid)) by done.
    by rewrite andb_false_r.
  - by apply (not_in_ids_matches _ _ l2).
Qed.

Lemma othersOf_app uid l1 l2 :
  othersOf uid (l1 ++ l2) = othersOf uid l1 ++ othersOf uid l2.
Proof. unfold othersOf. apply List.filter_app. Qed.

Lemma othersOf_owned uid d l :
  Todo.ownedBy uid d = true -> othersOf uid (d :: l) = othersOf uid l.
Proof. intros Hd. unfold othersOf. simpl. by rewrite Hd. Qed.

(** Whatever identifier is asked for, [deleteOne({ _id, userId })] leaves
    the tasks of everybody else as they are. *)
Lemma deleteOne_others oid uid docs :
  othersOf uid (Todo.deleteOne (Todo.matches oid uid) docs).1 = othersOf uid docs.
Proof.
  induction docs as [|d rest IH]; simpl; [done|].
  destruct (Todo.matches oid uid d) eqn:Hm; simpl.
  - symmetry. apply othersOf_owned.
    unfold Todo.matches in Hm. by apply andb_true_iff in Hm as [_ ?].
  - destruct (Todo.deleteOne (Todo.matches oid uid) rest) as [rest' n] eqn:Hrest.
    simpl in *. unfold othersOf in *. simpl. by rewrite IH.
Qed.

(** [User.findOne({ username })] finds a user exactly when the name is
    among the stored names, and then the first user stored under it. *)
Lemma findOne_name_stored name (docs : list User.IUser) :
  In name (List.map User.username docs) ->
  exists u, User.findOne name docs = Some u
            /\ In u docs /\ User.username u = name.
Proof.
  unfold User.findOne. induction docs as [|d rest IH]; simpl; [done|].
  intros [Hd|Hrest].
  - exists d. rewrite bool_decide_eq_true_2 by done. eauto.
  - destruct (bool_decide (User.username d = name)) eqn:Hname.
    + exists d. apply bool_decide_eq_true_1 in Hname. eauto.
    + destruct (IH Hrest) as (u & Hfind & Hin & Hu). eauto.
Qed.

Lemma findOne_name_new name (docs : list User.IUser) :
  ~ In name (List.map User.username docs) -> User.findOne name docs = None.
Proof.
  unfold User.findOne. induction docs as [|d rest IH]; simpl; [done|].
  intros Hnew. rewrite bool_decide_eq_false_2 by (intros Hd; apply Hnew; by left).
  apply IH. intros Hin. apply Hnew. by right.
Qed.

Lemma findOne_name_at name (l1 l2 : list User.IUser) (u : User.IUser) :
  ~ In name (List.map User.username l1) -> User.username u = name ->
  User.findOne name (l1 ++ u :: l2) = Some u.
Proof.
  unfold User.findOne. intros Hl1 Hname.
  induction l1 as [|d rest IH]; simpl.
  - by rewrite bool_decide_eq_true_2.
  - rewrite bool_decide_eq_false_2 by (intros Hd; apply Hl1; by left).
    apply IH. intros Hin. apply Hl1. by right.
Qed.

End CollectionFacts.

(** ** Toggle and delete act on the caller's own tasks only *)

Section Ownership.
Context {DRV : Driver} {BCR : Bcrypt} {JSD : JsDate}.
Implicit Types (st : Store) (t d : Todo.ITodo).

Ltac run_handler :=
  unfold todoResolvers.toggleTodo, todoResolvers.deleteTodo,
    web.postTodosToggle, web.postTodosDelete, web.guarded, auth.ensureAuth,
    web.castObjectId, todoResolvers.authenticationRequired,
    saveCompleted, deleteOneTodo, newObjectId, try_catch, bind, ret, throw,
    get_todos, put_todos; simpl.

Lemma store_eta st : {| todos := todos st; users := users st |} = st.
Proof. by destruct st. Qed.

Lemma findOne_some f docs d :
  Todo.findOne f docs = Some d -> In d docs /\ f d = true.
Proof. apply List.find_some. Qed.

Lemma matches_true oid uid d :
  Todo.matches oid uid d = true -> Todo._id d = oid /\ Todo.userId d = uid.
Proof.
  unfold Todo.matches, Todo.ownedBy. intros [H1 H2]%andb_true_iff.
  split; by eapply bool_decide_eq_true_1.
Qed.

Lemma matches_self t : Todo.matches (Todo._id t) (Todo.userId t) t = true.
Proof.
  unfold Todo.matches, Todo.ownedBy. by rewrite !bool_decide_eq_true_2.
Qed.

(** The owner's lookup finds the task where it is stored. *)
Lemma findOne_owner l1 t l2 :
  ~ In (Todo._id t) (List.map Todo._id l1) ->
  Todo.findOne (Todo.matches (Todo._id t) (Todo.userId t)) (l1 ++ t :: l2)
  = Some t.
Proof.
  intros Hfresh. apply findOne_at; [|apply matches_self].
  by apply not_in_ids_matches.
Qed.

(** The query of the API: what [toggleTodo] does once both identifiers
    are cast. *)
Lemma toggleTodo_cast id u oid uid st :
  JS.truthy u = true ->
  ObjectId_new id = Some oid -> ObjectId_new u = Some uid ->
  todoResolvers.toggleTodo id {| auth.userId := Some u |} st
  = match Todo.findOne (Todo.matches oid uid) (todos st) with
    | None => (Throw (Error "Todo not found"), st)
    | Some todo =>
        match Todo.setCompleted (Todo._id todo)
                (negb (Todo.completed todo)) (todos st) with
        | (docs', true) =>
            (Ok (todoResolvers.payloadOf (todoResolvers.flip todo)),
             {| todos := docs'; users := users st |})
        | (_, false) =>
            (Throw (Error (JS.or_else (message documentNotFoundError)
                             "Failed to toggle todo")), st)
        end
    end.
Proof.
  intros Hu Hid Huid. run_handler. rewrite Hu, Hid, Huid. simpl.
  destruct (Todo.findOne _ _) as [todo|]; [|done]. simpl.
  by destruct (Todo.setCompleted _ _ _) as [docs' [|]].
Qed.

Lemma deleteTodo_cast id u oid uid st :
  JS.truthy u = true ->
  ObjectId_new id = Some oid -> ObjectId_new u = Some uid ->
  todoResolvers.deleteTodo id {| auth.userId := Some u |} st
  = match Todo.deleteOne (Todo.matches oid uid) (todos st) with
    | (docs', O) =>
        (Throw (Error "Todo not found"), {| todos := docs'; users := users st |})
    | (docs', S _) => (Ok true, {| todos := docs'; users := users st |})
    end.
Proof.
  intros Hu Hid Huid. run_handler. rewrite Hu, Hid, Huid. simpl.
  by destruct (Todo.deleteOne _ _) as [docs' [|n]].
Qed.

Lemma postTodosToggle_cast id u oid uid req st :
  Express.userId req = Some u -> JS.truthy u = true ->
  ObjectId_new id = Some oid -> ObjectId_new u = Some uid ->
  web.postTodosToggle id req st
  = match Todo.findOne (Todo.matches oid uid) (todos st) with
    | None => (Ok (Express.Redirect "/todos"), st)
    | Some todo =>
        match Todo.setCompleted (Todo._id todo)
                (negb (Todo.completed todo)) (todos st) with
        | (docs', true) =>
            (Ok (Express.Redirect "/todos"),
             {| todos := docs'; users := users st |})
        | (_, false) => (Throw documentNotFoundError, st)
        end
    end.
Proof.
  intros Hreq Hu Hid Huid. run_handler. rewrite Hreq. simpl.
  rewrite Hu. simpl. rewrite Hreq, Hid, Huid. simpl.
  destruct (Todo.findOne _ _) as [todo|]; [|done]. simpl.
  by destruct (Todo.setCompleted _ _ _) as [docs' [|]].
Qed.

Lemma postTodosDelete_cast id u oid uid req st :
  Express.userId req = Some u -> JS.truthy u = true ->
  ObjectId_new id = Some oid -> ObjectId_new u = Some uid ->
  web.postTodosDelete id req st
  = (Ok (Express.Redirect "/todos"),
     {| todos := (Todo.deleteOne (Todo.matches oid uid) (todos st)).1;
        users := users st |}).
Proof.
  intros Hreq Hu Hid Huid. run_handler. rewrite Hreq. simpl.
  rewrite Hu. simpl. rewrite Hreq, Hid, Huid. simpl.
  by destruct (Todo.deleteOne _ _) as [docs' n].
Qed.

Lemma sameForOthers_refl uid st : sameForOthers uid st st.
Proof. by split. Qed.

(** The update of the caller's own task changes nothing for the others. *)
Lemma setCompleted_owner_others uid st d b :
  uniqueIds st -> In d (todos st) -> Todo.userId d = uid ->
  exists l1 l2,
    todos st = l1 ++ d :: l2
    /\ Todo.setCompleted (Todo._id d) b (todos st)
       = (l1 ++ withCompleted b d :: l2, true)
    /\ othersOf uid (l1 ++ withCompleted b d :: l2) = othersOf uid (todos st).
Proof.
  intros Hnd Hin Hown.
  destruct (unique_split _ _ Hnd Hin) as (l1 & l2 & Hsplit & Hl1 & _).
  exists l1, l2. split; [done|]. split.
  - rewrite Hsplit. by apply setCompleted_at.
  - rewrite Hsplit, !othersOf_app. f_equal.
    rewrite !othersOf_owned; [done| |];
      unfold Todo.ownedBy; simpl; by apply bool_decide_eq_true_2.
Qed.

Lemma toggle_found_frame uid oid st :
  uniqueIds st ->
  match Todo.findOne (Todo.matches oid uid) (todos st) with
  | None => True
  | Some todo =>
      exists docs',
        Todo.setCompleted (Todo._id todo) (negb (Todo.completed todo)) (todos st)
        = (docs', true)
        /\ othersOf uid docs' = othersOf uid (todos st)
  end.
Proof.
  intros Hnd. destruct (Todo.findOne _ _) as [todo|] eqn:Hfind; [|done].
  apply findOne_some in Hfind as [Hin [_ Hown]%matches_true].
  destruct (setCompleted_owner_others uid st todo
              (negb (Todo.completed todo)) Hnd Hin Hown)
    as (l1 & l2 & _ & Hset & Hothers).
  eauto.
Qed.

(** Whatever identifier is submitted, the API's toggle leaves the tasks of
    the other users and the users as they are. *)
Lemma toggleTodo_frame id u uid st :
  uniqueIds st -> JS.truthy u = true -> ObjectId_new u = Some uid ->
  sameForOthers uid st (todoResolvers.toggleTodo id {| auth.userId := Some u |} st).2.
Proof.
  intros Hnd Hu Huid.
  destruct (ObjectId_new id) as [oid|] eqn:Hid.
  - rewrite (toggleTodo_cast id u oid uid st Hu Hid Huid).
    pose proof (toggle_found_frame uid oid st Hnd) as Hfound.
    destruct (Todo.findOne _ _) as [todo|]; [|apply sameForOthers_refl].
    destruct Hfound as (docs' & -> & Hothers). by split.
  - run_handler. rewrite Hu, Hid. simpl. apply sameForOthers_refl.
Qed.

Lemma deleteTodo_frame id u uid st :
  JS.truthy u = true -> ObjectId_new u = Some uid ->
  sameForOthers uid st (todoResolvers.deleteTodo id {| auth.userId := Some u |} st).2.
Proof.
  intros Hu Huid.
  destruct (ObjectId_new id) as [oid|] eqn:Hid.
  - rewrite (deleteTodo_cast id u oid uid st Hu Hid Huid).
    pose proof (deleteOne_others oid uid (todos st)) as Hothers.
    destruct (Todo.deleteOne _ _) as [docs' [|n]]; by split.
  - run_handler. rewrite Hu, Hid. simpl. apply sameForOthers_refl.
Qed.

Lemma postTodosToggle_frame id u uid req st :
  uniqueIds st -> Express.userId req = Some u -> JS.truthy u = true ->
  ObjectId_new u = Some uid ->
  sameForOthers uid st (web.postTodosToggle id req st).2.
Proof.
  intros Hnd Hreq Hu Huid.
  destruct (ObjectId_new id) as [oid|] eqn:Hid.
  - rewrite (postTodosToggle_cast id u oid uid req st Hreq Hu Hid Huid).
    pose proof (toggle_found_frame uid oid st Hnd) as Hfound.
    destruct (Todo.findOne _ _) as [todo|]; [|apply sameForOthers_refl].
    destruct Hfound as (docs' & -> & Hothers). by split.
  - run_handler. rewrite Hreq. simpl. rewrite Hu. simpl. rewrite Hreq, Hid.
    simpl. apply sameForOthers_refl.
Qed.

Lemma postTodosDelete_frame id u uid req st :
  Express.userId req = Some u -> JS.truthy u = true ->
  ObjectId_new u = Some uid ->
  sameForOthers uid st (web.postTodosDelete id req st).2.
Proof.
  intros Hreq Hu Huid.
  destruct (ObjectId_new id) as [oid|] eqn:Hid.
  - rewrite (postTodosDelete_cast id u oid uid req st Hreq Hu Hid Huid).
    split; [apply deleteOne_others|done].
  - run_handler. rewrite Hreq. simpl. rewrite Hu. simpl. rewrite Hreq, Hid.
    simpl. apply sameForOthers_refl.
Qed.

(** C1 (as amended).  Let a user, whose identifier is [uidB], submit a
    well-formed identifier that is the identifier of a task stored for
    another user, or of no stored task at all.  On the API both toggle and
    delete throw "Todo not found", the same in the two cases; on the web
    routes both answer with the redirect to the task page; all four leave
    the store as it is.  And whatever identifier that user submits, stored
    or not, well formed or not, the four handlers leave the tasks of all
    other users and the user records untouched: their lookups carry the
    caller's own identifier. *)
Theorem cross_user_toggle_delete st id oid uB uidB reqB :
  uniqueIds st ->
  ObjectId_new id = Some oid ->
  Express.userId reqB = Some uB ->
  JS.truthy uB = true ->
  ObjectId_new uB = Some uidB ->
  ((exists t, In t (todos st) /\ Todo._id t = oid /\ Todo.userId t <> uidB)
   \/ ~ In oid (List.map Todo._id (todos st))) ->
  let ctxB := {| auth.userId := Some uB |} in
  todoResolvers.toggleTodo id ctxB st = (Throw (Error "Todo not found"), st)
  /\ todoResolvers.deleteTodo id ctxB st = (Throw (Error "Todo not found"), st)
  /\ web.postTodosToggle id reqB st = (Ok (Express.Redirect "/todos"), st)
  /\ web.postTodosDelete id reqB st = (Ok (Express.Redirect "/todos"), st)
  /\ forall id',
       sameForOthers uidB st (todoResolvers.toggleTodo id' ctxB st).2
       /\ sameForOthers uidB st (todoResolvers.deleteTodo id' ctxB st).2
       /\ sameForOthers uidB st (web.postTodosToggle id' reqB st).2
       /\ sameForOthers uidB st (web.postTodosDelete id' reqB st).2.
Proof.
  intros Hnd Hid Hreq Hu HuB Hnone ctxB. subst ctxB.
  assert (Hmiss : forall d, In d (todos st) -> Todo.matches oid uidB d = false).
  { destruct Hnone as [(t & Hin & <- & Hne)|Habsent].
    - by apply (matches_foreign (todos st) t uidB).
    - by apply not_in_ids_matches. }
  pose proof (findOne_none _ _ Hmiss) as Hfind.
  pose proof (deleteOne_none _ _ Hmiss) as Hdel.
  split_and!.
  - rewrite (toggleTodo_cast id uB _ uidB st Hu Hid HuB). by rewrite Hfind.
  - rewrite (deleteTodo_cast id uB _ uidB st Hu Hid HuB).
    rewrite Hdel. simpl. by rewrite store_eta.
  - rewrite (postTodosToggle_cast id uB _ uidB reqB st Hreq Hu Hid HuB).
    by rewrite Hfind.
  - rewrite (postTodosDelete_cast id uB _ uidB reqB st Hreq Hu Hid HuB).
    rewrite Hdel. simpl. by rewrite store_eta.
  - intros id'. split; [|split; [|split]].
    + exact (toggleTodo_frame id' uB uidB st Hnd Hu HuB).
    + exact (deleteTodo_frame id' uB uidB st Hu HuB).
    + exact (postTodosToggle_frame id' uB uidB reqB st Hnd Hreq Hu HuB).
    + exact (postTodosDelete_frame id' uB uidB reqB st Hreq Hu HuB).
Qed.

(** The owner's delete through the API removes the task and nothing else. *)
Lemma deleteTodo_at l1 t l2 accounts id u :
  ~ In (Todo._id t) (List.map Todo._id l1) ->
  JS.truthy u = true ->
  ObjectId_new id = Some (Todo._id t) ->
  ObjectId_new u = Some (Todo.userId t) ->
  todoResolvers.deleteTodo id {| auth.userId := Some u |}
    {| todos := l1 ++ t :: l2; users := accounts |}
  = (Ok true, {| todos := l1 ++ l2; users := accounts |}).
Proof.
  intros Hfresh Hu Hid Huid.
  rewrite (deleteTodo_cast id u _ _ _ Hu Hid Huid). simpl.
  rewrite (deleteOne_at _ l1 t l2); [done| |apply matches_self].
  by apply not_in_ids_matches.
Qed.

(** [ensureAuth] lets a request through only with a non-empty identifier. *)
Lemma ensureAuth_next (req req' : Express.Request) :
  auth.ensureAuth req = Express.Next req' ->
  req' = req /\ exists u, Express.userId req = Some u /\ JS.truthy u = true.
Proof.
  unfold auth.ensureAuth.
  destruct (Express.userId req) as [u|] eqn:Hu; simpl; [|done].
  destruct (JS.truthy u) eqn:Htruthy; [|done].
  intros [= <-]. split; [done|]. by exists u.
Qed.

(** ** The owner's toggle *)

Lemma flip_flip d : todoResolvers.flip (todoResolvers.flip d) = d.
Proof. destruct d as [i x c a u]. unfold todoResolvers.flip. simpl. by rewrite negb_involutive. Qed.

(** The owner's toggle through the API, on a store laid out around [t]. *)
Lemma toggleTodo_at l1 t l2 accounts id u :
  ~ In (Todo._id t) (List.map Todo._id l1) ->
  JS.truthy u = true ->
  ObjectId_new id = Some (Todo._id t) ->
  ObjectId_new u = Some (Todo.userId t) ->
  todoResolvers.toggleTodo id {| auth.userId := Some u |}
    {| todos := l1 ++ t :: l2; users := accounts |}
  = (Ok (todoResolvers.payloadOf (todoResolvers.flip t)),
     {| todos := l1 ++ todoResolvers.flip t :: l2; users := accounts |}).
Proof.
  intros Hfresh Hu Hid Huid.
  rewrite (toggleTodo_cast id u _ _ _ Hu Hid Huid). simpl.
  rewrite (findOne_owner l1 t l2 Hfresh).
  by rewrite (setCompleted_at _ l1 t l2 Hfresh).
Qed.

(** The owner's toggle through the web route. *)
Lemma postTodosToggle_at l1 t l2 accounts id u req :
  ~ In (Todo._id t) (List.map Todo._id l1) ->
  Express.userId req = Some u ->
  JS.truthy u = true ->
  ObjectId_new id = Some (Todo._id t) ->
  ObjectId_new u = Some (Todo.userId t) ->
  web.postTodosToggle id req {| todos := l1 ++ t :: l2; users := accounts |}
  = (Ok (Express.Redirect "/todos"),
     {| todos := l1 ++ todoResolvers.flip t :: l2; users := accounts |}).
Proof.
  intros Hfresh Hreq Hu Hid Huid.
  rewrite (postTodosToggle_cast id u _ _ req _ Hreq Hu Hid Huid). simpl.
  rewrite (findOne_owner l1 t l2 Hfresh).
  by rewrite (setCompleted_at _ l1 t l2 Hfresh).
Qed.

(** C6.  A task's owner toggles it twice: both toggles succeed, the first
    answers with the flag negated, the second with the flag as it was, and
    the store after the second is the store before the first.  The same
    holds for two posts to the web route. *)
Theorem double_toggle_restores st t id u req :
  uniqueIds st ->
  In t (todos st) ->
  ObjectId_new id = Some (Todo._id t) ->
  ObjectId_new u = Some (Todo.userId t) ->
  JS.truthy u = true ->
  Express.userId req = Some u ->
  let ctx := {| auth.userId := Some u |} in
  (exists p1 p2 st1,
      todoResolvers.toggleTodo id ctx st = (Ok p1, st1)
      /\ todoResolvers.toggleTodo id ctx st1 = (Ok p2, st)
      /\ todoResolvers.completed p1 = negb (Todo.completed t)
      /\ todoResolvers.completed p2 = Todo.completed t)
  /\ (exists st1,
        web.postTodosToggle id req st = (Ok (Express.Redirect "/todos"), st1)
        /\ In (withCompleted (negb (Todo.completed t)) t) (todos st1)
        /\ web.postTodosToggle id req st1 = (Ok (Express.Redirect "/todos"), st)).
Proof.
  intros Hnd Hin Hid Huid Hu Hreq ctx. subst ctx.
  destruct (unique_split _ _ Hnd Hin) as (l1 & l2 & Hsplit & Hl1 & _).
  destruct st as [docs accounts]. simpl in Hsplit. subst docs.
  pose proof (toggleTodo_at l1 (todoResolvers.flip t) l2 accounts id u
                Hl1 Hu Hid Huid) as Hback.
  pose proof (postTodosToggle_at l1 (todoResolvers.flip t) l2 accounts id u req
                Hl1 Hreq Hu Hid Huid) as Hback'.
  rewrite flip_flip in Hback, Hback'.
  split.
  - exists (todoResolvers.payloadOf (todoResolvers.flip t)),
      (todoResolvers.payloadOf t),
      {| todos := l1 ++ todoResolvers.flip t :: l2; users := accounts |}.
    split; [by apply toggleTodo_at|]. by split.
  - exists {| todos := l1 ++ todoResolvers.flip t :: l2; users := accounts |}.
    split; [exact (postTodosToggle_at l1 t l2 accounts id u req
                     Hl1 Hreq Hu Hid Huid)|].
    split; [|done]. simpl. apply in_or_app. right. by left.
Qed.

(** C7.  The owner's toggle rewrites one stored task and nothing else: the
    store keeps its users, and its tasks in their order, with the toggled
    task [t] replaced by a task of the same identifier, text, creation time
    and owner whose flag is negated.  The API and the web route write the
    same store. *)
Theorem toggle_changes_flag_only st t id u req :
  uniqueIds st ->
  In t (todos st) ->
  ObjectId_new id = Some (Todo._id t) ->
  ObjectId_new u = Some (Todo.userId t) ->
  JS.truthy u = true ->
  Express.userId req = Some u ->
  exists l1 l2 t',
    todos st = l1 ++ t :: l2
    /\ Todo._id t' = Todo._id t
    /\ Todo.text t' = Todo.text t
    /\ Todo.createdAt t' = Todo.createdAt t
    /\ Todo.userId t' = Todo.userId t
    /\ Todo.completed t' = negb (Todo.completed t)
    /\ todoResolvers.toggleTodo id {| auth.userId := Some u |} st
       = (Ok (todoResolvers.payloadOf t'),
          {| todos := l1 ++ t' :: l2; users := users st |})
    /\ web.postTodosToggle id req st
       = (Ok (Express.Redirect "/todos"),
          {| todos := l1 ++ t' :: l2; users := users st |}).
Proof.
  intros Hnd Hin Hid Huid Hu Hreq.
  destruct (unique_split _ _ Hnd Hin) as (l1 & l2 & Hsplit & Hl1 & _).
  destruct st as [docs accounts]. simpl in Hsplit. subst docs.
  exists l1, l2, (todoResolvers.flip t). simpl.
  split_and!; try done.
  - by apply toggleTodo_at.
  - exact (postTodosToggle_at l1 t l2 accounts id u req Hl1 Hreq Hu Hid Huid).
Qed.

End Ownership.

(** ** The authentication middleware *)

Section Middleware.
Context {DRV : Driver} {JWT : Jwt}.
Variable env : ProcessEnv.

(** C8.  For every request [jwtAuth] ends in [next()], with the request
    either as it came or with a user identifier added.  The identifier is
    added only when the token cookie is there, its verification returns a
    payload, and the payload carries a non-empty [userId]; that identifier
    is the one attached.  With no token cookie, or with a token whose
    verification throws, the request goes on as it came. *)
Theorem jwtAuth_always_continues (req : Express.Request) :
  exists req',
    auth.jwtAuth env req = Express.Next req'
    /\ (req' = req
        \/ exists token payload u,
             auth.tokenCookie req = Some token
             /\ jwt_verify token (auth.JWT_SECRET env) = Some payload
             /\ payload_userId payload = Some u
             /\ JS.truthy u = true
             /\ req' = Express.setUserId u req)
    /\ (auth.tokenCookie req = None -> req' = req)
    /\ (forall token,
          auth.tokenCookie req = Some token ->
          jwt_verify token (auth.JWT_SECRET env) = None ->
          req' = req).
Proof.
  unfold auth.jwtAuth.
  destruct (auth.tokenCookie req) as [token|] eqn:Hcookie;
    [|exists req; by split_and!; [|left| |]].
  destruct (JS.truthy token) eqn:Htoken;
    [|exists req; by split_and!; [|left| |]].
  destruct (jwt_verify token (auth.JWT_SECRET env)) as [payload|] eqn:Hverify;
    [|exists req; by split_and!; [|left| |]].
  destruct (payload_userId payload) as [u|] eqn:Hpayload;
    [|exists req; by split_and!; [|left| |]].
  destruct (JS.truthy u) eqn:Hu;
    [|exists req; by split_and!; [|left| |]].
  exists (Express.setUserId u req). split_and!; [done| |done|].
  - right. by exists token, payload, u.
  - intros token' [= <-]. by rewrite Hverify.
Qed.

(** The identifier is all the middleware changes. *)
Lemma setUserId_keeps u (req : Express.Request) :
  Express.method (Express.setUserId u req) = Express.method req
  /\ Express.originalUrl (Express.setUserId u req) = Express.originalUrl req
  /\ Express.path (Express.setUserId u req) = Express.path req
  /\ Express.cookies (Express.setUserId u req) = Express.cookies req
  /\ Express.body (Express.setUserId u req) = Express.body req
  /\ Express.query (Express.setUserId u req) = Express.query req
  /\ Express.headers (Express.setUserId u req) = Express.headers req.
Proof. by split_and!. Qed.

End Middleware.

(** ** The API and the caller's identity *)

Section ApiIdentity.
Context {DRV : Driver} {BCR : Bcrypt} {JWT : Jwt} {JSD : JsDate}.
Variable env : ProcessEnv.

Lemma unauthenticated_context (x : option string) :
  JS.truthy_opt x = false ->
  x = None \/ exists u, x = Some u /\ JS.truthy u = false.
Proof. destruct x as [u|]; simpl; eauto. Qed.

(** C3 (as amended).  The four task operations of the API (todos, addTodo,
    toggleTodo, deleteTodo) throw "Authentication required" and leave the
    store as it is whenever the request carries no user identifier (or an
    empty one); so they change the store only when it carries one.  The
    two account operations (register, login) take no context: what they
    do is the same for every request. *)
Theorem api_identity_check (e : Env) (op : Operation) (req : Express.Request)
    (st : Store) :
  (readsContext op = true ->
   JS.truthy_opt (Express.userId req) = false ->
   index.execute env e op req st
   = (Throw (Error "Authentication required"), st))
  /\ (readsContext op = true ->
      (index.execute env e op req st).2 <> st ->
      JS.truthy_opt (Express.userId req) = true)
  /\ (readsContext op = false ->
      forall req', index.execute env e op req' st = index.execute env e op req st).
Proof.
  assert (Hfail : readsContext op = true ->
                  JS.truthy_opt (Express.userId req) = false ->
                  index.execute env e op req st
                  = (Throw (Error "Authentication required"), st)).
  { intros Hop Hanon.
    destruct (unauthenticated_context _ Hanon) as [Hx|(u & Hx & Hu)];
      destruct op; try discriminate Hop;
      unfold index.execute, index.mapM, todoResolvers.todos,
        todoResolvers.addTodo, todoResolvers.toggleTodo,
        todoResolvers.deleteTodo, todoResolvers.authenticationRequired,
        bind, throw; simpl; rewrite Hx; simpl; by rewrite ?Hu. }
  split_and!; [done| |].
  - intros Hop Hchanged.
    destruct (JS.truthy_opt (Express.userId req)) eqn:Hid; [done|].
    exfalso. apply Hchanged. by rewrite Hfail.
  - intros Hop req'. by destruct op.
Qed.

(** ** Registration through the API *)

(** C10.  [register] checks nothing about the user name's length or the
    password's strength.  When the identifier the driver generates is new,
    it succeeds for every user name that no stored user bears and every
    password, and stores the user with the hashed password; it fails,
    with "Username already exists" and the store unchanged, exactly when
    a stored user bears the user name. *)
Theorem register_checks_only_duplicates (e : Env) (username password : string)
    (st : Store) :
  ~ In (freshId e) (List.map User._id (users st)) ->
  (~ In username (List.map User.username (users st)) ->
   userResolvers.register e username password st
   = (Ok {| userResolvers.id := ObjectId_toString (freshId e);
            userResolvers.username := username |},
      {| todos := todos st;
         users := users st ++ [ {| User._id := freshId e;
                                   User.username := username;
                                   User.password := bcrypt_hash password |} ] |}))
  /\ (In username (List.map User.username (users st)) ->
      userResolvers.register e username password st
      = (Throw (Error "Username already exists"), st))
  /\ (isOk (userResolvers.register e username password st).1 = true
      <-> ~ In username (List.map User.username (users st))).
Proof.
  intros Hfresh.
  assert (Hnew : existsb (fun x => bool_decide (User._id x = freshId e))
                   (users st) = false).
  { apply not_true_is_false. intros (x & Hx & Heq)%existsb_exists.
    apply bool_decide_eq_true_1 in Heq.
    apply Hfresh. rewrite <- Heq. by apply in_map. }
  unfold userResolvers.register, saveNewUser, bind, get_users, put_users,
    ret, throw. simpl.
  destruct (in_dec String.string_dec username
              (List.map User.username (users st))) as [Htaken|Hfree].
  - destruct (findOne_name_stored _ _ Htaken) as (u & -> & _).
    split_and!; [done|done|]. by split.
  - rewrite (findOne_name_new _ _ Hfree), Hnew. simpl.
    split_and!; [done|done|]. by split.
Qed.

End ApiIdentity.

(** ** The anti-forgery check *)

Section AntiForgery.
Context {DRV : Driver} {BCR : Bcrypt} {JWT : Jwt} {VAL : Validator}
        {RTR : Router} {JSD : JsDate} {CSRF : Csrf} {PLT : Platform}.
Variable env : ProcessEnv.




(** A request the check refuses is answered by the CSRF error handler. *)
Lemma rejected_by_error_handler (req : Express.Request) :
  index.errorHandlers env index.EBADCSRFTOKEN req
  = Express.Render 403
      (Express.ErrorView index.tamperingMessage (index.development env)).
Proof. reflexivity. Qed.



End AntiForgery.

(** ** The paged query *)

Section Paging.
Context {DRV : Driver} {JSD : JsDate}.
Implicit Types (d : Todo.ITodo) (docs : list Todo.ITodo).

#[local] Instance newerFirst_trans : Transitive (@Todo.newerFirst DRV).
Proof. intros a b c. unfold Todo.newerFirst. lia. Qed.

#[local] Instance newerFirst_total : Total (@Todo.newerFirst DRV).
Proof. intros a b. unfold Todo.newerFirst. lia. Qed.

Lemma sort_permutation docs : Permutation (Todo.sortByCreatedAtDesc docs) docs.
Proof. apply merge_sort_Permutation. Qed.

Lemma sort_sorted docs :
  StronglySorted Todo.newerFirst (Todo.sortByCreatedAtDesc docs).
Proof. apply StronglySorted_merge_sort; apply _. Qed.

Lemma sorted_take n docs :
  StronglySorted Todo.newerFirst docs ->
  StronglySorted Todo.newerFirst (take n docs).
Proof.
  intros Hs. rewrite <- (take_drop n docs) in Hs.
  by apply StronglySorted_app_1_l in Hs.
Qed.

Lemma ids_filter (f : Todo.ITodo -> bool) docs :
  NoDup (List.map Todo._id docs) ->
  NoDup (List.map Todo._id (List.filter f docs)).
Proof.
  induction docs as [|d rest IH]; simpl; [done|].
  intros [Hd Hrest]%NoDup_cons. destruct (f d); simpl; [|by apply IH].
  apply NoDup_cons. split; [|by apply IH].
  intros Hin. apply Hd.
  apply list_elem_of_In, in_map_iff in Hin as (x & Hx & [Hin _]%filter_In).
  apply list_elem_of_In, in_map_iff. eauto.
Qed.

Lemma ids_take n docs :
  NoDup (List.map Todo._id docs) ->
  NoDup (List.map Todo._id (take n docs)).
Proof.
  intros Hnd. rewrite <- (take_drop n docs), List.map_app in Hnd.
  by apply NoDup_app in Hnd as [? _].
Qed.

Lemma newestFirstOf_ids uid docs :
  NoDup (List.map Todo._id docs) ->
  NoDup (List.map Todo._id (newestFirstOf uid docs)).
Proof.
  intros Hnd. unfold newestFirstOf.
  rewrite (Permutation_map Todo._id (sort_permutation _)).
  by apply ids_filter.
Qed.

Lemma newestFirstOf_owned uid docs d :
  In d (newestFirstOf uid docs) <-> In d docs /\ Todo.userId d = uid.
Proof.
  unfold newestFirstOf.
  rewrite (Permutation_in' (eq_refl d) (sort_permutation _)).
  rewrite filter_In. unfold Todo.ownedBy.
  by rewrite bool_decide_eq_true.
Qed.

Lemma findPage_window uid (skip take : Z) docs :
  0 <= skip -> 0 < take ->
  todoResolvers.findPage uid skip take docs
  = Ok (firstn (Z.to_nat take) (skipn (Z.to_nat skip) (newestFirstOf uid docs))).
Proof.
  intros Hskip Htake. unfold todoResolvers.findPage, Todo.skip, Todo.limit.
  rewrite (proj2 (Z.ltb_ge skip 0)) by done.
  rewrite (proj2 (Z.eqb_neq take 0)) by lia.
  by rewrite Z.abs_eq by lia.
Qed.

(** In a listing with no two tasks of the same time stamp, the time stamp
    tells the task. *)
Lemma strict_listing_inj (l : list Todo.ITodo) x y :
  StronglySorted strictlyNewerFirst l ->
  In x l -> In y l -> Todo.createdAt x = Todo.createdAt y -> x = y.
Proof.
  unfold strictlyNewerFirst.
  induction 1 as [|z l Hsorted IH Hz]; simpl; [done|].
  rewrite Forall_forall in Hz.
  intros [->|Hx] [->|Hy] Heq; [done| | |by apply IH].
  - apply list_elem_of_In, Hz in Hy. lia.
  - apply list_elem_of_In, Hz in Hx. lia.
Qed.

Lemma strict_listing_NoDup (l : list Todo.ITodo) :
  StronglySorted strictlyNewerFirst l -> NoDup l.
Proof.
  unfold strictlyNewerFirst.
  induction 1 as [|z l Hsorted IH Hz]; [apply NoDup_nil_2|].
  apply NoDup_cons. split; [|done].
  rewrite Forall_forall in Hz. intros Hin. apply Hz in Hin. lia.
Qed.

Lemma strict_listing_sorted (l : list Todo.ITodo) :
  StronglySorted strictlyNewerFirst l -> StronglySorted Todo.newerFirst l.
Proof.
  induction 1 as [|z l Hsorted IH Hz]; constructor; [done|].
  eapply Forall_impl; [exact Hz|].
  unfold strictlyNewerFirst, Todo.newerFirst. intros y Hy. lia.
Qed.

(** When no two of the caller's tasks bear the same time stamp, the query
    pages through the one listing of them that is newest first. *)
Lemma newestFirstOf_listing uid docs (l : list Todo.ITodo) :
  Permutation l (List.filter (Todo.ownedBy uid) docs) ->
  StronglySorted strictlyNewerFirst l ->
  newestFirstOf uid docs = l.
Proof.
  intros Hperm Hstrict.
  apply (StronglySorted_unique_strong Todo.newerFirst).
  - intros x y Hx Hy Hxy Hyx.
    apply (strict_listing_inj l); [done| |by apply list_elem_of_In|].
    + apply list_elem_of_In. rewrite Hperm.
      unfold newestFirstOf in Hx. by rewrite sort_permutation in Hx.
    + unfold Todo.newerFirst in *. lia.
  - apply sort_sorted.
  - by apply strict_listing_sorted.
  - unfold newestFirstOf. by rewrite sort_permutation, Hperm.
Qed.

(** X1.  Two successive pages of the query, [skip = 0] and [skip = N] with
    [take = N > 0] on an unchanged collection.  Let [l] list the caller's
    stored tasks, each once, newest first, no two of them created at the
    same time.  The first page is the first [N] tasks of [l] and the second
    page the next [N]: together they are the first [2N] tasks of [l], so
    they follow one another without a gap, no task occurs twice, every
    task is the caller's, and when the caller has no more than [2N] tasks
    the two pages hold them all. *)
Theorem findPage_two_windows uid (N : Z) docs (l : list Todo.ITodo) :
  0 < N ->
  Permutation l (List.filter (Todo.ownedBy uid) docs) ->
  StronglySorted strictlyNewerFirst l ->
  exists w1 w2,
    todoResolvers.findPage uid 0 N docs = Ok w1
    /\ todoResolvers.findPage uid N N docs = Ok w2
    /\ w1 = firstn (Z.to_nat N) l
    /\ w2 = firstn (Z.to_nat N) (skipn (Z.to_nat N) l)
    /\ w1 ++ w2 = firstn (Z.to_nat N + Z.to_nat N) l
    /\ StronglySorted strictlyNewerFirst (w1 ++ w2)
    /\ NoDup (w1 ++ w2)
    /\ (forall d, In d (w1 ++ w2) -> In d docs /\ Todo.userId d = uid)
    /\ ((List.length l <= Z.to_nat N + Z.to_nat N)%nat ->
        Permutation (w1 ++ w2) (List.filter (Todo.ownedBy uid) docs)).
Proof.
  intros HN Hperm Hstrict.
  pose proof (newestFirstOf_listing uid docs l Hperm Hstrict) as Hlisting.
  assert (Hfirst : StronglySorted strictlyNewerFirst
                     (firstn (Z.to_nat N + Z.to_nat N) l)).
  { pose proof Hstrict as Hs.
    rewrite <- (take_drop (Z.to_nat N + Z.to_nat N) l) in Hs.
    by apply StronglySorted_app_1_l in Hs. }
  exists (firstn (Z.to_nat N) l), (firstn (Z.to_nat N) (skipn (Z.to_nat N) l)).
  rewrite take_take_drop.
  split_and!; try done.
  - rewrite findPage_window by lia. by rewrite Hlisting.
  - rewrite findPage_window by lia. by rewrite Hlisting.
  - by apply strict_listing_NoDup.
  - intros d Hd. apply newestFirstOf_owned. rewrite Hlisting.
    apply list_elem_of_In. eapply subseteq_take. by apply list_elem_of_In.
  - intros Hall. by rewrite firstn_all2.
Qed.

(** A plain object made by [lean] has no property [id]. *)
Lemma lean_has_no_id d : todoResolvers.lean d !! "id" = None.
Proof. by vm_compute. Qed.

Lemma leanPayload_throws d :
  todoResolvers.leanPayload (todoResolvers.lean d)
  = Throw (todoResolvers.TypeError_undefined "toString").
Proof. unfold todoResolvers.leanPayload. by rewrite lean_has_no_id. Qed.

(** The resolver builds its answer from the page's plain objects: it
    succeeds on an empty page and throws on any other. *)
Lemma todos_by_page u uid (skip take : option Z) st page :
  JS.truthy u = true ->
  ObjectId_new u = Some uid ->
  todoResolvers.findPage uid (JS.nullish skip 0) (JS.nullish take 10) (todos st)
  = Ok page ->
  todoResolvers.todos
    {| todoResolvers.args_skip := skip; todoResolvers.args_take := take |}
    {| auth.userId := Some u |} st
  = match page with
    | [] => (Ok [], st)
    | _ :: _ => (Throw (Error "Failed to fetch todos"), st)
    end.
Proof.
  intros Hu Huid Hpage.
  unfold todoResolvers.todos, try_catch, bind, newObjectId, get_todos, lift,
    ret, throw. simpl.
  rewrite Hu, Huid. simpl. rewrite Hpage. simpl.
  destruct page as [|d rest]; [done|]. simpl.
  by rewrite leanPayload_throws.
Qed.

(** X8.  Whoever has a task gets no first page: for every positive page
    size [todos] throws "Failed to fetch todos". *)
Theorem todos_fails_with_a_task u uid (N : Z) st d :
  JS.truthy u = true ->
  ObjectId_new u = Some uid ->
  0 < N ->
  In d (todos st) -> Todo.userId d = uid ->
  todoResolvers.todos
    {| todoResolvers.args_skip := Some 0; todoResolvers.args_take := Some N |}
    {| auth.userId := Some u |} st
  = (Throw (Error "Failed to fetch todos"), st).
Proof.
  intros Hu Huid HN Hin Hown.
  rewrite (todos_by_page u uid (Some 0) (Some N) st
             (firstn (Z.to_nat N) (newestFirstOf uid (todos st))) Hu Huid).
  - assert (Hd : In d (newestFirstOf uid (todos st)))
      by by apply newestFirstOf_owned.
    destruct (newestFirstOf uid (todos st)) as [|x rest]; [done|].
    destruct (Z.to_nat N) eqn:HnN; [lia|done].
  - simpl. by rewrite findPage_window by lia.
Qed.

End Paging.

(** ** Login failures *)

Section Login.
Context {DRV : Driver} {BCR : Bcrypt} {JWT : Jwt} {VAL : Validator}.
Variable env : ProcessEnv.

(** The API's login names the half of the check that failed. *)
Lemma login_failures (username password : string) (st : Store) :
  (User.findOne username (users st) = None ->
   userResolvers.login env username password st
   = (Throw (Error "User not found"), st))
  /\ (forall u, User.findOne username (users st) = Some u ->
      User.comparePassword u password = false ->
      userResolvers.login env username password st
      = (Throw (Error "Invalid password"), st)).
Proof.
  unfold userResolvers.login, bind, get_users, throw. simpl.
  split.
  - by intros ->.
  - intros u -> Hpw. by rewrite Hpw.
Qed.

(** X3.  The web form answers both failures, an unknown user name and a
    wrong password, with one message.  The user name is the field as the
    validator's [trim()] leaves it; it is unknown when no stored user
    bears it, and the password is wrong when the user stored under it
    does not accept it. *)
Theorem postLogin_one_message (req : Express.Request) (st : Store) :
  let username := trim (web.field "username" req) in
  let password := web.field "password" req in
  JS.truthy username = true ->
  JS.truthy password = true ->
  (~ In username (List.map User.username (users st))
   \/ exists l1 u l2,
        users st = l1 ++ u :: l2
        /\ ~ In username (List.map User.username l1)
        /\ User.username u = username
        /\ User.comparePassword u password = false) ->
  web.postLogin env req st
  = (Ok (Express.Render 400
           (Express.LoginView
              [web.fieldError "password" "Invalid username or password"]
              username)), st).
Proof.
  intros username password Hu Hp Hfail.
  assert (Hfind : User.findOne username (users st) = None
                  \/ exists u, User.findOne username (users st) = Some u
                               /\ User.comparePassword u password = false).
  { destruct Hfail as [Hnew|(l1 & u & l2 & Hsplit & Hl1 & Hname & Hpw)].
    - left. by apply findOne_name_new.
    - right. exists u. split; [|done]. rewrite Hsplit.
      by apply findOne_name_at. }
  subst username password.
  unfold web.postLogin, web.check, bind, get_users, ret. rewrite Hu, Hp. simpl.
  destruct Hfind as [->|(u & -> & Hpw)]; [done|]. by rewrite Hpw.
Qed.

End Login.

(** ** Creating a task *)

Section Creation.
Context {DRV : Driver} {BCR : Bcrypt} {VAL : Validator} {JSD : JsDate}.

Lemma fresh_todo_id (oid : ObjectId) (docs : list Todo.ITodo) :
  ~ In oid (List.map Todo._id docs) ->
  existsb (fun x => bool_decide (Todo._id x = oid)) docs = false.
Proof.
  intros Hfresh. apply not_true_is_false.
  intros (x & Hx & Heq)%existsb_exists.
  apply bool_decide_eq_true_1 in Heq.
  apply Hfresh. rewrite <- Heq. by apply in_map.
Qed.

(** X4.  The web form passes the text through the validator's [trim()]
    and requires the result to be non-empty: it stores a task whose text
    is the sanitized text exactly when that is non-empty, and otherwise
    renders the task page again with status 400 and stores nothing. *)
Theorem postTodosAdd_outcome (e : Env) (req : Express.Request) u uid (st : Store) :
  Express.userId req = Some u ->
  JS.truthy u = true ->
  ObjectId_new u = Some uid ->
  ~ In (freshId e) (List.map Todo._id (todos st)) ->
  let text := trim (web.field "text" req) in
  web.postTodosAdd e req st
  = if JS.truthy text
    then (Ok (Express.Redirect "/todos"),
          {| todos := todos st ++ [Todo.create (freshId e) (now e) text uid];
             users := users st |})
    else (Ok (Express.Render 400
                (Express.TodosView (newestFirstOf uid (todos st))
                   (User.findById uid (users st))
                   [web.fieldError "text" "Todo text cannot be empty"])), st).
Proof.
  intros Hreq Hu Huid Hfresh text. subst text.
  unfold web.postTodosAdd, web.guarded, auth.ensureAuth. rewrite Hreq. simpl.
  rewrite Hu. simpl. rewrite Hreq.
  unfold web.check.
  destruct (JS.truthy (trim (web.field "text" req))) eqn:Htext.
  - unfold web.castObjectId, saveNewTodo, Todo.validate, bind, lift, ret,
      get_todos, put_todos. rewrite Huid. simpl. rewrite Htext. simpl.
    by rewrite fresh_todo_id.
  - unfold web.todosPage, web.castObjectId, web.findTodos, bind, ret,
      get_todos, get_users. by rewrite Huid.
Qed.

(** X5.  The API requires the text to be non-empty as it is given, and
    nothing trims it: [addTodo] stores the task exactly when the text has
    a character, and otherwise throws the schema's validation message. *)
Theorem addTodo_outcome (e : Env) (text u : string) uid (st : Store) :
  JS.truthy u = true ->
  ObjectId_new u = Some uid ->
  ~ In (freshId e) (List.map Todo._id (todos st)) ->
  todoResolvers.addTodo e text {| auth.userId := Some u |} st
  = if JS.truthy text
    then (Ok (todoResolvers.payloadOf
                (Todo.create (freshId e) (now e) text uid)),
          {| todos := todos st ++ [Todo.create (freshId e) (now e) text uid];
             users := users st |})
    else (Throw (Error (Todo.requiredMessage "text")), st).
Proof.
  intros Hu Huid Hfresh.
  unfold todoResolvers.addTodo, try_catch, newObjectId, saveNewTodo,
    Todo.validate, bind, lift, ret, throw, get_todos, put_todos. simpl.
  rewrite Hu, Huid. simpl.
  destruct (JS.truthy text) eqn:Htext; simpl; [|done].
  by rewrite fresh_todo_id.
Qed.

End Creation.

(** ** The web forms *)

Section WebForms.
Context {DRV : Driver} {BCR : Bcrypt} {JWT : Jwt} {VAL : Validator}
        {RTR : Router}.
Variable env : ProcessEnv.

Lemma check_failed p m : web.check false p m <> [].
Proof. done. Qed.

(** X6.  The register form enforces its field rules on the user name as
    the validator's [trim()] leaves it, on the password and on its
    confirmation: when [isLength({ min: 3 })] refuses the name, or the
    password is not strong, or the confirmation differs from the password,
    the form is rendered again with status 400, the message of every rule
    that failed is listed, and nothing is stored. *)
Theorem postRegister_field_rules (e : Env) (req : Express.Request) (st : Store) :
  let username := trim (web.field "username" req) in
  (isLength 3 username = false
   \/ isStrongPassword (web.field "password" req) = false
   \/ Express.body req !! "confirmPassword" <> Express.body req !! "password") ->
  exists errors,
    errors <> []
    /\ web.postRegister e req st
       = (Ok (Express.Render 400 (Express.RegisterView errors username)), st)
    /\ (isLength 3 username = false ->
        In (web.fieldError "username" "Username must be at least 3 characters")
          errors)
    /\ (isStrongPassword (web.field "password" req) = false ->
        In (web.fieldError "password"
              "Password must be at least 8 chars, include uppercase, lowercase, number & symbol")
          errors)
    /\ (Express.body req !! "confirmPassword" <> Express.body req !! "password" ->
        In (web.fieldError "confirmPassword" "Passwords do not match") errors).
Proof.
  intros username Hrule. subst username. unfold web.postRegister.
  match goal with
  | |- context [match ?errs with [] => _ | _ :: _ => _ end] =>
      remember errs as errors eqn:Herrs
  end.
  assert (Hlisted :
    (isLength 3 (trim (web.field "username" req)) = false ->
     In (web.fieldError "username" "Username must be at least 3 characters")
       errors)
    /\ (isStrongPassword (web.field "password" req) = false ->
        In (web.fieldError "password"
              "Password must be at least 8 chars, include uppercase, lowercase, number & symbol")
          errors)
    /\ (Express.body req !! "confirmPassword" <> Express.body req !! "password" ->
        In (web.fieldError "confirmPassword" "Passwords do not match") errors)).
  { rewrite Herrs. split_and!.
    - intros ->. apply in_or_app. left. by left.
    - intros ->. apply in_or_app. right. apply in_or_app. left. by left.
    - intros Hconfirm. rewrite (bool_decide_eq_false_2 _ Hconfirm).
      apply in_or_app. right. apply in_or_app. right. by left. }
  destruct Hlisted as (Hname & Hweak & Hconfirm).
  destruct errors as [|err errs'].
  - exfalso. destruct Hrule as [H1|[H2|H3]];
      [exact (Hname H1)|exact (Hweak H2)|exact (Hconfirm H3)].
  - exists (err :: errs'). by split_and!.
Qed.

(** X7.  A request without a user identifier (or with an empty one) to a
    route behind [ensureAuth], sent with a method the route is registered
    for, is redirected to the login page: the router answers it, no
    handler behind the guard runs, and the store stays as it is. *)
Theorem protected_routes_redirect (e : Env) (req : Express.Request)
    (route : Route) (st : Store) :
  JS.truthy_opt (Express.userId req) = false ->
  matchPath (Express.path req) = Some route ->
  protectedRoute route = true ->
  routeTakes route (Express.method req) = true ->
  web.router env e req st = (Ok (Some (Express.Redirect "/login")), st).
Proof.
  intros Hanon Hroute Hprot Hmethod. unfold web.router. rewrite Hroute.
  unfold routeTakes in Hmethod.
  destruct route; try discriminate Hprot; rewrite Hmethod;
    unfold web.postLogout, web.getTodos, web.postTodosAdd,
      web.postTodosToggle, web.postTodosDelete, web.guarded, auth.ensureAuth,
      bind, ret; by rewrite Hanon.
Qed.

End WebForms.

(** ** Identifiers stay unique *)

Section Invariant.
Context {DRV : Driver} {BCR : Bcrypt} {JWT : Jwt} {VAL : Validator}
        {RTR : Router} {JSD : JsDate} {CSRF : Csrf} {PLT : Platform}.
Variable env : ProcessEnv.

Lemma keeps_ret {A : Type} (a : A) : keepsUniqueIds (ret a).
Proof. by intros st. Qed.

Lemma keeps_throw {A : Type} (err : JsError) : keepsUniqueIds (@throw _ A err).
Proof. by intros st. Qed.

Lemma keeps_lift {A : Type} (r : Result A) : keepsUniqueIds (lift r).
Proof. by intros st. Qed.

Lemma keeps_get_todos : keepsUniqueIds get_todos.
Proof. by intros st. Qed.

Lemma keeps_get_users : keepsUniqueIds get_users.
Proof. by intros st. Qed.

Lemma keeps_put_users accounts : keepsUniqueIds (put_users accounts).
Proof. by intros st. Qed.

Lemma keeps_bind {A B : Type} (m : M A) (k : A -> M B) :
  keepsUniqueIds m -> (forall a, keepsUniqueIds (k a)) ->
  keepsUniqueIds (bind m k).
Proof.
  intros Hm Hk st Hst. unfold bind. specialize (Hm st Hst).
  destruct (m st) as [[a|err] st']; simpl in *; [by apply Hk|done].
Qed.

Lemma keeps_try_catch {A : Type} (m : M A) (h : JsError -> M A) :
  keepsUniqueIds m -> (forall err, keepsUniqueIds (h err)) ->
  keepsUniqueIds (try_catch m h).
Proof.
  intros Hm Hh st Hst. unfold try_catch. specialize (Hm st Hst).
  destruct (m st) as [[a|err] st']; simpl in *; [done|by apply Hh].
Qed.

Lemma keeps_newObjectId s : keepsUniqueIds (newObjectId s).
Proof. unfold newObjectId. destruct (ObjectId_new s); by intros st. Qed.

Lemma keeps_castObjectId s : keepsUniqueIds (web.castObjectId s).
Proof. unfold web.castObjectId. destruct (ObjectId_new s); by intros st. Qed.

Lemma keeps_saveNewTodo d : keepsUniqueIds (saveNewTodo d).
Proof.
  intros st Hst. unfold saveNewTodo, bind, lift, get_todos, put_todos, ret, throw.
  destruct (Todo.validate d); simpl; [|done].
  destruct (existsb _ (todos st)) eqn:Hex; simpl; [done|].
  unfold uniqueIds in *. simpl. rewrite List.map_app. simpl.
  apply NoDup_app. split; [done|]. split; [|apply NoDup_singleton].
  intros oid Hin ->%list_elem_of_singleton.
  apply list_elem_of_In, in_map_iff in Hin as (x & Hx & Hin).
  apply not_true_iff_false in Hex. apply Hex, existsb_exists.
  exists x. split; [done|]. by apply bool_decide_eq_true_2.
Qed.

Lemma setCompleted_ids oid b docs :
  List.map Todo._id (Todo.setCompleted oid b docs).1 = List.map Todo._id docs.
Proof.
  induction docs as [|d rest IH]; simpl; [done|].
  destruct (bool_decide (Todo._id d = oid)); simpl; [done|].
  destruct (Todo.setCompleted oid b rest) as [rest' hit]. simpl in *.
  by rewrite IH.
Qed.

Lemma keeps_saveCompleted d : keepsUniqueIds (saveCompleted d).
Proof.
  intros st Hst. unfold saveCompleted, bind, get_todos, put_todos, ret, throw.
  pose proof (setCompleted_ids (Todo._id d) (Todo.completed d) (todos st)) as Hids.
  destruct (Todo.setCompleted _ _ _) as [docs' [|]]; simpl in *; [|done].
  unfold uniqueIds. simpl. by rewrite Hids.
Qed.

Lemma deleteOne_ids f docs :
  NoDup (List.map Todo._id docs) ->
  NoDup (List.map Todo._id (Todo.deleteOne f docs).1).
Proof.
  induction docs as [|d rest IH]; simpl; [done|].
  intros [Hd Hrest]%NoDup_cons.
  destruct (f d); simpl; [done|].
  specialize (IH Hrest).
  assert (Hsub : forall oid,
             In oid (List.map Todo._id (Todo.deleteOne f rest).1) ->
             In oid (List.map Todo._id rest)).
  { clear. induction rest as [|x rest IH]; simpl; [done|].
    destruct (f x); simpl; [by right|].
    destruct (Todo.deleteOne f rest) as [rest' n]. simpl in *.
    intros oid [Hoid|Hin]; [by left|right; by apply IH]. }
  destruct (Todo.deleteOne f rest) as [rest' n]. simpl in *.
  apply NoDup_cons. split; [|done].
  intros Hin%list_elem_of_In. by apply Hd, list_elem_of_In, Hsub.
Qed.

Lemma keeps_deleteOneTodo f : keepsUniqueIds (deleteOneTodo f).
Proof.
  intros st Hst. unfold deleteOneTodo, bind, get_todos, put_todos, ret.
  pose proof (deleteOne_ids f (todos st) Hst) as Hids.
  by destruct (Todo.deleteOne f (todos st)) as [docs' n].
Qed.

Lemma keeps_saveNewUser u : keepsUniqueIds (saveNewUser u).
Proof.
  intros st Hst. unfold saveNewUser, bind, get_users, put_users, ret, throw.
  by destruct (existsb _ (users st)).
Qed.

Create HintDb keeps discriminated.
#[local] Hint Resolve keeps_ret keeps_throw keeps_lift keeps_get_todos
  keeps_get_users keeps_put_users keeps_newObjectId keeps_castObjectId
  keeps_saveNewTodo keeps_saveCompleted keeps_deleteOneTodo keeps_saveNewUser
  : keeps.

(** Take a handler apart along its binds and its case distinctions. *)
Ltac keeps_step :=
  match goal with
  | |- keepsUniqueIds (bind _ _) => apply keeps_bind; [|intros ?]
  | |- keepsUniqueIds (try_catch _ _) => apply keeps_try_catch; [|intros ?]
  | |- keepsUniqueIds (match ?x with _ => _ end) => destruct x
  | |- keepsUniqueIds (let '(_, _) := ?x in _) => destruct x
  | |- keepsUniqueIds _ => solve [auto with keeps]
  end.

Ltac keeps_all := repeat keeps_step.

Lemma keeps_todos args context : keepsUniqueIds (todoResolvers.todos args context).
Proof.
  unfold todoResolvers.todos, todoResolvers.authenticationRequired. keeps_all.
Qed.

Lemma keeps_addTodo e text context :
  keepsUniqueIds (todoResolvers.addTodo e text context).
Proof.
  unfold todoResolvers.addTodo, todoResolvers.authenticationRequired. keeps_all.
Qed.

Lemma keeps_toggleTodo id context :
  keepsUniqueIds (todoResolvers.toggleTodo id context).
Proof.
  unfold todoResolvers.toggleTodo, todoResolvers.authenticationRequired.
  keeps_all.
Qed.

Lemma keeps_deleteTodo id context :
  keepsUniqueIds (todoResolvers.deleteTodo id context).
Proof.
  unfold todoResolvers.deleteTodo, todoResolvers.authenticationRequired.
  keeps_all.
Qed.

Lemma keeps_register e username password :
  keepsUniqueIds (userResolvers.register e username password).
Proof. unfold userResolvers.register. keeps_all. Qed.

Lemma keeps_login username password :
  keepsUniqueIds (userResolvers.login env username password).
Proof. unfold userResolvers.login. keeps_all. Qed.

Lemma keeps_execute e op req : keepsUniqueIds (index.execute env e op req).
Proof.
  destruct op; unfold index.execute, index.mapM;
    (apply keeps_bind; [|intros ?; apply keeps_ret]);
    auto using keeps_todos, keeps_addTodo, keeps_toggleTodo, keeps_deleteTodo,
      keeps_register, keeps_login.
Qed.

Lemma keeps_guarded handler req :
  (forall u, keepsUniqueIds (handler u)) ->
  keepsUniqueIds (web.guarded handler req).
Proof. intros Hh. unfold web.guarded. keeps_all. Qed.

Lemma keeps_router e req : keepsUniqueIds (web.router env e req).
Proof.
  unfold web.router.
  destruct (matchPath (Express.path req)) as [[]|];
    repeat match goal with
      | |- keepsUniqueIds (if ?b then _ else _) => destruct b
      end;
    try apply keeps_ret;
    (apply keeps_bind; [|intros ?; apply keeps_ret]).
  - unfold web.postRegister. keeps_all.
  - unfold web.postLogin. keeps_all.
  - apply keeps_guarded. intros u. keeps_all.
  - apply keeps_guarded. intros u. unfold web.todosPage, web.findTodos. keeps_all.
  - apply keeps_guarded. intros u. unfold web.todosPage, web.findTodos. keeps_all.
  - apply keeps_guarded. intros u. keeps_all.
  - apply keeps_guarded. intros u. keeps_all.
Qed.

(** X2.  Whatever the request, the application leaves a store with unique task
    identifiers in a store with unique task identifiers. *)
Theorem app_keeps_uniqueIds e secret req st :
  uniqueIds st -> uniqueIds (index.app env e secret req st).2.
Proof.
  revert st. change (keepsUniqueIds (index.app env e secret req)).
  unfold index.app.
  destruct (index.preflight req); [apply keeps_ret|].
  destruct (auth.jwtAuth env req) as [req1|err|r]; try apply keeps_ret.
  destruct (_ && _); [apply keeps_ret|].
  destruct (index.csrfDispatch secret req1) as [locals|err|r];
    try apply keeps_ret.
  destruct (rateLimited req1); [apply keeps_ret|].
  destruct (staticFile req1); [apply keeps_ret|].
  apply keeps_bind; [apply keeps_router|]. intros [r|]; [apply keeps_ret|].
  destruct (mounted _ _); [|apply keeps_ret].
  destruct (parseOperation req1) as [op|]; [|apply keeps_ret].
  intros st Hst. pose proof (keeps_execute e op req1 st Hst) as Hex.
  by destruct (index.execute env e op req1 st).
Qed.

End Invariant.

(** ** What the handlers leave alone *)

Section ReadOnly.
Context {DRV : Driver} {BCR : Bcrypt} {JWT : Jwt} {VAL : Validator}
        {RTR : Router} {JSD : JsDate}.
Variable env : ProcessEnv.
Variable P : Store -> Prop.

Lemma preserves_ret {A : Type} (a : A) : preserves P (ret a).
Proof. by intros st. Qed.

Lemma preserves_throw {A : Type} (err : JsError) : preserves P (@throw _ A err).
Proof. by intros st. Qed.

Lemma preserves_lift {A : Type} (r : Result A) : preserves P (lift r).
Proof. by intros st. Qed.

Lemma preserves_get_todos : preserves P get_todos.
Proof. by intros st. Qed.

Lemma preserves_get_users : preserves P get_users.
Proof. by intros st. Qed.

Lemma preserves_bind {A B : Type} (m : M A) (k : A -> M B) :
  preserves P m -> (forall a, preserves P (k a)) -> preserves P (bind m k).
Proof.
  intros Hm Hk st Hst. unfold bind. specialize (Hm st Hst).
  destruct (m st) as [[a|err] st']; simpl in *; [by apply Hk|done].
Qed.

Lemma preserves_try_catch {A : Type} (m : M A) (h : JsError -> M A) :
  preserves P m -> (forall err, preserves P (h err)) ->
  preserves P (try_catch m h).
Proof.
  intros Hm Hh st Hst. unfold try_catch. specialize (Hm st Hst).
  destruct (m st) as [[a|err] st']; simpl in *; [done|by apply Hh].
Qed.

Lemma preserves_newObjectId s : preserves P (newObjectId s).
Proof. unfold newObjectId. destruct (ObjectId_new s); by intros st. Qed.

Lemma preserves_castObjectId s : preserves P (web.castObjectId s).
Proof. unfold web.castObjectId. destruct (ObjectId_new s); by intros st. Qed.

Lemma preserves_guarded handler req :
  (forall u, preserves P (handler u)) -> preserves P (web.guarded handler req).
Proof.
  intros Hh. unfold web.guarded.
  destruct (auth.ensureAuth req) as [req'|err|r];
    [|apply preserves_throw|apply preserves_ret].
  destruct (Express.userId req'); [apply Hh|apply preserves_ret].
Qed.

End ReadOnly.

Create HintDb preserves discriminated.
#[local] Hint Resolve preserves_ret preserves_throw preserves_lift
  preserves_get_todos preserves_get_users preserves_newObjectId
  preserves_castObjectId : preserves.

(** Take a handler apart along its binds and its case distinctions. *)
Ltac preserves_step :=
  match goal with
  | |- preserves _ (bind _ _) => apply preserves_bind; [|intros ?]
  | |- preserves _ (try_catch _ _) => apply preserves_try_catch; [|intros ?]
  | |- preserves _ (web.guarded _ _) => apply preserves_guarded; intros ?
  | |- preserves _ (match ?x with _ => _ end) => destruct x
  | |- preserves _ (let '(_, _) := ?x in _) => destruct x
  | |- preserves _ _ => solve [auto with preserves]
  end.

Ltac preserves_all := repeat preserves_step.

Section Readers.
Context {DRV : Driver} {BCR : Bcrypt} {JWT : Jwt} {VAL : Validator}
        {RTR : Router} {JSD : JsDate}.
Variable env : ProcessEnv.
Variable P : Store -> Prop.

Lemma preserves_todos args context :
  preserves P (todoResolvers.todos args context).
Proof.
  unfold todoResolvers.todos, todoResolvers.authenticationRequired.
  preserves_all.
Qed.

Lemma preserves_login username password :
  preserves P (userResolvers.login env username password).
Proof. unfold userResolvers.login. preserves_all. Qed.

Lemma preserves_postLogin req : preserves P (web.postLogin env req).
Proof. unfold web.postLogin. preserves_all. Qed.

Lemma preserves_postLogout req : preserves P (web.postLogout req).
Proof. unfold web.postLogout. preserves_all. Qed.

Lemma preserves_todosPage u status errors :
  preserves P (web.todosPage u status errors).
Proof. unfold web.todosPage, web.findTodos. preserves_all. Qed.

Lemma preserves_getTodos req : preserves P (web.getTodos req).
Proof.
  unfold web.getTodos. apply preserves_guarded. intros u.
  apply preserves_todosPage.
Qed.

Lemma safe_method_flags (m : string) :
  m = "GET" \/ m = "HEAD" ->
  bool_decide (m = "GET") || bool_decide (m = "HEAD") = true
  /\ bool_decide (m = "POST") = false.
Proof. by intros [-> | ->]. Qed.

Lemma preserves_router_safe e req :
  Express.method req = "GET" \/ Express.method req = "HEAD" ->
  preserves P (web.router env e req).
Proof.
  intros [Hget Hpost]%safe_method_flags. unfold web.router.
  rewrite Hget, Hpost.
  destruct (matchPath (Express.path req)) as [[]|]; try apply preserves_ret.
  apply preserves_bind; [apply preserves_getTodos|].
  intros r. apply preserves_ret.
Qed.

End Readers.

Section SafeMethods.
Context {DRV : Driver} {BCR : Bcrypt} {JWT : Jwt} {VAL : Validator}
        {RTR : Router} {JSD : JsDate}.
Variable env : ProcessEnv.

(** X9.  The router changes nothing on a GET or HEAD request: whatever the
    path, the cookies and the stored data, the store after the request is
    the store before it. *)
Theorem router_safe_methods (e : Env) (req : Express.Request) (st : Store) :
  Express.method req = "GET" \/ Express.method req = "HEAD" ->
  (web.router env e req st).2 = st.
Proof.
  intros Hsafe. symmetry.
  exact (preserves_router_safe env (eq st) e req Hsafe st eq_refl).
Qed.

(** X10.  Logging in and logging out never write: the API's [login], the
    web form [POST /login] and [POST /logout] leave the store as it is for
    every input, whether they succeed or fail. *)
Theorem login_and_logout_write_nothing (username password : string)
    (req : Express.Request) (st : Store) :
  (userResolvers.login env username password st).2 = st
  /\ (web.postLogin env req st).2 = st
  /\ (web.postLogout req st).2 = st.
Proof.
  split_and!; symmetry.
  - exact (preserves_login env (eq st) username password st eq_refl).
  - exact (preserves_postLogin env (eq st) req st eq_refl).
  - exact (preserves_postLogout (eq st) req st eq_refl).
Qed.

(** X11.  The API's [todos] is read-only and has two error messages: for
    every argument, context and store it leaves the store as it is, and
    when it throws the message is "Authentication required" or "Failed to
    fetch todos", never the driver's or the server's own text. *)
Theorem todos_reads_and_hides_errors (args : todoResolvers.TodosArgs)
    (context : auth.AuthContext) (st : Store) :
  (todoResolvers.todos args context st).2 = st
  /\ throwsOnly ["Authentication required"; "Failed to fetch todos"]
       (todoResolvers.todos args context st).1.
Proof.
  split.
  - symmetry. exact (preserves_todos (eq st) args context st eq_refl).
  - unfold todoResolvers.todos, todoResolvers.authenticationRequired, throw.
    destruct (auth.userId context) as [u|]; [|simpl; auto].
    destruct (JS.truthy u); simpl; [|auto].
    unfold try_catch.
    match goal with |- context [match ?m st with _ => _ end] =>
      destruct (m st) as [[page|err] st'] end; simpl; auto.
Qed.

End SafeMethods.

(** ** Where the store is written *)

Section Writers.
Context {DRV : Driver} {BCR : Bcrypt} {JWT : Jwt} {VAL : Validator}
        {RTR : Router} {JSD : JsDate} {CSRF : Csrf} {PLT : Platform}.
Variable env : ProcessEnv.
Variable P : Store -> Prop.
Hypothesis HsaveNew : forall d, preserves P (saveNewTodo d).
Hypothesis HsaveCompleted : forall d, preserves P (saveCompleted d).
Hypothesis HdeleteOne : forall f, preserves P (deleteOneTodo f).

Lemma preserves_addTodo e text context :
  preserves P (todoResolvers.addTodo e text context).
Proof.
  unfold todoResolvers.addTodo, todoResolvers.authenticationRequired.
  preserves_all.
Qed.

Lemma preserves_toggleTodo id context :
  preserves P (todoResolvers.toggleTodo id context).
Proof.
  unfold todoResolvers.toggleTodo, todoResolvers.authenticationRequired.
  preserves_all.
Qed.

Lemma preserves_deleteTodo id context :
  preserves P (todoResolvers.deleteTodo id context).
Proof.
  unfold todoResolvers.deleteTodo, todoResolvers.authenticationRequired.
  preserves_all.
Qed.

Lemma preserves_postTodosAdd e req : preserves P (web.postTodosAdd e req).
Proof.
  unfold web.postTodosAdd. apply preserves_guarded. intros u.
  destruct (web.check _ _ _); [preserves_all|apply preserves_todosPage].
Qed.

Lemma preserves_postTodosToggle id req :
  preserves P (web.postTodosToggle id req).
Proof. unfold web.postTodosToggle. preserves_all. Qed.

Lemma preserves_postTodosDelete id req :
  preserves P (web.postTodosDelete id req).
Proof. unfold web.postTodosDelete. preserves_all. Qed.

Hypothesis Hregister :
  forall e username password,
    preserves P (userResolvers.register e username password).
Hypothesis HpostRegister : forall e req, preserves P (web.postRegister e req).

Lemma preserves_execute e op req : preserves P (index.execute env e op req).
Proof.
  destruct op; unfold index.execute, index.mapM;
    (apply preserves_bind; [|intros ?; apply preserves_ret]);
    auto using preserves_todos, preserves_login, preserves_addTodo,
      preserves_toggleTodo, preserves_deleteTodo.
Qed.

Lemma preserves_router e req : preserves P (web.router env e req).
Proof.
  unfold web.router.
  destruct (matchPath (Express.path req)) as [[]|];
    repeat match goal with
      | |- preserves _ (if ?b then _ else _) => destruct b
      end;
    try apply preserves_ret;
    (apply preserves_bind; [|intros ?; apply preserves_ret]);
    auto using preserves_postLogin, preserves_postLogout, preserves_getTodos,
      preserves_postTodosAdd, preserves_postTodosToggle,
      preserves_postTodosDelete.
Qed.

(** The application writes the store only where its handlers do. *)
Lemma preserves_app e secret req : preserves P (index.app env e secret req).
Proof.
  unfold index.app.
  destruct (index.preflight req); [apply preserves_ret|].
  destruct (auth.jwtAuth env req) as [req1|err|r]; try apply preserves_ret.
  destruct (_ && _); [apply preserves_ret|].
  destruct (index.csrfDispatch secret req1) as [locals|err|r];
    try apply preserves_ret.
  destruct (rateLimited req1); [apply preserves_ret|].
  destruct (staticFile req1); [apply preserves_ret|].
  apply preserves_bind; [apply preserves_router|].
  intros [r|]; [apply preserves_ret|].
  destruct (mounted _ _); [|apply preserves_ret].
  destruct (parseOperation req1) as [op|]; [|apply preserves_ret].
  intros st Hst. pose proof (preserves_execute e op req1 st Hst) as Hex.
  by destruct (index.execute env e op req1 st).
Qed.

End Writers.

Section Frames.
Context {DRV : Driver} {BCR : Bcrypt} {JWT : Jwt} {VAL : Validator}
        {RTR : Router} {JSD : JsDate} {CSRF : Csrf} {PLT : Platform}.
Variable env : ProcessEnv.

(** The three writes to the task collection keep whatever is said about
    the users alone. *)
Lemma saveNewTodo_users (Q : list User.IUser -> Prop) d :
  preserves (fun st => Q (users st)) (saveNewTodo d).
Proof.
  intros st Hst. unfold saveNewTodo, bind, lift, get_todos, put_todos, ret, throw.
  destruct (Todo.validate d); simpl; [|done].
  by destruct (existsb _ (todos st)).
Qed.

Lemma saveCompleted_users (Q : list User.IUser -> Prop) d :
  preserves (fun st => Q (users st)) (saveCompleted d).
Proof.
  intros st Hst. unfold saveCompleted, bind, get_todos, put_todos, ret, throw.
  by destruct (Todo.setCompleted _ _ _) as [docs' [|]].
Qed.

Lemma deleteOneTodo_users (Q : list User.IUser -> Prop) f :
  preserves (fun st => Q (users st)) (deleteOneTodo f).
Proof.
  intros st Hst. unfold deleteOneTodo, bind, get_todos, put_todos, ret.
  by destruct (Todo.deleteOne f (todos st)) as [docs' n].
Qed.

(** The write to the user collection keeps whatever is said about the
    tasks alone. *)
Lemma saveNewUser_todos (Q : list Todo.ITodo -> Prop) u :
  preserves (fun st => Q (todos st)) (saveNewUser u).
Proof.
  intros st Hst. unfold saveNewUser, bind, get_users, put_users, ret, throw.
  by destruct (existsb _ (users st)).
Qed.

Lemma register_todos (Q : list Todo.ITodo -> Prop) e username password :
  preserves (fun st => Q (todos st)) (userResolvers.register e username password).
Proof.
  unfold userResolvers.register.
  apply preserves_bind; [apply preserves_get_users|]. intros docs.
  destruct (User.findOne username docs); [apply preserves_throw|].
  apply preserves_bind; [apply saveNewUser_todos|]. intros u.
  apply preserves_ret.
Qed.

(** X12.  The API keeps the two collections apart: the task operations
    (todos, addTodo, toggleTodo, deleteTodo) never change a user record and
    the account operations (register, login) never change a task, for
    every input and whether they succeed or throw. *)
Theorem execute_keeps_collections_apart (e : Env) (op : Operation)
    (req : Express.Request) (st : Store) :
  (readsContext op = true ->
   users (index.execute env e op req st).2 = users st)
  /\ (readsContext op = false ->
      todos (index.execute env e op req st).2 = todos st).
Proof.
  split; intros Hop.
  - symmetry.
    destruct op; try discriminate Hop;
      unfold index.execute, index.mapM;
      (eapply (preserves_bind (fun s => users st = users s));
         [|intros ?; apply preserves_ret|reflexivity]);
      first [ apply preserves_todos
            | apply preserves_addTodo; intros ?;
                apply (saveNewTodo_users (eq (users st)))
            | apply preserves_toggleTodo; intros ?;
                apply (saveCompleted_users (eq (users st)))
            | apply preserves_deleteTodo; intros ?;
                apply (deleteOneTodo_users (eq (users st))) ].
  - symmetry.
    destruct op; try discriminate Hop;
      unfold index.execute, index.mapM;
      (eapply (preserves_bind (fun s => todos st = todos s));
         [|intros ?; apply preserves_ret|reflexivity]);
      first [ apply (register_todos (eq (todos st)))
            | apply preserves_login ].
Qed.

(** ** User names stay unique *)

Lemma findOne_user_none name (docs : list User.IUser) :
  User.findOne name docs = None -> ~ In name (List.map User.username docs).
Proof.
  unfold User.findOne. intros Hnone (u & Hname & Hin)%in_map_iff.
  pose proof (List.find_none _ _ Hnone u Hin) as Hu. simpl in Hu.
  by rewrite bool_decide_eq_true_2 in Hu.
Qed.

(** Saving a user whose name is not stored keeps the names unique. *)
Lemma saveNewUser_uniqueNames oid name pw st :
  User.findOne name (users st) = None ->
  uniqueNames st ->
  uniqueNames (saveNewUser (User.create oid name pw) st).2.
Proof.
  intros Hnone%findOne_user_none Hst.
  unfold saveNewUser, bind, get_users, put_users, ret, throw.
  destruct (existsb _ (users st)); simpl; [done|].
  unfold uniqueNames in *. simpl. rewrite List.map_app. simpl.
  apply NoDup_app. split; [done|]. split; [|apply NoDup_singleton].
  intros x Hx ->%list_elem_of_singleton. by apply Hnone, list_elem_of_In.
Qed.

Lemma register_uniqueNames e username password :
  preserves uniqueNames (userResolvers.register e username password).
Proof.
  intros st Hst. unfold userResolvers.register, bind, get_users. simpl.
  destruct (User.findOne username (users st)) eqn:Hfind; [done|].
  pose proof (saveNewUser_uniqueNames (freshId e) username password st
                Hfind Hst) as Hsaved.
  by destruct (saveNewUser _ st) as [[u|err] st'].
Qed.

Lemma postRegister_uniqueNames e req :
  preserves uniqueNames (web.postRegister e req).
Proof.
  intros st Hst. unfold web.postRegister.
  match goal with
  | |- context [match ?errs with [] => _ | _ :: _ => _ end] => destruct errs
  end; [|done].
  unfold bind, get_users. simpl.
  destruct (User.findOne _ (users st)) eqn:Hfind; [done|].
  pose proof (saveNewUser_uniqueNames (freshId e) _
                (web.field "password" req) st Hfind Hst) as Hsaved.
  by destruct (saveNewUser _ st) as [[u|err] st'].
Qed.

(** X13.  Handled one after the other, requests never produce two users
    with the same user name: whatever the request, web or API, a store
    whose user names are pairwise different is left with user names that
    are pairwise different. *)
Theorem app_keeps_uniqueNames (e : Env) (secret : string)
    (req : Express.Request) (st : Store) :
  uniqueNames st -> uniqueNames (index.app env e secret req st).2.
Proof.
  apply (preserves_app env uniqueNames).
  - intros d. apply (saveNewTodo_users (fun us => NoDup (List.map User.username us))).
  - intros d. apply (saveCompleted_users (fun us => NoDup (List.map User.username us))).
  - intros f. apply (deleteOneTodo_users (fun us => NoDup (List.map User.username us))).
  - apply register_uniqueNames.
  - apply postRegister_uniqueNames.
Qed.

End Frames.

(** ** Deleting, and adding then deleting *)

Section Lifecycle.
Context {DRV : Driver} {BCR : Bcrypt} {JSD : JsDate}.
Implicit Types (st : Store) (t d : Todo.ITodo).

Lemma postTodosDelete_at l1 t l2 accounts id u req :
  ~ In (Todo._id t) (List.map Todo._id l1) ->
  Express.userId req = Some u ->
  JS.truthy u = true ->
  ObjectId_new id = Some (Todo._id t) ->
  ObjectId_new u = Some (Todo.userId t) ->
  web.postTodosDelete id req {| todos := l1 ++ t :: l2; users := accounts |}
  = (Ok (Express.Redirect "/todos"),
     {| todos := l1 ++ l2; users := accounts |}).
Proof.
  intros Hfresh Hreq Hu Hid Huid.
  rewrite (postTodosDelete_cast id u _ _ req _ Hreq Hu Hid Huid). simpl.
  rewrite (deleteOne_at _ l1 t l2); [done| |apply matches_self].
  by apply not_in_ids_matches.
Qed.

(** X14.  The owner's delete removes the task and nothing else, through
    the API (which answers [true]) and through the web route alike: the
    other tasks keep their order and the users stay.  Afterwards the
    identifier is gone: a second delete and a toggle with it throw "Todo
    not found" and change nothing. *)
Theorem owner_delete_removes_the_task st t id u req :
  uniqueIds st ->
  In t (todos st) ->
  ObjectId_new id = Some (Todo._id t) ->
  ObjectId_new u = Some (Todo.userId t) ->
  JS.truthy u = true ->
  Express.userId req = Some u ->
  exists l1 l2 st',
    todos st = l1 ++ t :: l2
    /\ st' = {| todos := l1 ++ l2; users := users st |}
    /\ todoResolvers.deleteTodo id {| auth.userId := Some u |} st = (Ok true, st')
    /\ web.postTodosDelete id req st = (Ok (Express.Redirect "/todos"), st')
    /\ ~ In (Todo._id t) (List.map Todo._id (todos st'))
    /\ todoResolvers.deleteTodo id {| auth.userId := Some u |} st'
       = (Throw (Error "Todo not found"), st')
    /\ todoResolvers.toggleTodo id {| auth.userId := Some u |} st'
       = (Throw (Error "Todo not found"), st').
Proof.
  intros Hnd Hin Hid Huid Hu Hreq.
  destruct (unique_split _ _ Hnd Hin) as (l1 & l2 & Hsplit & Hl1 & Hl2).
  destruct st as [docs accounts]. simpl in Hsplit. subst docs. simpl.
  assert (Hgone : ~ In (Todo._id t) (List.map Todo._id (l1 ++ l2))).
  { rewrite List.map_app. intros [?|?]%in_app_or; tauto. }
  pose proof (not_in_ids_matches _ (Todo.userId t) _ Hgone) as Hmiss.
  exists l1, l2, {| todos := l1 ++ l2; users := accounts |}.
  split_and!; try done.
  - by apply deleteTodo_at.
  - exact (postTodosDelete_at l1 t l2 accounts id u req Hl1 Hreq Hu Hid Huid).
  - rewrite (deleteTodo_cast id u _ _ _ Hu Hid Huid). simpl.
    by rewrite (deleteOne_none _ _ Hmiss).
  - rewrite (toggleTodo_cast id u _ _ _ Hu Hid Huid). simpl.
    by rewrite (findOne_none _ _ Hmiss).
Qed.

(** What [addTodo] stores for a text with a character in it. *)
Lemma addTodo_appends (e : Env) (text u : string) uid st :
  JS.truthy u = true ->
  ObjectId_new u = Some uid ->
  JS.truthy text = true ->
  ~ In (freshId e) (List.map Todo._id (todos st)) ->
  todoResolvers.addTodo e text {| auth.userId := Some u |} st
  = (Ok (todoResolvers.payloadOf (Todo.create (freshId e) (now e) text uid)),
     {| todos := todos st ++ [Todo.create (freshId e) (now e) text uid];
        users := users st |}).
Proof.
  intros Hu Huid Htext Hfresh.
  unfold todoResolvers.addTodo, try_catch, newObjectId, saveNewTodo,
    Todo.validate, bind, lift, ret, throw, get_todos, put_todos. simpl.
  rewrite Hu, Huid. simpl. rewrite Htext. simpl.
  by rewrite fresh_todo_id.
Qed.

(** X15.  Adding a task and deleting it with the identifier that [addTodo]
    returned gives the store back as it was, when the driver reads back
    the identifier it printed.  The task is created not completed, with
    the clock's time. *)
Theorem addTodo_then_deleteTodo (e : Env) (text u : string) uid st :
  JS.truthy u = true ->
  ObjectId_new u = Some uid ->
  JS.truthy text = true ->
  ~ In (freshId e) (List.map Todo._id (todos st)) ->
  ObjectId_new (ObjectId_toString (freshId e)) = Some (freshId e) ->
  exists p st1,
    todoResolvers.addTodo e text {| auth.userId := Some u |} st = (Ok p, st1)
    /\ todoResolvers.id p = ObjectId_toString (freshId e)
    /\ todoResolvers.text p = text
    /\ todoResolvers.completed p = false
    /\ todoResolvers.createdAt p = toISOString (now e)
    /\ todoResolvers.deleteTodo (todoResolvers.id p) {| auth.userId := Some u |} st1
       = (Ok true, st).
Proof.
  intros Hu Huid Htext Hfresh Hround.
  eexists _, _. split; [by apply addTodo_appends|]. simpl.
  split_and!; try done.
  rewrite (deleteTodo_at (todos st)
             (Todo.create (freshId e) (now e) text uid) [] (users st)
             _ u Hfresh Hu Hround Huid).
  by rewrite app_nil_r, store_eta.
Qed.

(** X16.  An identifier the driver cannot read is reported as such and
    never looked up: the API's toggle and delete throw the driver's message
    (or their own fallback when that is empty), not "Todo not found"; the
    web routes' handlers reject with the model's cast error; the store
    stays as it is in all four. *)
Theorem malformed_id_is_not_looked_up (id u : string) (req : Express.Request) st :
  ObjectId_new id = None ->
  JS.truthy u = true ->
  Express.userId req = Some u ->
  todoResolvers.toggleTodo id {| auth.userId := Some u |} st
  = (Throw (Error (JS.or_else (message BSONError) "Failed to toggle todo")), st)
  /\ todoResolvers.deleteTodo id {| auth.userId := Some u |} st
     = (Throw (Error (JS.or_else (message BSONError) "Failed to delete todo")), st)
  /\ web.postTodosToggle id req st = (Throw castError, st)
  /\ web.postTodosDelete id req st = (Throw castError, st).
Proof.
  intros Hid Hu Hreq.
  unfold todoResolvers.toggleTodo, todoResolvers.deleteTodo,
    web.postTodosToggle, web.postTodosDelete, web.guarded, auth.ensureAuth,
    web.castObjectId, newObjectId, try_catch, bind, throw. simpl.
  rewrite Hreq. simpl. rewrite Hu, Hid. simpl. by rewrite Hreq.
Qed.

End Lifecycle.

(** ** The task page and the bounds of a page *)

Section Listing.
Context {DRV : Driver} {BCR : Bcrypt} {VAL : Validator} {JSD : JsDate}.


(** X18.  What a page of the query holds, whatever the order of tasks
    created at the same time.  For [skip >= 0] and [take > 0] the page
    holds stored tasks of the caller only, newest first, none twice when
    the stored identifiers are unique; their number is [take], or what is
    left of the caller's tasks after the first [skip] when that is less;
    and a page from the start that is at least as long as the caller's
    tasks are many holds them all. *)
Theorem findPage_bounds uid (skip take : Z) (docs : list Todo.ITodo) :
  0 <= skip -> 0 < take ->
  let own := List.filter (Todo.ownedBy uid) docs in
  exists page,
    todoResolvers.findPage uid skip take docs = Ok page
    /\ List.length page
       = Nat.min (Z.to_nat take) (List.length own - Z.to_nat skip)
    /\ (forall d, In d page -> In d docs /\ Todo.userId d = uid)
    /\ StronglySorted Todo.newerFirst page
    /\ (NoDup (List.map Todo._id docs) -> NoDup (List.map Todo._id page))
    /\ (skip = 0 -> (List.length own <= Z.to_nat take)%nat ->
        Permutation page own).
Proof.
  intros Hskip Htake own.
  assert (Hlen : List.length (newestFirstOf uid docs) = List.length own).
  { unfold newestFirstOf. apply Permutation_length, sort_permutation. }
  exists (firstn (Z.to_nat take) (skipn (Z.to_nat skip) (newestFirstOf uid docs))).
  split_and!.
  - by apply findPage_window.
  - by rewrite length_take, length_drop, Hlen.
  - intros d Hd. apply newestFirstOf_owned.
    apply list_elem_of_In.
    eapply subseteq_drop, subseteq_take. by apply list_elem_of_In.
  - apply sorted_take.
    pose proof (sort_sorted (List.filter (Todo.ownedBy uid) docs)) as Hs.
    fold (newestFirstOf uid docs) in Hs.
    rewrite <- (take_drop (Z.to_nat skip) (newestFirstOf uid docs)) in Hs.
    by apply StronglySorted_app_1_r in Hs.
  - intros Hnd. apply ids_take.
    pose proof (newestFirstOf_ids uid docs Hnd) as Hids.
    rewrite <- (take_drop (Z.to_nat skip) (newestFirstOf uid docs)),
      List.map_app in Hids.
    by apply NoDup_app in Hids as (_ & _ & ?).
  - intros -> Hall. change (Z.to_nat 0) with 0%nat. rewrite drop_0.
    rewrite firstn_all2 by (rewrite Hlen; exact Hall).
    apply sort_permutation.
Qed.

(** X19.  The register form with fields that pass its rules.  When a
    stored user already bears the user name, as the validator's [trim()]
    leaves it, the form is rendered again with status 400 and "Username
    already taken" and nothing is stored; when no stored user bears it,
    a user is stored under that name with the hash of the password, not
    the password, and the answer is the redirect to the login page. *)
Theorem postRegister_outcome (e : Env) (req : Express.Request) (st : Store) :
  let username := trim (web.field "username" req) in
  let password := web.field "password" req in
  isLength 3 username = true ->
  isStrongPassword password = true ->
  Express.body req !! "confirmPassword" = Express.body req !! "password" ->
  ~ In (freshId e) (List.map User._id (users st)) ->
  (In username (List.map User.username (users st)) ->
   web.postRegister e req st
   = (Ok (Express.Render 400
            (Express.RegisterView
               [web.fieldError "username" "Username already taken"]
               username)), st))
  /\ (~ In username (List.map User.username (users st)) ->
      web.postRegister e req st
      = (Ok (Express.Redirect "/login"),
         {| todos := todos st;
            users := users st ++ [ {| User._id := freshId e;
                                      User.username := username;
                                      User.password := bcrypt_hash password |} ] |})).
Proof.
  intros username password Hlen Hstrong Hconfirm Hfresh.
  subst username password.
  assert (Hnew : existsb (fun x => bool_decide (User._id x = freshId e))
                   (users st) = false).
  { apply not_true_is_false. intros (x & Hx & Heq)%existsb_exists.
    apply bool_decide_eq_true_1 in Heq.
    apply Hfresh. rewrite <- Heq. by apply in_map. }
  unfold web.postRegister, web.check.
  rewrite Hlen, Hstrong, (bool_decide_eq_true_2 _ Hconfirm). simpl.
  unfold bind, get_users, ret. simpl.
  split.
  - intros Htaken.
    destruct (findOne_name_stored _ _ Htaken) as (u & Hfind & _).
    by rewrite Hfind.
  - intros Hfree. rewrite (findOne_name_new _ _ Hfree).
    unfold saveNewUser, bind, get_users, put_users, ret. simpl.
    by rewrite Hnew.
Qed.

End Listing.

(** ** Sessions *)

Section Sessions.
Context {DRV : Driver} {BCR : Bcrypt} {JWT : Jwt} {VAL : Validator}.
Variable env : ProcessEnv.

(** X20.  [authMiddleware] computes the identity that [jwtAuth] attaches:
    for a request that carries no identifier yet, the context it returns
    holds exactly the identifier of the request that [jwtAuth] passes
    on. *)
Theorem authMiddleware_agrees_with_jwtAuth (req : Express.Request) :
  Express.userId req = None ->
  exists req',
    auth.jwtAuth env req = Express.Next req'
    /\ auth.userId (auth.authMiddleware env req) = Express.userId req'.
Proof.
  intros Hfresh. unfold auth.jwtAuth, auth.authMiddleware.
  destruct (auth.tokenCookie req) as [token|]; [|by exists req].
  destruct (JS.truthy token); [|by exists req].
  destruct (jwt_verify _ _) as [payload|]; [|by exists req].
  destruct (payload_userId payload) as [u|]; [|by exists req].
  destruct (JS.truthy u); [|by exists req].
  by exists (Express.setUserId u req).
Qed.

(** X21.  The three modules read the signing secret alike except for one
    setting: the resolvers and the web routes always use the same secret,
    and the middleware that verifies uses that secret too unless
    [JWT_SECRET] is set to the empty string; then tokens are signed with
    the default secret and verified with the empty one. *)
Theorem jwt_secrets_agree :
  userResolvers.JWT_SECRET env = web.JWT_SECRET env
  /\ (web.JWT_SECRET env = auth.JWT_SECRET env <-> JWT_SECRET env <> Some "")
  /\ (JWT_SECRET env = Some "" ->
      web.JWT_SECRET env = "your-secret-key" /\ auth.JWT_SECRET env = "").
Proof.
  unfold userResolvers.JWT_SECRET, web.JWT_SECRET, auth.JWT_SECRET, JS.nullish.
  destruct (JWT_SECRET env) as [[|c s]|]; simpl; by split_and!.
Qed.

Lemma secrets_agree_when_set :
  JWT_SECRET env <> Some "" ->
  web.JWT_SECRET env = auth.JWT_SECRET env
  /\ userResolvers.JWT_SECRET env = auth.JWT_SECRET env.
Proof.
  unfold userResolvers.JWT_SECRET, web.JWT_SECRET, auth.JWT_SECRET, JS.nullish.
  by destruct (JWT_SECRET env) as [[|c s]|].
Qed.

(** What [jwtAuth] does with a token that verifies. *)
Lemma jwtAuth_accepts (req : Express.Request) jar token u :
  Express.cookies req = Some jar ->
  jar !! "token" = Some token ->
  JS.truthy token = true ->
  jwt_verify token (auth.JWT_SECRET env) = Some {| payload_userId := Some u |} ->
  JS.truthy u = true ->
  auth.jwtAuth env req = Express.Next (Express.setUserId u req).
Proof.
  intros Hjar Htoken Htruthy Hverify Hu.
  unfold auth.jwtAuth, auth.tokenCookie.
  rewrite Hjar, Htoken, Htruthy, Hverify. simpl. by rewrite Hu.
Qed.

(** X22.  A login starts a session.  Let the JWT library accept, under
    the secret, the tokens it signs for the user, and let [JWT_SECRET] not
    be the empty string.  Let [user] be the first stored user who bears
    the user name of the form, as the validator's [trim()] leaves it.  A
    web login with the right password answers with the redirect to the
    task page and a [token] cookie, the API's login with that user name
    answers with a token, neither writes the store, and a later request
    that carries either token in its [token] cookie leaves [jwtAuth] with
    the identifier of the user who logged in. *)
Theorem login_starts_a_session (req : Express.Request) (st : Store)
    (l1 l2 : list User.IUser) (user : User.IUser) :
  let username := trim (web.field "username" req) in
  let password := web.field "password" req in
  let payload :=
    {| payload_userId := Some (ObjectId_toString (User._id user)) |} in
  (forall ttl,
     JS.truthy (jwt_sign payload (auth.JWT_SECRET env) ttl) = true
     /\ jwt_verify (jwt_sign payload (auth.JWT_SECRET env) ttl)
          (auth.JWT_SECRET env)
        = Some payload) ->
  JWT_SECRET env <> Some "" ->
  JS.truthy username = true ->
  JS.truthy password = true ->
  users st = l1 ++ user :: l2 ->
  ~ In username (List.map User.username l1) ->
  User.username user = username ->
  User.comparePassword user password = true ->
  JS.truthy (ObjectId_toString (User._id user)) = true ->
  exists cookie token,
    web.postLogin env req st
    = (Ok (Express.SetCookie "token" cookie (Express.Redirect "/todos")), st)
    /\ userResolvers.login env username password st = (Ok token, st)
    /\ forall (next : Express.Request) jar t,
         Express.cookies next = Some jar ->
         jar !! "token" = Some t ->
         t = cookie \/ t = token ->
         auth.jwtAuth env next
         = Express.Next
             (Express.setUserId (ObjectId_toString (User._id user)) next).
Proof.
  intros username password payload Hjwt Hsecret Hu Hp Hsplit Hl1 Hname Hpw Hid.
  assert (Hfind : User.findOne username (users st) = Some user)
    by (rewrite Hsplit; by apply findOne_name_at).
  clear Hsplit Hl1 Hname. subst username password payload.
  destruct (secrets_agree_when_set Hsecret) as [Hweb Hapi].
  eexists _, _. split_and!.
  - unfold web.postLogin, web.check, bind, get_users, ret.
    rewrite Hu, Hp. simpl. by rewrite Hfind, Hpw.
  - unfold userResolvers.login, bind, get_users, ret. simpl.
    by rewrite Hfind, Hpw.
  - intros next jar t Hjar Ht [-> | ->].
    + rewrite Hweb in Ht.
      apply (jwtAuth_accepts next jar _ _ Hjar Ht); [apply Hjwt|apply Hjwt|done].
    + rewrite Hapi in Ht.
      apply (jwtAuth_accepts next jar _ _ Hjar Ht); [apply Hjwt|apply Hjwt|done].
Qed.

Lemma find_user_appended name (docs : list User.IUser) (u : User.IUser) :
  User.findOne name docs = None ->
  User.username u = name ->
  User.findOne name (docs ++ [u]) = Some u.
Proof.
  unfold User.findOne. intros Hnone Hname.
  induction docs as [|d rest IH]; simpl in *.
  - by rewrite bool_decide_eq_true_2.
  - destruct (bool_decide (User.username d = name)); [done|by apply IH].
Qed.

(** X23.  Register, then log in.  When the hash library accepts a password
    against its own hash, a registration that succeeds is followed by a
    successful login with the same user name and password, whose token is
    signed for the identifier that [register] returned; a password the
    library does not accept against that hash is refused with "Invalid
    password". *)
Theorem register_then_login (e : Env) (username password : string) (st : Store) :
  bcrypt_compare password (bcrypt_hash password) = true ->
  User.findOne username (users st) = None ->
  ~ In (freshId e) (List.map User._id (users st)) ->
  exists p st1,
    userResolvers.register e username password st = (Ok p, st1)
    /\ userResolvers.login env username password st1
       = (Ok (jwt_sign {| payload_userId := Some (userResolvers.id p) |}
                (userResolvers.JWT_SECRET env) "7d"), st1)
    /\ forall wrong,
         bcrypt_compare wrong (bcrypt_hash password) = false ->
         userResolvers.login env username wrong st1
         = (Throw (Error "Invalid password"), st1).
Proof.
  intros Hhash Hfind Hfresh.
  assert (Hnew : existsb (fun x => bool_decide (User._id x = freshId e))
                   (users st) = false).
  { apply not_true_is_false. intros (x & Hx & Heq)%existsb_exists.
    apply bool_decide_eq_true_1 in Heq.
    apply Hfresh. rewrite <- Heq. by apply in_map. }
  eexists _, _. split.
  - unfold userResolvers.register, saveNewUser, bind, get_users, put_users,
      ret. simpl. rewrite Hfind. simpl. by rewrite Hnew.
  - unfold userResolvers.login, bind, get_users, ret, throw. simpl.
    rewrite (find_user_appended username (users st)
               (User.preSave (User.create (freshId e) username password))
               Hfind eq_refl).
    unfold User.comparePassword. simpl. rewrite Hhash. simpl.
    split; [done|]. by intros wrong ->.
Qed.

End Sessions.

(** ** The chain: anti-forgery tokens, errors, the way to the API *)

Section Chain.
Context {DRV : Driver} {BCR : Bcrypt} {JWT : Jwt} {VAL : Validator}
        {RTR : Router} {JSD : JsDate} {CSRF : Csrf} {PLT : Platform}.
Variable env : ProcessEnv.

(** X24.  The token a page is given passes the check.  Let the token
    library accept the token it creates for a secret.  A request that is
    not exempt, with a safe method and the secret [s] in its [_csrf]
    cookie, is passed on with the token created for [s]; and a later
    request under the same cookie that sends this token in the form field
    [_csrf] passes the check, whatever its method. *)
Theorem csrf_token_round_trip (s fresh fresh' : string)
    (page post : Express.Request) (jar jar' : gmap string string) :
  tokens_verify s (tokens_create s) = true ->
  JS.truthy s = true ->
  JS.truthy (tokens_create s) = true ->
  index.csrfExempt (JS.or_else (Express.originalUrl page) "") = false ->
  index.ignoreMethod (Express.method page) = true ->
  Express.cookies page = Some jar -> jar !! "_csrf" = Some s ->
  index.csrfExempt (JS.or_else (Express.originalUrl post) "") = false ->
  Express.cookies post = Some jar' -> jar' !! "_csrf" = Some s ->
  Express.body post !! "_csrf" = Some (tokens_create s) ->
  index.csrfDispatch fresh page
  = Express.Next {| index.csrfToken := Some (tokens_create s) |}
  /\ index.csrfDispatch fresh' post
     = Express.Next {| index.csrfToken := Some (tokens_create s) |}.
Proof.
  intros Hverify Hs Htoken Hpage Hsafe Hjar Hcookie Hpost Hjar' Hcookie' Hfield.
  unfold index.csrfDispatch, index.csrfProtection, index.secretInForce.
  rewrite Hpage, Hjar, Hcookie, Hs, Hsafe. simpl.
  rewrite Hpost, Hjar', Hcookie', Hs.
  unfold index.csrfValue, index.orElse. rewrite Hfield. simpl.
  rewrite Htoken. simpl. rewrite Hs, Htoken, Hverify. simpl.
  by rewrite andb_false_r.
Qed.

(** X25.  What the two error handlers answer to [next(err)]: an error
    whose code is EBADCSRFTOKEN gets the 403 tampering page; every other
    error gets status 500, as JSON with the error's message when the URL
    starts with /graphql and as the error page otherwise, with a default
    message when the error has none.  No page carries the stack unless
    NODE_ENV is "development". *)
Theorem errorHandlers_answers (err : JsError) (req : Express.Request) :
  let url := JS.or_else (Express.originalUrl req) "" in
  let r := index.errorHandlers env err req in
  (code err = Some "EBADCSRFTOKEN" ->
   r = Express.Render 403
         (Express.ErrorView index.tamperingMessage (index.development env)))
  /\ (code err <> Some "EBADCSRFTOKEN" ->
      Express.statusCode r = 500
      /\ (JS.startsWith "/graphql" url = true ->
          r = Express.Json 500
                (JS.or_else (message err) "Internal server error"))
      /\ (JS.startsWith "/graphql" url = false ->
          r = Express.Render 500
                (Express.ErrorView
                   (JS.or_else (message err) "Something went wrong")
                   (index.development env))))
  /\ (NODE_ENV env <> Some "development" ->
      forall status msg, r <> Express.Render status (Express.ErrorView msg true)).
Proof.
  intros url r. subst url r.
  unfold index.errorHandlers, index.csrfErrorHandler, index.globalErrorHandler.
  split_and!.
  - intros Hcode. by rewrite (bool_decide_eq_true_2 _ Hcode).
  - intros Hcode. rewrite (bool_decide_eq_false_2 _ Hcode).
    destruct (JS.startsWith _ _); by split_and!.
  - intros Hdev status msg. unfold index.development.
    rewrite (bool_decide_eq_false_2 _ Hdev).
    destruct (bool_decide _); [done|].
    by destruct (JS.startsWith _ _).
Qed.

(** X26.  The way to the API.  A request whose URL starts with /graphql,
    that no web route, static file or rate limit takes, reaches the
    resolvers without any anti-forgery check: the chain's answer is the
    result of the parsed operation, run with the identifier that [jwtAuth]
    attached, and the store is the one the operation leaves.  Only a
    preflight stops earlier: the [cors] middleware answers it with status
    204 and the store stays as it is. *)
Theorem app_reaches_the_api (e : Env) (secret : string)
    (req req1 : Express.Request) (op : Operation) (st : Store) :
  auth.jwtAuth env req = Express.Next req1 ->
  JS.startsWith "/graphql" (Express.originalUrl req1) = true ->
  Express.path req1 <> "/favicon.ico" ->
  rateLimited req1 = false ->
  staticFile req1 = None ->
  matchPath (Express.path req1) = None ->
  mounted "/graphql" (Express.path req1) = true ->
  parseOperation req1 = Some op ->
  index.app env e secret req st
  = if index.preflight req
    then (Ok (index.Http (Express.End_ 204)), st)
    else (Ok (index.GraphQL (index.execute env e op req1 st).1),
          (index.execute env e op req1 st).2).
Proof.
  intros Hauth Hurl Hfav Hrate Hstatic Hroute Hmount Hparse.
  unfold index.app. destruct (index.preflight req); [done|].
  assert (Hexempt : index.csrfDispatch secret req1
                    = Express.Next {| index.csrfToken := None |}).
  { unfold index.csrfDispatch, index.csrfExempt, JS.or_else.
    destruct (Express.originalUrl req1) as [|c s] eqn:Horig; [done|].
    simpl JS.truthy. cbv iota. by rewrite Hurl. }
  rewrite Hauth.
  rewrite (bool_decide_eq_false_2 _ Hfav), andb_false_r.
  rewrite Hexempt, Hrate, Hstatic.
  unfold bind, web.router. rewrite Hroute. simpl.
  rewrite Hmount, Hparse.
  by destruct (index.execute env e op req1 st).
Qed.

End Chain.

(** ** No request reaches another user's tasks *)

Section Isolation.
Context {DRV : Driver} {BCR : Bcrypt} {JWT : Jwt} {VAL : Validator}
        {RTR : Router} {JSD : JsDate} {CSRF : Csrf} {PLT : Platform}.
Variable env : ProcessEnv.
Implicit Types (st : Store) (uid : ObjectId).

Lemma othersOf_own_appended uid (docs : list Todo.ITodo) d :
  Todo.userId d = uid -> othersOf uid (docs ++ [d]) = othersOf uid docs.
Proof.
  intros Hown. rewrite othersOf_app, othersOf_owned.
  - apply app_nil_r.
  - unfold Todo.ownedBy. by apply bool_decide_eq_true_2.
Qed.

(** Saving a new task of [uid] changes nothing for the others. *)
Lemma saveNewTodo_others uid d st :
  Todo.userId d = uid ->
  othersOf uid (todos (saveNewTodo d st).2) = othersOf uid (todos st).
Proof.
  intros Hown. unfold saveNewTodo, bind, lift, get_todos, put_todos, ret, throw.
  destruct (Todo.validate d); simpl; [|done].
  destruct (existsb _ (todos st)); simpl; [done|].
  by apply othersOf_own_appended.
Qed.

Lemma addTodo_others e text u uid st :
  ObjectId_new u = Some uid ->
  othersOf uid (todos (todoResolvers.addTodo e text {| auth.userId := Some u |} st).2)
  = othersOf uid (todos st).
Proof.
  intros Huid.
  unfold todoResolvers.addTodo, todoResolvers.authenticationRequired,
    try_catch, newObjectId, bind, ret, throw. simpl.
  destruct (JS.truthy u); simpl; [|done]. rewrite Huid. simpl.
  pose proof (saveNewTodo_others uid
                (Todo.create (freshId e) (now e) text uid) st eq_refl) as Hsave.
  by destruct (saveNewTodo _ st) as [[d|err] st'].
Qed.

Lemma postTodosAdd_others e req u uid st :
  Express.userId req = Some u ->
  ObjectId_new u = Some uid ->
  othersOf uid (todos (web.postTodosAdd e req st).2) = othersOf uid (todos st).
Proof.
  intros Hreq Huid.
  unfold web.postTodosAdd, web.guarded, auth.ensureAuth. rewrite Hreq. simpl.
  destruct (JS.truthy u); [|done]. rewrite Hreq.
  destruct (web.check _ _ _).
  - unfold web.castObjectId, bind, ret. rewrite Huid. simpl.
    pose proof (saveNewTodo_others uid
                  (Todo.create (freshId e) (now e)
                     (trim (web.field "text" req)) uid) st eq_refl) as Hsave.
    by destruct (saveNewTodo _ st) as [[d|err] st'].
  - by rewrite <- (preserves_todosPage (eq st) u 400 _ st eq_refl).
Qed.

Lemma toggleTodo_others id u uid st :
  uniqueIds st -> ObjectId_new u = Some uid ->
  othersOf uid (todos (todoResolvers.toggleTodo id {| auth.userId := Some u |} st).2)
  = othersOf uid (todos st).
Proof.
  intros Hnd Huid. destruct (JS.truthy u) eqn:Hu.
  - by destruct (toggleTodo_frame id u uid st Hnd Hu Huid).
  - unfold todoResolvers.toggleTodo. simpl. by rewrite Hu.
Qed.

Lemma deleteTodo_others id u uid st :
  ObjectId_new u = Some uid ->
  othersOf uid (todos (todoResolvers.deleteTodo id {| auth.userId := Some u |} st).2)
  = othersOf uid (todos st).
Proof.
  intros Huid. destruct (JS.truthy u) eqn:Hu.
  - by destruct (deleteTodo_frame id u uid st Hu Huid).
  - unfold todoResolvers.deleteTodo. simpl. by rewrite Hu.
Qed.

Lemma postTodosToggle_others id req u uid st :
  uniqueIds st -> Express.userId req = Some u -> ObjectId_new u = Some uid ->
  othersOf uid (todos (web.postTodosToggle id req st).2) = othersOf uid (todos st).
Proof.
  intros Hnd Hreq Huid. destruct (JS.truthy u) eqn:Hu.
  - by destruct (postTodosToggle_frame id u uid req st Hnd Hreq Hu Huid).
  - unfold web.postTodosToggle, web.guarded, auth.ensureAuth.
    rewrite Hreq. simpl. by rewrite Hu.
Qed.

Lemma postTodosDelete_others id req u uid st :
  Express.userId req = Some u -> ObjectId_new u = Some uid ->
  othersOf uid (todos (web.postTodosDelete id req st).2) = othersOf uid (todos st).
Proof.
  intros Hreq Huid. destruct (JS.truthy u) eqn:Hu.
  - by destruct (postTodosDelete_frame id u uid req st Hreq Hu Huid).
  - unfold web.postTodosDelete, web.guarded, auth.ensureAuth.
    rewrite Hreq. simpl. by rewrite Hu.
Qed.

Lemma postRegister_todos (Q : list Todo.ITodo -> Prop) e req :
  preserves (fun st => Q (todos st)) (web.postRegister e req).
Proof.
  unfold web.postRegister.
  match goal with
  | |- context [match ?errs with [] => _ | _ :: _ => _ end] => destruct errs
  end; [|apply preserves_ret].
  apply preserves_bind; [apply preserves_get_users|]. intros docs.
  destruct (User.findOne _ docs); [apply preserves_ret|].
  apply preserves_bind; [apply saveNewUser_todos|]. intros u.
  apply preserves_ret.
Qed.

(** The API, for a caller whose identifier is [uid]. *)
Lemma execute_others e op req u uid st :
  uniqueIds st ->
  Express.userId req = Some u ->
  ObjectId_new u = Some uid ->
  othersOf uid (todos (index.execute env e op req st).2) = othersOf uid (todos st).
Proof.
  intros Hnd Hreq Huid.
  assert (Hmap : forall (A : Type) (f : A -> index.Data) (m : M A),
             (index.mapM f m st).2 = (m st).2).
  { intros A f m. unfold index.mapM, bind, ret.
    by destruct (m st) as [[a|err] st']. }
  destruct op; unfold index.execute; rewrite Hmap, ?Hreq.
  - by rewrite <- (preserves_todos (eq st) _ _ st eq_refl).
  - symmetry.
    exact (register_todos (fun docs => othersOf uid (todos st) = othersOf uid docs)
             e username password st eq_refl).
  - by rewrite <- (preserves_login env (eq st) _ _ st eq_refl).
  - by apply addTodo_others.
  - by apply toggleTodo_others.
  - by apply deleteTodo_others.
Qed.

(** The web routes, for a caller whose identifier is [uid]. *)
Lemma router_others e req u uid st :
  uniqueIds st ->
  Express.userId req = Some u ->
  ObjectId_new u = Some uid ->
  othersOf uid (todos (web.router env e req st).2) = othersOf uid (todos st).
Proof.
  intros Hnd Hreq Huid.
  assert (Hrun : forall (h : M Express.Response),
             (bind h (fun r => ret (Some r)) st).2 = (h st).2).
  { intros h. unfold bind, ret. by destruct (h st) as [[a|err] st']. }
  unfold web.router.
  destruct (matchPath (Express.path req)) as [[]|];
    repeat match goal with
      | |- context [if ?b then _ else _] => destruct b
      end;
    try reflexivity; rewrite Hrun.
  - symmetry.
    exact (postRegister_todos
             (fun docs => othersOf uid (todos st) = othersOf uid docs)
             e req st eq_refl).
  - by rewrite <- (preserves_postLogin env (eq st) req st eq_refl).
  - by rewrite <- (preserves_postLogout (eq st) req st eq_refl).
  - by rewrite <- (preserves_getTodos (eq st) req st eq_refl).
  - by apply (postTodosAdd_others e req u).
  - by apply (postTodosToggle_others id req u).
  - by apply (postTodosDelete_others id req u).
Qed.

Lemma router_keeps_uniqueIds e req st :
  uniqueIds st -> uniqueIds (web.router env e req st).2.
Proof.
  apply (preserves_router env uniqueIds).
  - apply keeps_saveNewTodo.
  - apply keeps_saveCompleted.
  - apply keeps_deleteOneTodo.
  - intros e' req' st' Hst'.
    exact (postRegister_todos (fun docs => NoDup (List.map Todo._id docs))
             e' req' st' Hst').
Qed.

(** X27.  No request reaches another user's tasks.  Whatever request the
    application handles for the user whose identifier [jwtAuth] attached
    (any route, any operation of the API, any arguments), the tasks of all
    other users are afterwards what they were, in the same order. *)
Theorem app_leaves_other_users_tasks (e : Env) (secret : string)
    (req req1 : Express.Request) (u : string) uid (st : Store) :
  uniqueIds st ->
  auth.jwtAuth env req = Express.Next req1 ->
  Express.userId req1 = Some u ->
  ObjectId_new u = Some uid ->
  othersOf uid (todos (index.app env e secret req st).2) = othersOf uid (todos st).
Proof.
  intros Hnd Hauth Hreq Huid. unfold index.app.
  destruct (index.preflight req); [done|]. rewrite Hauth.
  destruct (_ && _); [done|].
  destruct (index.csrfDispatch secret req1) as [locals|err|r]; try done.
  destruct (rateLimited req1); [done|].
  destruct (staticFile req1); [done|].
  pose proof (router_others e req1 u uid st Hnd Hreq Huid) as Hrouter.
  pose proof (router_keeps_uniqueIds e req1 st Hnd) as Hnd'.
  unfold bind.
  destruct (web.router env e req1 st) as [[[r|]|err] st']; simpl in *; try done.
  destruct (mounted _ _); [|done].
  destruct (parseOperation req1) as [op|]; [|done].
  pose proof (execute_others e op req1 u uid st' Hnd' Hreq Huid) as Hexec.
  destruct (index.execute env e op req1 st') as [res st'']. simpl in *.
  by rewrite Hexec.
Qed.

(** ** A request without identity changes no task *)

Lemma guarded_anonymous handler req st :
  JS.truthy_opt (Express.userId req) = false ->
  (web.guarded handler req st).2 = st.
Proof. intros Hanon. unfold web.guarded, auth.ensureAuth. by rewrite Hanon. Qed.

Lemma execute_anonymous e op req st :
  JS.truthy_opt (Express.userId req) = false ->
  todos (index.execute env e op req st).2 = todos st.
Proof.
  intros Hanon.
  assert (Hmap : forall (A : Type) (f : A -> index.Data) (m : M A),
             (index.mapM f m st).2 = (m st).2).
  { intros A f m. unfold index.mapM, bind, ret.
    by destruct (m st) as [[a|err] st']. }
  destruct op; unfold index.execute; rewrite Hmap.
  - by rewrite <- (preserves_todos (eq st) _ _ st eq_refl).
  - symmetry.
    exact (register_todos (eq (todos st)) e username password st eq_refl).
  - by rewrite <- (preserves_login env (eq st) _ _ st eq_refl).
  - unfold todoResolvers.addTodo. simpl.
    destruct (Express.userId req) as [u|]; [|done]. simpl in Hanon.
    by rewrite Hanon.
  - unfold todoResolvers.toggleTodo. simpl.
    destruct (Express.userId req) as [u|]; [|done]. simpl in Hanon.
    by rewrite Hanon.
  - unfold todoResolvers.deleteTodo. simpl.
    destruct (Express.userId req) as [u|]; [|done]. simpl in Hanon.
    by rewrite Hanon.
Qed.

Lemma router_anonymous e req st :
  JS.truthy_opt (Express.userId req) = false ->
  todos (web.router env e req st).2 = todos st.
Proof.
  intros Hanon.
  assert (Hrun : forall (h : M Express.Response),
             (bind h (fun r => ret (Some r)) st).2 = (h st).2).
  { intros h. unfold bind, ret. by destruct (h st) as [[a|err] st']. }
  unfold web.router.
  destruct (matchPath (Express.path req)) as [[]|];
    repeat match goal with
      | |- context [if ?b then _ else _] => destruct b
      end;
    try reflexivity; rewrite Hrun.
  - symmetry.
    exact (postRegister_todos (eq (todos st)) e req st eq_refl).
  - by rewrite <- (preserves_postLogin env (eq st) req st eq_refl).
  - by rewrite <- (preserves_postLogout (eq st) req st eq_refl).
  - by rewrite <- (preserves_getTodos (eq st) req st eq_refl).
  - unfold web.postTodosAdd. by rewrite guarded_anonymous.
  - unfold web.postTodosToggle. by rewrite guarded_anonymous.
  - unfold web.postTodosDelete. by rewrite guarded_anonymous.
Qed.

(** X28.  A request without identity changes no task.  When [jwtAuth]
    attaches no identifier (no cookie, or a token that does not verify),
    the task collection after the request is the task collection before
    it, whatever the route, the operation and the arguments. *)
Theorem app_anonymous_changes_no_task (e : Env) (secret : string)
    (req req1 : Express.Request) (st : Store) :
  auth.jwtAuth env req = Express.Next req1 ->
  JS.truthy_opt (Express.userId req1) = false ->
  todos (index.app env e secret req st).2 = todos st.
Proof.
  intros Hauth Hanon. unfold index.app.
  destruct (index.preflight req); [done|]. rewrite Hauth.
  destruct (_ && _); [done|].
  destruct (index.csrfDispatch secret req1) as [locals|err|r]; try done.
  destruct (rateLimited req1); [done|].
  destruct (staticFile req1); [done|].
  pose proof (router_anonymous e req1 st Hanon) as Hrouter.
  unfold bind.
  destruct (web.router env e req1 st) as [[[r|]|err] st']; simpl in *; try done.
  destruct (mounted _ _); [|done].
  destruct (parseOperation req1) as [op|]; [|done].
  pose proof (execute_anonymous e op req1 st' Hanon) as Hexec.
  destruct (index.execute env e op req1 st') as [res st'']. simpl in *.
  by rewrite Hexec.
Qed.

End Isolation.

(** ** The two surfaces write alike *)

Section TwoSurfaces.
Context {DRV : Driver} {BCR : Bcrypt} {VAL : Validator} {JSD : JsDate}.

(** X29.  The web routes and the API's mutations write the same store.
    For every request, a toggle or a delete through the web route leaves
    exactly the store that the API's mutation leaves for the same
    identifier and the same caller, and [POST /todos/add] leaves exactly
    the store that [addTodo] leaves for the text as the validator's
    [trim()] returns it; this holds for every input, including the ones
    both refuse. *)
Theorem web_and_api_write_alike (e : Env) (id : string)
    (req : Express.Request) (st : Store) :
  let context := {| auth.userId := Express.userId req |} in
  (web.postTodosToggle id req st).2 = (todoResolvers.toggleTodo id context st).2
  /\ (web.postTodosDelete id req st).2
     = (todoResolvers.deleteTodo id context st).2
  /\ (web.postTodosAdd e req st).2
     = (todoResolvers.addTodo e (trim (web.field "text" req)) context st).2.
Proof.
  intros context. subst context.
  unfold web.postTodosToggle, web.postTodosDelete, web.postTodosAdd,
    web.guarded, auth.ensureAuth, todoResolvers.toggleTodo,
    todoResolvers.deleteTodo, todoResolvers.addTodo,
    todoResolvers.authenticationRequired, throw. simpl.
  destruct (Express.userId req) as [u|] eqn:Hreq; simpl; [|done].
  destruct (JS.truthy u); simpl; [|done]. rewrite Hreq.
  unfold web.castObjectId, newObjectId, try_catch, bind, ret, throw,
    web.check, web.todosPage, web.findTodos, saveCompleted, deleteOneTodo,
    saveNewTodo, Todo.validate, lift, get_todos, get_users, put_todos.
  unfold bind, ret, throw, lift, get_todos, put_todos.
  split_and!.
  - destruct (ObjectId_new id) as [oid|]; simpl; [|done].
    destruct (ObjectId_new u) as [uid|]; simpl; [|done].
    destruct (Todo.findOne _ _) as [todo|]; simpl; [|done].
    match goal with
    | |- context [Todo.setCompleted ?a ?b ?c] =>
        by destruct (Todo.setCompleted a b c) as [docs' [|]]
    end.
  - destruct (ObjectId_new id) as [oid|]; simpl; [|done].
    destruct (ObjectId_new u) as [uid|]; simpl; [|done].
    match goal with
    | |- context [Todo.deleteOne ?f ?l] =>
        by destruct (Todo.deleteOne f l) as [docs' [|n]]
    end.
  - destruct (JS.truthy (trim (web.field "text" req))) eqn:Htext; simpl.
    + destruct (ObjectId_new u) as [uid|]; simpl; [|done].
      rewrite Htext. simpl.
      match goal with
      | |- context [existsb ?f ?l] => by destruct (existsb f l)
      end.
    + unfold web.castObjectId, ret, throw.
      destruct (ObjectId_new u) as [uid|]; simpl; [|done].
      by rewrite Htext.
Qed.

End TwoSurfaces.

(** * The handlers on concrete requests *)

Section Examples.
#[local] Existing Instance Fixture.driver.
#[local] Existing Instance Fixture.bcrypt.
#[local] Existing Instance Fixture.jwt.
#[local] Existing Instance Fixture.jsDate.
#[local] Existing Instance Fixture.validator.
#[local] Existing Instance Fixture.router.
#[local] Existing Instance Fixture.csrf.
#[local] Existing Instance Fixture.platform.
Import Fixture.

Lemma store0_uniqueIds : uniqueIds store0.
Proof. apply NoDup_singleton. Defined.

Lemma alice_is_not_bob : aliceId <> bobId.
Proof. discriminate. Defined.

Lemma taskId_is_alices :
  exists t, In t (todos store0)
            /\ Todo._id t = (taskId : @ObjectId driver)
            /\ Todo.userId t <> (bobId : @ObjectId driver).
Proof.
  exists aliceTask. split; [by left|]. split; [done|exact alice_is_not_bob].
Defined.

Lemma newId_is_no_task : ~ In newId (List.map Todo._id (todos store0)).
Proof. intros [H|[]]; discriminate H. Defined.

(** Bob toggles and deletes with the identifier of Alice's task, and with
    an identifier that no task bears. *)
Lemma cross_user_toggle_delete_witness :
  (todoResolvers.toggleTodo taskId asBob store0
   = (Throw (Error "Todo not found"), store0)
   /\ todoResolvers.deleteTodo taskId asBob store0
      = (Throw (Error "Todo not found"), store0)
   /\ web.postTodosToggle taskId (request "POST" "/todos/x/toggle" ∅ ∅ (Some bobId))
        store0
      = (Ok (Express.Redirect "/todos"), store0)
   /\ web.postTodosDelete taskId (request "POST" "/todos/x/delete" ∅ ∅ (Some bobId))
        store0
      = (Ok (Express.Redirect "/todos"), store0))
  /\ (todoResolvers.toggleTodo newId asBob store0
      = (Throw (Error "Todo not found"), store0)
      /\ todoResolvers.deleteTodo newId asBob store0
         = (Throw (Error "Todo not found"), store0)).
Proof.
  pose proof (cross_user_toggle_delete store0 taskId taskId bobId bobId
                (request "POST" "/todos/x/toggle" ∅ ∅ (Some bobId))
                store0_uniqueIds eq_refl eq_refl eq_refl eq_refl
                (or_introl taskId_is_alices)) as (H1 & H2 & H3 & _ & _).
  pose proof (cross_user_toggle_delete store0 taskId taskId bobId bobId
                (request "POST" "/todos/x/delete" ∅ ∅ (Some bobId))
                store0_uniqueIds eq_refl eq_refl eq_refl eq_refl
                (or_introl taskId_is_alices)) as (_ & _ & _ & H4 & _).
  pose proof (cross_user_toggle_delete store0 newId newId bobId bobId
                (request "POST" "/todos/x/toggle" ∅ ∅ (Some bobId))
                store0_uniqueIds eq_refl eq_refl eq_refl eq_refl
                (or_intror newId_is_no_task)) as (H5 & H6 & _).
  exact (conj (conj H1 (conj H2 (conj H3 H4))) (conj H5 H6)).
Defined.

(** On the web route, Bob's toggle of Alice's task is answered like a
    toggle that worked: with the redirect to the task page, which is no
    failure. *)
Lemma web_toggle_of_foreign_task_reports_nothing :
  (web.postTodosToggle taskId (request "POST" "/todos/x/toggle" ∅ ∅ (Some bobId))
     store0).1
  = Ok (Express.Redirect "/todos")
  /\ reportsFailure
       (web.postTodosToggle taskId
          (request "POST" "/todos/x/toggle" ∅ ∅ (Some bobId)) store0).1
     = false
  /\ (web.postTodosToggle taskId
        (request "POST" "/todos/x/toggle" ∅ ∅ (Some aliceId)) store0).1
     = (web.postTodosToggle taskId
          (request "POST" "/todos/x/toggle" ∅ ∅ (Some bobId)) store0).1.
Proof. by vm_compute. Qed.

(** Alice toggles her task twice. *)
Lemma double_toggle_restores_witness :
  (exists p1 p2 st1,
      todoResolvers.toggleTodo taskId asAlice store0 = (Ok p1, st1)
      /\ todoResolvers.toggleTodo taskId asAlice st1 = (Ok p2, store0)
      /\ todoResolvers.completed p1 = true
      /\ todoResolvers.completed p2 = false)
  /\ (exists st1,
        web.postTodosToggle taskId
          (request "POST" "/todos/x/toggle" ∅ ∅ (Some aliceId)) store0
        = (Ok (Express.Redirect "/todos"), st1)
        /\ In (withCompleted true aliceTask) (todos st1)
        /\ web.postTodosToggle taskId
             (request "POST" "/todos/x/toggle" ∅ ∅ (Some aliceId)) st1
           = (Ok (Express.Redirect "/todos"), store0)).
Proof.
  exact (double_toggle_restores store0 aliceTask taskId aliceId
           (request "POST" "/todos/x/toggle" ∅ ∅ (Some aliceId))
           store0_uniqueIds (or_introl eq_refl) eq_refl eq_refl eq_refl eq_refl).
Defined.

(** Alice toggles her task once. *)
Lemma toggle_changes_flag_only_witness :
  exists l1 l2 t',
    todos store0 = l1 ++ aliceTask :: l2
    /\ Todo._id t' = taskId
    /\ Todo.text t' = "buy milk"
    /\ Todo.createdAt t' = 1000
    /\ Todo.userId t' = aliceId
    /\ Todo.completed t' = true
    /\ todoResolvers.toggleTodo taskId asAlice store0
       = (Ok (todoResolvers.payloadOf t'),
          {| todos := l1 ++ t' :: l2; users := users store0 |})
    /\ web.postTodosToggle taskId
         (request "POST" "/todos/x/toggle" ∅ ∅ (Some aliceId)) store0
       = (Ok (Express.Redirect "/todos"),
          {| todos := l1 ++ t' :: l2; users := users store0 |}).
Proof.
  exact (toggle_changes_flag_only store0 aliceTask taskId aliceId
           (request "POST" "/todos/x/toggle" ∅ ∅ (Some aliceId))
           store0_uniqueIds (or_introl eq_refl) eq_refl eq_refl eq_refl eq_refl).
Defined.

(** A request without a token cookie, one whose token does not verify, and
    one whose token does. *)
Lemma jwtAuth_always_continues_witness :
  auth.jwtAuth processEnv (request "GET" "/todos" ∅ ∅ None)
  = Express.Next (request "GET" "/todos" ∅ ∅ None)
  /\ auth.jwtAuth processEnv
       (request "GET" "/todos" {[ "token" := "forged." +:+ aliceId ]} ∅ None)
     = Express.Next
         (request "GET" "/todos" {[ "token" := "forged." +:+ aliceId ]} ∅ None)
  /\ auth.jwtAuth processEnv
       (request "GET" "/todos" {[ "token" := "s3cret." +:+ aliceId ]} ∅ None)
     = Express.Next
         (request "GET" "/todos" {[ "token" := "s3cret." +:+ aliceId ]} ∅
            (Some aliceId)).
Proof.
  split; [|split].
  - destruct (jwtAuth_always_continues processEnv
                (request "GET" "/todos" ∅ ∅ None))
      as (req' & Hnext & _ & Habsent & _).
    exact (eq_trans Hnext (f_equal Express.Next (Habsent eq_refl))).
  - destruct (jwtAuth_always_continues processEnv
                (request "GET" "/todos" {[ "token" := "forged." +:+ aliceId ]}
                   ∅ None))
      as (req' & Hnext & _ & _ & Hinvalid).
    exact (eq_trans Hnext
             (f_equal Express.Next (Hinvalid _ eq_refl eq_refl))).
  - reflexivity.
Defined.

(** An anonymous request to a task operation of the API. *)
Lemma api_identity_check_witness :
  index.execute processEnv env0 (OpToggleTodo taskId)
    (request "POST" "/graphql" ∅ ∅ None) store0
  = (Throw (Error "Authentication required"), store0).
Proof.
  exact (proj1 (api_identity_check processEnv env0 (OpToggleTodo taskId)
                  (request "POST" "/graphql" ∅ ∅ None) store0)
           eq_refl eq_refl).
Defined.

(** Nobody is logged in, and yet [register] stores a user and [login]
    answers with a token. *)
Lemma account_operations_need_no_identity :
  index.execute processEnv env0 (OpRegister "carol" "pw")
    (request "POST" "/graphql" ∅ ∅ None) store0
  = (Ok (index.DUser {| userResolvers.id := newId;
                        userResolvers.username := "carol" |}),
     {| todos := [aliceTask];
        users := [alice; bob; @User.mkUser driver newId "carol" "$2a$10$pw"] |})
  /\ index.execute processEnv env0 (OpLogin "alice" "Abcd1234!")
       (request "POST" "/graphql" ∅ ∅ None) store0
     = (Ok (index.DToken ("s3cret." +:+ aliceId)), store0).
Proof. by vm_compute. Qed.


Lemma newId_is_no_user : ~ In newId (List.map User._id (users store0)).
Proof. intros [H|[H|[]]]; discriminate H. Defined.

Lemma al_is_new : ~ In "al" (List.map User.username (users store0)).
Proof. intros [H|[H|[]]]; discriminate H. Defined.

(** A two-letter user name with a one-letter password, and Alice's name
    once more. *)
Lemma register_checks_only_duplicates_witness :
  userResolvers.register env0 "al" "x" store0
  = (Ok {| userResolvers.id := newId; userResolvers.username := "al" |},
     {| todos := [aliceTask];
        users := [alice; bob; @User.mkUser driver newId "al" "$2a$10$x"] |})
  /\ userResolvers.register env0 "alice" "Abcd1234!" store0
     = (Throw (Error "Username already exists"), store0).
Proof.
  exact (conj
           (proj1 (register_checks_only_duplicates env0 "al" "x" store0
                     newId_is_no_user) al_is_new)
           (proj1 (proj2 (register_checks_only_duplicates env0 "alice"
                            "Abcd1234!" store0 newId_is_no_user))
              (or_introl eq_refl))).
Defined.

(** C2, on the code.  The API's login answers an unknown user name with
    "User not found" and a wrong password with "Invalid password": two
    different messages.  The web form answers both with "Invalid username
    or password". *)
Theorem api_login_tells_failures_apart :
  userResolvers.login processEnv "mallory" "Abcd1234!" store0
  = (Throw (Error "User not found"), store0)
  /\ userResolvers.login processEnv "alice" "wrong" store0
     = (Throw (Error "Invalid password"), store0)
  /\ Error "User not found" <> Error "Invalid password"
  /\ web.postLogin processEnv
       (request "POST" "/login" ∅
          {[ "username" := "mallory"; "password" := "Abcd1234!" ]} None) store0
     = (Ok (Express.Render 400
              (Express.LoginView
                 [web.fieldError "password" "Invalid username or password"]
                 "mallory")), store0)
  /\ web.postLogin processEnv
       (request "POST" "/login" ∅
          {[ "username" := "alice"; "password" := "wrong" ]} None) store0
     = (Ok (Express.Render 400
              (Express.LoginView
                 [web.fieldError "password" "Invalid username or password"]
                 "alice")), store0).
Proof.
  destruct (login_failures processEnv "mallory" "Abcd1234!" store0)
    as [Hunknown _].
  destruct (login_failures processEnv "alice" "wrong" store0) as [_ Hwrong].
  split_and!.
  - by apply Hunknown.
  - by apply (Hwrong alice).
  - discriminate.
  - by vm_compute.
  - by vm_compute.
Qed.

(** C4, on the code.  A text of three blanks is empty after trimming; the
    web form refuses it and stores nothing, the API's [addTodo] accepts it
    and stores a task whose text is the three blanks. *)
Theorem api_addTodo_accepts_blank_text :
  JS.trim "   " = ""
  /\ todoResolvers.addTodo env0 "   " asAlice store0
     = (Ok {| todoResolvers.id := newId; todoResolvers.text := "   ";
              todoResolvers.completed := false;
              todoResolvers.createdAt := "2000" |},
        {| todos := [aliceTask; @Todo.mkTodo driver newId "   " false 2000 aliceId];
           users := [alice; bob] |})
  /\ web.postTodosAdd env0
       (request "POST" "/todos/add" ∅ {[ "text" := "   " ]} (Some aliceId)) store0
     = (Ok (Express.Render 400
              (Express.TodosView [aliceTask] (Some alice)
                 [web.fieldError "text" "Todo text cannot be empty"])), store0).
Proof.
  split; [done|]. split; by vm_compute.
Qed.

(** C5, on the code.  Alice has one task; the first page of [todos] is not
    returned: the resolver throws "Failed to fetch todos".  The page the
    query found holds her task; the resolver fails on the plain object,
    which has no [id]. *)
Theorem todos_fails_on_a_stored_task :
  todoResolvers.findPage aliceId 0 10 (todos store0) = Ok [aliceTask]
  /\ todoResolvers.leanPayload (todoResolvers.lean aliceTask)
     = Throw (todoResolvers.TypeError_undefined "toString")
  /\ todoResolvers.todos
       {| todoResolvers.args_skip := Some 0; todoResolvers.args_take := Some 10 |}
       asAlice store0
     = (Throw (Error "Failed to fetch todos"), store0)
  /\ todoResolvers.todos
       {| todoResolvers.args_skip := Some 0; todoResolvers.args_take := Some 10 |}
       asBob store0
     = (Ok [], store0).
Proof.
  split; [done|]. split; [apply leanPayload_throws|]. split.
  - by rewrite (todos_by_page aliceId (aliceId : @ObjectId driver)
                  (Some 0) (Some 10) store0 [aliceTask]).
  - by rewrite (todos_by_page bobId (bobId : @ObjectId driver)
                  (Some 0) (Some 10) store0 []).
Qed.

Lemma fourTasks_uniqueIds : NoDup (List.map Todo._id fourTasks).
Proof.
  exact (bool_decide_unpack (NoDup (List.map Todo._id fourTasks)) I).
Defined.

Lemma aliceListing_complete :
  Permutation aliceListing
    (List.filter (Todo.ownedBy (aliceId : @ObjectId driver)) fourTasks).
Proof.
  symmetry.
  exact (Permutation_rev
           (List.filter (Todo.ownedBy (aliceId : @ObjectId driver)) fourTasks)).
Defined.

Lemma aliceListing_strict : StronglySorted strictlyNewerFirst aliceListing.
Proof. repeat constructor. Defined.

(** Pages of two tasks each, over the three tasks of Alice. *)
Lemma findPage_two_windows_witness :
  exists w1 w2,
    todoResolvers.findPage aliceId 0 2 fourTasks = Ok w1
    /\ todoResolvers.findPage aliceId 2 2 fourTasks = Ok w2
    /\ w1 = firstn 2 aliceListing
    /\ w2 = firstn 2 (skipn 2 aliceListing)
    /\ w1 ++ w2 = firstn 4 aliceListing
    /\ StronglySorted strictlyNewerFirst (w1 ++ w2)
    /\ NoDup (w1 ++ w2)
    /\ (forall d, In d (w1 ++ w2) -> In d fourTasks /\ Todo.userId d = aliceId)
    /\ ((List.length aliceListing <= 4)%nat ->
        Permutation (w1 ++ w2)
          (List.filter (Todo.ownedBy (aliceId : @ObjectId driver)) fourTasks)).
Proof.
  exact (findPage_two_windows (aliceId : @ObjectId driver) 2 fourTasks
           aliceListing eq_refl aliceListing_complete aliceListing_strict).
Defined.

(** A task added through the API. *)
Lemma app_keeps_uniqueIds_witness :
  uniqueIds
    (index.app processEnv env0 "fresh"
       (request "POST" "/graphql" ∅
          {[ "operation" := "addTodo"; "text" := "call home" ]} (Some aliceId))
       store0).2.
Proof.
  exact (app_keeps_uniqueIds processEnv env0 "fresh"
           (request "POST" "/graphql" ∅
              {[ "operation" := "addTodo"; "text" := "call home" ]}
              (Some aliceId))
           store0 store0_uniqueIds).
Defined.

(** A login form with a wrong password. *)
Lemma postLogin_one_message_witness :
  web.postLogin processEnv
    (request "POST" "/login" ∅
       {[ "username" := " alice "; "password" := "wrong" ]} None) store0
  = (Ok (Express.Render 400
           (Express.LoginView
              [web.fieldError "password" "Invalid username or password"]
              "alice")), store0).
Proof.
  exact (postLogin_one_message processEnv
           (request "POST" "/login" ∅
              {[ "username" := " alice "; "password" := "wrong" ]} None)
           store0 eq_refl eq_refl
           (or_intror
              (ex_intro _ []
                 (ex_intro _ alice
                    (ex_intro _ [bob]
                       (conj eq_refl
                          (conj (fun H => H) (conj eq_refl eq_refl)))))))).
Defined.

(** A task form whose text has blanks around it. *)
Lemma postTodosAdd_outcome_witness :
  web.postTodosAdd env0
    (request "POST" "/todos/add" ∅ {[ "text" := "  call home " ]} (Some aliceId))
    store0
  = (Ok (Express.Redirect "/todos"),
     {| todos := [aliceTask;
                  @Todo.mkTodo driver newId "call home" false 2000 aliceId];
        users := [alice; bob] |}).
Proof.
  exact (postTodosAdd_outcome env0
           (request "POST" "/todos/add" ∅ {[ "text" := "  call home " ]}
              (Some aliceId))
           aliceId (aliceId : @ObjectId driver) store0
           eq_refl eq_refl eq_refl newId_is_no_task).
Defined.

(** The same text through the API. *)
Lemma addTodo_outcome_witness :
  todoResolvers.addTodo env0 "  call home " asAlice store0
  = (Ok {| todoResolvers.id := newId; todoResolvers.text := "  call home ";
           todoResolvers.completed := false;
           todoResolvers.createdAt := "2000" |},
     {| todos := [aliceTask;
                  @Todo.mkTodo driver newId "  call home " false 2000 aliceId];
        users := [alice; bob] |}).
Proof.
  exact (addTodo_outcome env0 "  call home " aliceId
           (aliceId : @ObjectId driver) store0 eq_refl eq_refl newId_is_no_task).
Defined.

Lemma al_is_too_short :
  isLength 3
    (trim (web.field "username"
             (request "POST" "/register" ∅
                {[ "username" := "al"; "password" := "x";
                   "confirmPassword" := "x" ]} None)))
  = false.
Proof. by vm_compute. Defined.

(** A register form with a short user name and a weak password. *)
Lemma postRegister_field_rules_witness :
  exists errors,
    errors <> []
    /\ web.postRegister env0
         (request "POST" "/register" ∅
            {[ "username" := "al"; "password" := "x"; "confirmPassword" := "x" ]}
            None) store0
       = (Ok (Express.Render 400 (Express.RegisterView errors "al")), store0)
    /\ In (web.fieldError "username" "Username must be at least 3 characters")
         errors
    /\ In (web.fieldError "password"
             "Password must be at least 8 chars, include uppercase, lowercase, number & symbol")
         errors.
Proof.
  destruct (postRegister_field_rules env0
              (request "POST" "/register" ∅
                 {[ "username" := "al"; "password" := "x";
                    "confirmPassword" := "x" ]} None)
              store0 (or_introl al_is_too_short))
    as (errors & Hsome & Hrun & Hname & Hweak & _).
  exists errors.
  exact (conj Hsome
           (conj Hrun (conj (Hname al_is_too_short) (Hweak eq_refl)))).
Defined.

(** The task page without a session, and a form post without one. *)
Lemma protected_routes_redirect_witness :
  web.router processEnv env0 (request "GET" "/todos" ∅ ∅ None) store0
  = (Ok (Some (Express.Redirect "/login")), store0)
  /\ web.router processEnv env0
       (request "POST" "/todos/add" ∅ {[ "text" := "call home" ]} None) store0
     = (Ok (Some (Express.Redirect "/login")), store0).
Proof.
  exact (conj
           (protected_routes_redirect processEnv env0
              (request "GET" "/todos" ∅ ∅ None) RTodos store0
              eq_refl eq_refl eq_refl eq_refl)
           (protected_routes_redirect processEnv env0
              (request "POST" "/todos/add" ∅ {[ "text" := "call home" ]} None)
              RTodosAdd store0 eq_refl eq_refl eq_refl eq_refl)).
Defined.

(** Alice's first page. *)
Lemma todos_fails_with_a_task_witness :
  todoResolvers.todos
    {| todoResolvers.args_skip := Some 0; todoResolvers.args_take := Some 5 |}
    asAlice store0
  = (Throw (Error "Failed to fetch todos"), store0).
Proof.
  exact (todos_fails_with_a_task aliceId (aliceId : @ObjectId driver) 5 store0
           aliceTask eq_refl eq_refl eq_refl (or_introl eq_refl) eq_refl).
Defined.

(** The scenario of a new user, step by step through the API: register,
    log in, add a task, list, toggle, delete, list.  Every step does what
    its name says except the first listing, which finds the task and
    fails on it. *)
Example api_scenario :
  let anon := request "POST" "/graphql" ∅ ∅ None in
  let carol := request "POST" "/graphql" ∅ ∅ (Some aliceId) in
  let e1 := @mkEnv driver aliceId 1000 in
  let e2 := @mkEnv driver taskId 2000 in
  let run := index.execute processEnv in
  let s1 := (run e1 (OpRegister "carol" "Abcd1234!") anon emptyStore).2 in
  let s3 := (run e2 (OpAddTodo "buy milk") carol s1).2 in
  let s5 := (run e2 (OpToggleTodo taskId) carol s3).2 in
  let s6 := (run e2 (OpDeleteTodo taskId) carol s5).2 in
  (run e1 (OpLogin "carol" "Abcd1234!") anon s1).1
  = Ok (index.DToken ("s3cret." +:+ aliceId))
  /\ (run e2 (OpAddTodo "buy milk") carol s1).1
     = Ok (index.DTodo {| todoResolvers.id := taskId;
                          todoResolvers.text := "buy milk";
                          todoResolvers.completed := false;
                          todoResolvers.createdAt := "2000" |})
  /\ (run e2 (OpTodos (Some 0) (Some 10)) carol s3).1
     = Throw (Error "Failed to fetch todos")
  /\ (run e2 (OpToggleTodo taskId) carol s3).1
     = Ok (index.DTodo {| todoResolvers.id := taskId;
                          todoResolvers.text := "buy milk";
                          todoResolvers.completed := true;
                          todoResolvers.createdAt := "2000" |})
  /\ (run e2 (OpDeleteTodo taskId) carol s5).1 = Ok (index.DBoolean true)
  /\ (run e2 (OpTodos (Some 0) (Some 10)) carol s6).1 = Ok (index.DTodos []).
Proof. by vm_compute. Qed.

End Examples.

(** * Further runs on concrete requests *)

Section FurtherExamples.
#[local] Existing Instance Fixture.driver.
#[local] Existing Instance Fixture.bcrypt.
#[local] Existing Instance Fixture.jwt.
#[local] Existing Instance Fixture.jsDate.
#[local] Existing Instance Fixture.validator.
#[local] Existing Instance Fixture.router.
#[local] Existing Instance Fixture.csrf.
#[local] Existing Instance Fixture.platform.
Import Fixture.

(** The task page, asked for by Alice. *)
Lemma router_safe_methods_witness :
  (web.router processEnv env0 (request "GET" "/todos" ∅ ∅ (Some aliceId))
     store0).2
  = store0.
Proof.
  exact (router_safe_methods processEnv env0
           (request "GET" "/todos" ∅ ∅ (Some aliceId)) store0
           (or_introl eq_refl)).
Defined.

(** Alice adds a task: the users stay. *)
Lemma execute_keeps_collections_apart_witness :
  users (index.execute processEnv env0 (OpAddTodo "call home")
           (request "POST" "/graphql" ∅ ∅ (Some aliceId)) store0).2
  = users store0.
Proof.
  exact (proj1 (execute_keeps_collections_apart processEnv env0
                  (OpAddTodo "call home")
                  (request "POST" "/graphql" ∅ ∅ (Some aliceId)) store0)
           eq_refl).
Defined.

Lemma store0_uniqueNames : uniqueNames store0.
Proof.
  exact (bool_decide_unpack (NoDup (List.map User.username (users store0))) I).
Defined.

(** A second registration under Alice's name. *)
Lemma app_keeps_uniqueNames_witness :
  uniqueNames
    (index.app processEnv env0 "fresh"
       (request "POST" "/graphql" ∅
          {[ "operation" := "register"; "username" := "alice";
             "password" := "x" ]} None)
       store0).2.
Proof.
  exact (app_keeps_uniqueNames processEnv env0 "fresh"
           (request "POST" "/graphql" ∅
              {[ "operation" := "register"; "username" := "alice";
                 "password" := "x" ]} None)
           store0 store0_uniqueNames).
Defined.

(** Alice deletes her task. *)
Lemma owner_delete_removes_the_task_witness :
  exists l1 l2 st',
    todos store0 = l1 ++ aliceTask :: l2
    /\ st' = {| todos := l1 ++ l2; users := users store0 |}
    /\ todoResolvers.deleteTodo taskId asAlice store0 = (Ok true, st')
    /\ web.postTodosDelete taskId
         (request "POST" "/todos/x/delete" ∅ ∅ (Some aliceId)) store0
       = (Ok (Express.Redirect "/todos"), st')
    /\ ~ In (Todo._id aliceTask) (List.map Todo._id (todos st'))
    /\ todoResolvers.deleteTodo taskId asAlice st'
       = (Throw (Error "Todo not found"), st')
    /\ todoResolvers.toggleTodo taskId asAlice st'
       = (Throw (Error "Todo not found"), st').
Proof.
  exact (owner_delete_removes_the_task store0 aliceTask taskId aliceId
           (request "POST" "/todos/x/delete" ∅ ∅ (Some aliceId))
           store0_uniqueIds (or_introl eq_refl) eq_refl eq_refl eq_refl eq_refl).
Defined.

(** Alice adds a task and deletes it again. *)
Lemma addTodo_then_deleteTodo_witness :
  exists p st1,
    todoResolvers.addTodo env0 "call home" asAlice store0 = (Ok p, st1)
    /\ todoResolvers.id p = newId
    /\ todoResolvers.text p = "call home"
    /\ todoResolvers.completed p = false
    /\ todoResolvers.createdAt p = "2000"
    /\ todoResolvers.deleteTodo (todoResolvers.id p) asAlice st1
       = (Ok true, store0).
Proof.
  exact (addTodo_then_deleteTodo env0 "call home" aliceId
           (aliceId : @ObjectId driver) store0
           eq_refl eq_refl eq_refl newId_is_no_task eq_refl).
Defined.

(** An identifier of three letters. *)
Lemma malformed_id_is_not_looked_up_witness :
  todoResolvers.toggleTodo "xyz" asAlice store0
  = (Throw (Error "input must be a 24 character hex string, 12 byte Uint8Array, or an integer"),
     store0)
  /\ todoResolvers.deleteTodo "xyz" asAlice store0
     = (Throw (Error "input must be a 24 character hex string, 12 byte Uint8Array, or an integer"),
        store0)
  /\ web.postTodosToggle "xyz"
       (request "POST" "/todos/xyz/toggle" ∅ ∅ (Some aliceId)) store0
     = (Throw castError, store0)
  /\ web.postTodosDelete "xyz"
       (request "POST" "/todos/xyz/toggle" ∅ ∅ (Some aliceId)) store0
     = (Throw castError, store0).
Proof.
  exact (malformed_id_is_not_looked_up "xyz" aliceId
           (request "POST" "/todos/xyz/toggle" ∅ ∅ (Some aliceId)) store0
           eq_refl eq_refl eq_refl).
Defined.


Lemma two_is_no_negative_offset : 0 <= 2.
Proof. done. Defined.

Lemma five_take_all :
  (List.length
     (List.filter (Todo.ownedBy (aliceId : @ObjectId driver)) fourTasks)
   <= Z.to_nat 5)%nat.
Proof. vm_compute. lia. Defined.

(** The second page of two out of Alice's three tasks, and a page of five
    from the start. *)
Lemma findPage_bounds_witness :
  (exists page,
      todoResolvers.findPage aliceId 2 2 fourTasks = Ok page
      /\ List.length page = 1%nat
      /\ forall d, In d page -> In d fourTasks /\ Todo.userId d = aliceId)
  /\ (exists page,
        todoResolvers.findPage aliceId 0 5 fourTasks = Ok page
        /\ List.length page = 3%nat
        /\ Permutation page
             (List.filter (Todo.ownedBy (aliceId : @ObjectId driver)) fourTasks)).
Proof.
  destruct (findPage_bounds (aliceId : @ObjectId driver) 2 2 fourTasks
              two_is_no_negative_offset eq_refl)
    as (page & Hpage & Hlen & Hown & _).
  destruct (findPage_bounds (aliceId : @ObjectId driver) 0 5 fourTasks
              (Z.le_refl 0) eq_refl)
    as (page' & Hpage' & Hlen' & _ & _ & _ & Hall).
  exact (conj
           (ex_intro _ page (conj Hpage (conj Hlen Hown)))
           (ex_intro _ page'
              (conj Hpage' (conj Hlen' (Hall eq_refl five_take_all))))).
Defined.

Lemma carol_is_long_enough :
  isLength 3 (trim (web.field "username" carolForm)) = true.
Proof. by vm_compute. Defined.

Lemma carol_is_new :
  ~ In (trim (web.field "username" carolForm))
      (List.map User.username (users store0)).
Proof. vm_compute. intros [H|[H|[]]]; discriminate H. Defined.

Lemma alice_is_long_enough :
  isLength 3 (trim (web.field "username" aliceForm)) = true.
Proof. by vm_compute. Defined.

Lemma alice_is_taken :
  In (trim (web.field "username" aliceForm))
    (List.map User.username (users store0)).
Proof. vm_compute. by left. Defined.

(** A register form that passes the rules, with blanks around a new name,
    and one under Alice's name. *)
Lemma postRegister_outcome_witness :
  web.postRegister env0 carolForm store0
  = (Ok (Express.Redirect "/login"),
     {| todos := [aliceTask];
        users := [alice; bob;
                  @User.mkUser driver newId "carol" "$2a$10$Abcd1234!"] |})
  /\ web.postRegister env0 aliceForm store0
     = (Ok (Express.Render 400
              (Express.RegisterView
                 [web.fieldError "username" "Username already taken"]
                 "alice")), store0).
Proof.
  exact (conj
           (proj2 (postRegister_outcome env0 carolForm store0
                     carol_is_long_enough eq_refl eq_refl newId_is_no_user)
              carol_is_new)
           (proj1 (postRegister_outcome env0 aliceForm store0
                     alice_is_long_enough eq_refl eq_refl newId_is_no_user)
              alice_is_taken)).
Defined.

(** A request with Alice's token and no identifier yet. *)
Lemma authMiddleware_agrees_with_jwtAuth_witness :
  exists req',
    auth.jwtAuth processEnv
      (request "GET" "/todos" {[ "token" := "s3cret." +:+ aliceId ]} ∅ None)
    = Express.Next req'
    /\ auth.userId
         (auth.authMiddleware processEnv
            (request "GET" "/todos" {[ "token" := "s3cret." +:+ aliceId ]} ∅
               None))
       = Express.userId req'.
Proof.
  exact (authMiddleware_agrees_with_jwtAuth processEnv
           (request "GET" "/todos" {[ "token" := "s3cret." +:+ aliceId ]} ∅ None)
           eq_refl).
Defined.

(** The secret set to the empty string. *)
Lemma jwt_secrets_agree_witness :
  web.JWT_SECRET {| JWT_SECRET := Some ""; NODE_ENV := None |}
  = "your-secret-key"
  /\ auth.JWT_SECRET {| JWT_SECRET := Some ""; NODE_ENV := None |} = "".
Proof.
  exact (proj2 (proj2 (jwt_secrets_agree
                         {| JWT_SECRET := Some ""; NODE_ENV := None |}))
           eq_refl).
Defined.

(** Alice logs in. *)
Lemma login_starts_a_session_witness :
  exists cookie token,
    web.postLogin processEnv
      (request "POST" "/login" ∅
         {[ "username" := "alice"; "password" := "Abcd1234!" ]} None) store0
    = (Ok (Express.SetCookie "token" cookie (Express.Redirect "/todos")), store0)
    /\ userResolvers.login processEnv "alice" "Abcd1234!" store0
       = (Ok token, store0)
    /\ forall (next : Express.Request) jar t,
         Express.cookies next = Some jar ->
         jar !! "token" = Some t ->
         t = cookie \/ t = token ->
         auth.jwtAuth processEnv next
         = Express.Next (Express.setUserId aliceId next).
Proof.
  exact (login_starts_a_session processEnv
           (request "POST" "/login" ∅
              {[ "username" := "alice"; "password" := "Abcd1234!" ]} None)
           store0 [] [bob] alice
           (fun ttl => conj eq_refl eq_refl) ltac:(by vm_compute)
           eq_refl eq_refl eq_refl (fun H => H) eq_refl eq_refl eq_refl).
Defined.

(** Carol registers and logs in. *)
Lemma register_then_login_witness :
  exists p st1,
    userResolvers.register env0 "carol" "Abcd1234!" store0 = (Ok p, st1)
    /\ userResolvers.login processEnv "carol" "Abcd1234!" st1
       = (Ok (jwt_sign {| payload_userId := Some (userResolvers.id p) |}
                (userResolvers.JWT_SECRET processEnv) "7d"), st1)
    /\ forall wrong,
         bcrypt_compare wrong (bcrypt_hash "Abcd1234!") = false ->
         userResolvers.login processEnv "carol" wrong st1
         = (Throw (Error "Invalid password"), st1).
Proof.
  exact (register_then_login processEnv env0 "carol" "Abcd1234!" store0
           eq_refl eq_refl newId_is_no_user).
Defined.

(** The task page is fetched, then its form is posted. *)
Lemma csrf_token_round_trip_witness :
  index.csrfDispatch "fresh"
    (request "GET" "/todos" {[ "_csrf" := "s1" ]} ∅ (Some aliceId))
  = Express.Next {| index.csrfToken := Some "csrf-s1" |}
  /\ index.csrfDispatch "other"
       (request "POST" "/todos/add" {[ "_csrf" := "s1" ]}
          {[ "_csrf" := "csrf-s1"; "text" := "call home" ]} (Some aliceId))
     = Express.Next {| index.csrfToken := Some "csrf-s1" |}.
Proof.
  exact (csrf_token_round_trip "s1" "fresh" "other"
           (request "GET" "/todos" {[ "_csrf" := "s1" ]} ∅ (Some aliceId))
           (request "POST" "/todos/add" {[ "_csrf" := "s1" ]}
              {[ "_csrf" := "csrf-s1"; "text" := "call home" ]} (Some aliceId))
           {[ "_csrf" := "s1" ]} {[ "_csrf" := "s1" ]}
           eq_refl eq_refl eq_refl eq_refl eq_refl eq_refl eq_refl
           eq_refl eq_refl eq_refl eq_refl).
Defined.

Lemma lost_document_is_no_csrf_error :
  code (@documentNotFoundError driver) <> Some "EBADCSRFTOKEN".
Proof. by vm_compute. Defined.

(** A lost document, on a web route in production. *)
Lemma errorHandlers_answers_witness :
  index.errorHandlers processEnv documentNotFoundError
    (request "POST" "/todos/x/toggle" ∅ ∅ (Some aliceId))
  = Express.Render 500 (Express.ErrorView "No document found for query" false).
Proof.
  exact (proj2 (proj2 (proj1 (proj2
           (errorHandlers_answers processEnv documentNotFoundError
              (request "POST" "/todos/x/toggle" ∅ ∅ (Some aliceId))))
           lost_document_is_no_csrf_error)) eq_refl).
Defined.

(** Alice's toggle, sent to the API with her token and no anti-forgery
    token. *)
Lemma app_reaches_the_api_witness :
  index.app processEnv env0 "fresh"
    (request "POST" "/graphql" {[ "token" := "s3cret." +:+ aliceId ]}
       {[ "operation" := "toggleTodo"; "id" := taskId ]} None) store0
  = (Ok (index.GraphQL
           (index.execute processEnv env0 (OpToggleTodo taskId)
              (request "POST" "/graphql" {[ "token" := "s3cret." +:+ aliceId ]}
                 {[ "operation" := "toggleTodo"; "id" := taskId ]}
                 (Some aliceId)) store0).1),
     (index.execute processEnv env0 (OpToggleTodo taskId)
        (request "POST" "/graphql" {[ "token" := "s3cret." +:+ aliceId ]}
           {[ "operation" := "toggleTodo"; "id" := taskId ]}
           (Some aliceId)) store0).2).
Proof.
  exact (app_reaches_the_api processEnv env0 "fresh"
           (request "POST" "/graphql" {[ "token" := "s3cret." +:+ aliceId ]}
              {[ "operation" := "toggleTodo"; "id" := taskId ]} None)
           (request "POST" "/graphql" {[ "token" := "s3cret." +:+ aliceId ]}
              {[ "operation" := "toggleTodo"; "id" := taskId ]} (Some aliceId))
           (OpToggleTodo taskId) store0
           eq_refl eq_refl ltac:(by vm_compute) eq_refl eq_refl eq_refl eq_refl
           eq_refl).
Defined.

(** Bob sends Alice's task identifier to the API's delete. *)
Lemma app_leaves_other_users_tasks_witness :
  othersOf (bobId : @ObjectId driver)
    (todos (index.app processEnv env0 "fresh"
              (request "POST" "/graphql" {[ "token" := "s3cret." +:+ bobId ]}
                 {[ "operation" := "deleteTodo"; "id" := taskId ]} None)
              store0).2)
  = othersOf (bobId : @ObjectId driver) (todos store0).
Proof.
  exact (app_leaves_other_users_tasks processEnv env0 "fresh"
           (request "POST" "/graphql" {[ "token" := "s3cret." +:+ bobId ]}
              {[ "operation" := "deleteTodo"; "id" := taskId ]} None)
           (request "POST" "/graphql" {[ "token" := "s3cret." +:+ bobId ]}
              {[ "operation" := "deleteTodo"; "id" := taskId ]} (Some bobId))
           bobId (bobId : @ObjectId driver) store0
           store0_uniqueIds eq_refl eq_refl eq_refl).
Defined.

(** The same delete with a forged token. *)
Lemma app_anonymous_changes_no_task_witness :
  todos (index.app processEnv env0 "fresh"
           (request "POST" "/graphql" {[ "token" := "forged." +:+ aliceId ]}
              {[ "operation" := "deleteTodo"; "id" := taskId ]} None)
           store0).2
  = todos store0.
Proof.
  exact (app_anonymous_changes_no_task processEnv env0 "fresh"
           (request "POST" "/graphql" {[ "token" := "forged." +:+ aliceId ]}
              {[ "operation" := "deleteTodo"; "id" := taskId ]} None)
           (request "POST" "/graphql" {[ "token" := "forged." +:+ aliceId ]}
              {[ "operation" := "deleteTodo"; "id" := taskId ]} None)
           store0 eq_refl eq_refl).
Defined.

End FurtherExamples.
